(** * Colour Game of Life engine ([wow.py]): model and verified properties

    The development embeds the simulation engine of the repository (class
    [GameOfLife] and class [MandelbrotGenerator] of [wow.py]) as Rocq
    functions and proves the properties of its specification.  It also
    embeds the painting, the pattern loaders and the key and pointer
    handlers of [GameOfLifeVisualizer], the Julia generator and the step of
    the engine of [scrips3.py], and proves further properties of them.

    Conventions of the embedding:
    - Python [int] is [Z]; [//] is [Z.div] and [%] is [Z.modulo] (both round
      towards minus infinity for a positive divisor, as in Python), with the
      [ZeroDivisionError] of a zero divisor made explicit;
    - a finite Python [float] is the rational it denotes ([Q]); comparisons of
      finite floats are exact, and a float literal stands for the binary64
      value nearest to it;
    - a raised exception is [None];
    - NumPy's process-wide generator is an explicit state threaded through
      every call that draws from it;
    - a 2-D [ndarray] is its shape together with the list of its rows;
    - [print] calls are not modelled. *)

From Stdlib Require Import ZArith QArith List Bool Lia.
Import ListNotations.
Local Open Scope Z_scope.

(** ** Python built-ins used by the engine *)

Module Py.

(** Exceptions: the option monad. *)
Definition bind {A B : Type} (o : option A) (k : A -> option B) : option B :=
  match o with
  | Some a => k a
  | None => None
  end.

(** [for a in l: s = body(s, a)], where the body may raise. *)
Fixpoint for_ {A S : Type} (l : list A) (body : S -> A -> option S) (s : S)
  : option S :=
  match l with
  | [] => Some s
  | a :: l' => bind (body s a) (for_ l' body)
  end.

(** [range(lo, hi)]. *)
Definition range (lo hi : Z) : list Z :=
  map (fun i => lo + Z.of_nat i) (seq 0 (Z.to_nat (hi - lo))).

(** [a % b]: [ZeroDivisionError] when [b] is zero. *)
Definition mod_ (a b : Z) : option Z :=
  if b =? 0 then None else Some (a mod b).

(** [x in l] for a list of integers. *)
Definition in_ (x : Z) (l : list Z) : bool := existsb (Z.eqb x) l.

(** A [dict] from integers to integers keeps its insertion order: an
    association list with distinct keys. *)
Definition dict := list (Z * Z).

Definition keys (d : dict) : list Z := map fst d.
Definition values (d : dict) : list Z := map snd d.

(** [d.get(k, default)]. *)
Fixpoint get (d : dict) (k : Z) (default : Z) : Z :=
  match d with
  | [] => default
  | (k', v) :: d' => if k' =? k then v else get d' k default
  end.

(** [d[k]]: [KeyError] when [k] is absent. *)
Fixpoint getitem (d : dict) (k : Z) : option Z :=
  match d with
  | [] => None
  | (k', v) :: d' => if k' =? k then Some v else getitem d' k
  end.

(** [d[k] += n]: [KeyError] when [k] is absent, the key keeps its place. *)
Fixpoint iadd (d : dict) (k n : Z) : option dict :=
  match d with
  | [] => None
  | (k', v) :: d' =>
      if k' =? k then Some ((k', v + n) :: d')
      else bind (iadd d' k n) (fun d'' => Some ((k', v) :: d''))
  end.

(** [sum(l)]. *)
Definition sum (l : list Z) : Z := fold_left Z.add l 0.

(** [any(l)] on integers: some element is non-zero. *)
Definition any (l : list Z) : bool := existsb (fun v => negb (v =? 0)) l.

(** [max(l, key=f)]: [ValueError] on the empty sequence; of several
    maximal elements the first one met is returned. *)
Definition max_key (f : Z -> option Z) (l : list Z) : option Z :=
  match l with
  | [] => None
  | x :: xs =>
      bind (f x) (fun fx =>
      bind (for_ xs (fun (best : Z * Z) y =>
                       bind (f y) (fun fy =>
                       Some (if snd best <? fy then (y, fy) else best)))
                 (x, fx))
           (fun best => Some (fst best)))
  end.

(** [max(l)]. *)
Definition max (l : list Z) : option Z := max_key Some l.

(** [min(l)]. *)
Definition min (l : list Z) : option Z :=
  match l with
  | [] => None
  | x :: xs => Some (fold_left Z.min xs x)
  end.

End Py.

Notation "'let?' x ':=' e 'in' k" := (Py.bind e (fun x => k))
  (at level 10, x pattern, e at level 100, k at level 200).

(** ** Floats *)

Module Float.

(** [x < y] on finite floats. *)
Definition ltb (x y : Q) : bool :=
  match (x ?= y)%Q with
  | Lt => true
  | _ => false
  end.

(** The binary64 values of the literals of [wow.py]. *)
Definition lit_0_6 : Q := 5404319552844595 # 9007199254740992.
Definition lit_0_4 : Q := 3602879701896397 # 9007199254740992.
Definition lit_0_7 : Q := 3152519739159347 # 4503599627370496.
Definition lit_0_1 : Q := 3602879701896397 # 36028797018963968.
Definition lit_0_3 : Q := 5404319552844595 # 18014398509481984.

End Float.

(** ** NumPy: the random generator and 2-D arrays *)

Module Np.

(** The state of [np.random]: an oracle tape of raw outputs and the number
    of draws made so far.  Every sequence of outcomes of the real generator
    is the reading of some tape. *)
Record RandomState := { tape : nat -> Z; pos : nat }.

Definition advance (r : RandomState) : RandomState :=
  {| tape := tape r; pos := S (pos r) |}.

(** Computations that draw random numbers and may raise. *)
Definition M (A : Type) : Type := RandomState -> option (A * RandomState).

Definition ret {A : Type} (a : A) : M A := fun r => Some (a, r).

Definition bind {A B : Type} (m : M A) (k : A -> M B) : M B :=
  fun r =>
    match m r with
    | Some (a, r') => k a r'
    | None => None
    end.

Definition lift {A : Type} (o : option A) : M A :=
  fun r =>
    match o with
    | Some a => Some (a, r)
    | None => None
    end.

(** [for a in l: s = body(s, a)] for a body that draws or raises. *)
Fixpoint for_ {A S : Type} (l : list A) (body : S -> A -> M S) (s : S)
  : M S :=
  match l with
  | [] => ret s
  | a :: l' => bind (body s a) (for_ l' body)
  end.

(** [np.random.random()]: a float [k / 2^53] with [0 <= k < 2^53]. *)
Definition random : M Q :=
  fun r => Some ((tape r (pos r) mod 9007199254740992)
                   # 9007199254740992, advance r).

(** [np.random.randint(lo, hi)] for [lo < hi]: an integer of [[lo, hi)]. *)
Definition randint (lo hi : Z) : M Z :=
  fun r => Some (lo + tape r (pos r) mod (hi - lo), advance r).

(** A 2-D array: [shape = (rows, columns)] and the rows. *)
Record ndarray := { shape : Z * Z; items : list (list Z) }.

(** [np.zeros((h, w))]: [ValueError] on a negative dimension. *)
Definition zeros (h w : Z) : option ndarray :=
  if (h <? 0) || (w <? 0) then None
  else Some {| shape := (h, w);
               items := repeat (repeat 0 (Z.to_nat w)) (Z.to_nat h) |}.

(** An integer index into an axis of length [n]: negative indices count
    from the end, anything outside [[-n, n)] is an [IndexError]. *)
Definition index (n i : Z) : option nat :=
  if (0 <=? i) && (i <? n) then Some (Z.to_nat i)
  else if (- n <=? i) && (i <? 0) then Some (Z.to_nat (i + n))
  else None.

(** [a[y, x]]. *)
Definition getitem (a : ndarray) (y x : Z) : option Z :=
  let? iy := index (fst (shape a)) y in
  let? ix := index (snd (shape a)) x in
  let? row := nth_error (items a) iy in
  nth_error row ix.

Fixpoint list_set {A : Type} (i : nat) (v : A) (l : list A) : list A :=
  match l, i with
  | [], _ => []
  | _ :: l', O => v :: l'
  | a :: l', S i' => a :: list_set i' v l'
  end.

(** [a[y, x] = v]; the engine only stores values that fit [uint8]. *)
Definition setitem (a : ndarray) (y x v : Z) : option ndarray :=
  let? iy := index (fst (shape a)) y in
  let? ix := index (snd (shape a)) x in
  let? row := nth_error (items a) iy in
  Some {| shape := shape a;
          items := list_set iy (list_set ix v row) (items a) |}.

(** [a.astype(np.uint8)] on an integer array: every element modulo 256. *)
Definition astype_uint8 (a : ndarray) : ndarray :=
  {| shape := shape a;
     items := map (map (fun v => v mod 256)) (items a) |}.

(** [np.sum(a)] on a [uint8] array: accumulated in the platform's unsigned
    integer, 64 bits wide. *)
Definition sum (a : ndarray) : Z :=
  Py.sum (map Py.sum (items a)) mod 18446744073709551616.

(** [np.where(a > 0)]: the row indices and the column indices of the
    positive elements, in row-major order. *)
Definition where_row (y : Z) (row : list Z) : list (Z * Z) :=
  map (fun xv => (y, fst xv))
      (filter (fun xv => snd xv >? 0)
              (combine (Py.range 0 (Z.of_nat (length row))) row)).

Definition where_gt0 (a : ndarray) : list Z * list Z :=
  let cells :=
    concat (map (fun yr => where_row (fst yr) (snd yr))
                (combine (Py.range 0 (Z.of_nat (length (items a))))
                         (items a))) in
  (map fst cells, map snd cells).

(** [np.min(l)], [np.max(l)]: [ValueError] on an empty array. *)
Definition amin (l : list Z) : option Z := Py.min l.
Definition amax (l : list Z) : option Z := Py.max l.

(** The bounds [(start, stop)] of a slice [start:stop] of an axis of
    length [n]. *)
Definition slice_bound (n i : Z) : Z :=
  if i <? 0 then Z.max (i + n) 0 else Z.min i n.

(** Broadcasting of the source of an assignment along one axis: a source
    of length [s] fits [n] places when [s = n] or [s = 1]; a single item
    is then repeated. *)
Definition fits (s n : Z) : bool := (s =? n) || (s =? 1).

Definition stretch {A : Type} (n : nat) (l : list A) : list A :=
  if Nat.eqb (length l) n then l
  else match l with
       | [a] => repeat a n
       | _ => l
       end.

(** [l[a:b] = src] on one axis, lengths already matched. *)
Definition splice {A : Type} (a b : nat) (l src : list A) : list A :=
  firstn a l ++ src ++ skipn b l.

(** [dst[y0:y1, x0:x1] = src]: [ValueError] when [src] cannot be broadcast
    to the shape of the slice. *)
Definition setslice (dst : ndarray) (y0 y1 x0 x1 : Z) (src : ndarray)
  : option ndarray :=
  let ya := slice_bound (fst (shape dst)) y0 in
  let yb := Z.max ya (slice_bound (fst (shape dst)) y1) in
  let xa := slice_bound (snd (shape dst)) x0 in
  let xb := Z.max xa (slice_bound (snd (shape dst)) x1) in
  if fits (fst (shape src)) (yb - ya) && fits (snd (shape src)) (xb - xa)
  then
    let rows :=
      stretch (Z.to_nat (yb - ya))
        (map (stretch (Z.to_nat (xb - xa))) (items src)) in
    Some {| shape := shape dst;
            items :=
              splice (Z.to_nat ya) (Z.to_nat yb) (items dst)
                (map (fun p => splice (Z.to_nat xa) (Z.to_nat xb)
                                 (fst p) (snd p))
                     (combine (firstn (Z.to_nat (yb - ya))
                                 (skipn (Z.to_nat ya) (items dst)))
                              rows)) |}
  else None.

End Np.

Notation "x <- e ;; k" := (Np.bind e (fun x => k))
  (at level 200, e at level 100, k at level 200, right associativity).

(** ** The engine: class [GameOfLife] *)

(** The attributes of an instance that the engine reads or writes
    ([initial_width], [initial_height], [running] and [color_names] are
    never read by it). [active_bounds] is [[min_x, max_x, min_y, max_y]]. *)
Record GameOfLife := {
  max_width : Z;
  max_height : Z;
  width : Z;
  height : Z;
  grid : Np.ndarray;
  active_bounds : Z * Z * Z * Z;
  bounds_margin : Z;
  chaos_mode : bool;
  chaos_probability : Q;
  rule_randomness : Q
}.

Definition with_grid (self : GameOfLife) (g : Np.ndarray) : GameOfLife :=
  {| max_width := max_width self; max_height := max_height self;
     width := width self; height := height self;
     grid := g;
     active_bounds := active_bounds self;
     bounds_margin := bounds_margin self;
     chaos_mode := chaos_mode self;
     chaos_probability := chaos_probability self;
     rule_randomness := rule_randomness self |}.

Definition with_size (self : GameOfLife) (w h : Z) : GameOfLife :=
  {| max_width := max_width self; max_height := max_height self;
     width := w; height := h;
     grid := grid self;
     active_bounds := active_bounds self;
     bounds_margin := bounds_margin self;
     chaos_mode := chaos_mode self;
     chaos_probability := chaos_probability self;
     rule_randomness := rule_randomness self |}.

Definition with_active_bounds (self : GameOfLife) (b : Z * Z * Z * Z)
  : GameOfLife :=
  {| max_width := max_width self; max_height := max_height self;
     width := width self; height := height self;
     grid := grid self;
     active_bounds := b;
     bounds_margin := bounds_margin self;
     chaos_mode := chaos_mode self;
     chaos_probability := chaos_probability self;
     rule_randomness := rule_randomness self |}.

(** [GameOfLife(width, height, max_width, max_height)]. *)
Definition init (width height max_width max_height : Z) : option GameOfLife :=
  let? g := Np.zeros height width in
  Some {| max_width := max_width; max_height := max_height;
          width := width; height := height;
          grid := g;
          active_bounds := (0, width, 0, height);
          bounds_margin := 5;
          chaos_mode := false;
          chaos_probability := Float.lit_0_3;
          rule_randomness := Float.lit_0_1 |}.

(** [update_active_bounds]. *)
Definition update_active_bounds (self : GameOfLife) : option GameOfLife :=
  if Np.sum (grid self) =? 0 then
    let center_x := width self / 2 in
    let center_y := height self / 2 in
    Some (with_active_bounds self
            (center_x - 1, center_x + 1, center_y - 1, center_y + 1))
  else
    let alive_cells := Np.where_gt0 (grid self) in
    if Z.of_nat (length (fst alive_cells)) =? 0 then Some self
    else
      let? min_y := Np.amin (fst alive_cells) in
      let? max_y := Np.amax (fst alive_cells) in
      let? min_x := Np.amin (snd alive_cells) in
      let? max_x := Np.amax (snd alive_cells) in
      Some (with_active_bounds self
              (Z.max 0 (min_x - bounds_margin self),
               Z.min (width self) (max_x + bounds_margin self + 1),
               Z.max 0 (min_y - bounds_margin self),
               Z.min (height self) (max_y + bounds_margin self + 1))).

(** [set_chaos_mode]. *)
Definition set_chaos_mode (self : GameOfLife) (enabled : bool)
    (chaos_prob random_prob : Q) : GameOfLife :=
  {| max_width := max_width self; max_height := max_height self;
     width := width self; height := height self;
     grid := grid self;
     active_bounds := active_bounds self;
     bounds_margin := bounds_margin self;
     chaos_mode := enabled;
     chaos_probability := chaos_prob;
     rule_randomness := random_prob |}.

(** [apply_original_conway_rules]. *)
Definition apply_original_conway_rules (x y current_color total_neighbors
    dominant_color : Z) : Z :=
  if current_color >? 0 then
    if Py.in_ total_neighbors [2; 3] then current_color
    else 0
  else
    if total_neighbors =? 3 then
      if dominant_color >? 0 then dominant_color else 1
    else 0.

(** [apply_custom_color_rules]; the only draw is the one of the
    overcrowding rule. *)
Definition apply_custom_color_rules (x y current_color : Z)
    (color_counts : Py.dict) (total_neighbors dominant_color : Z) : Np.M Z :=
  if current_color >? 0 then
    let rules : Np.M Z :=
      if Py.in_ total_neighbors [2; 3] then Np.ret current_color
      else if total_neighbors >=? 4 then
        max_color_count <-
          Np.lift (if negb (Nat.eqb (length color_counts) 0)
                      && Py.any (Py.values color_counts)
                   then Py.max (Py.values color_counts)
                   else Some 0) ;;
        if max_color_count >=? 3 then
          Np.ret (if dominant_color >? 0 then dominant_color
                  else current_color)
        else Np.ret 0
      else if total_neighbors =? 1 then
        if Py.get color_counts current_color 0 =? 1 then Np.ret current_color
        else Np.ret 0
      else Np.ret 0 in
    if total_neighbors >=? 5 then
      u <- Np.random ;;
      if Float.ltb u Float.lit_0_6 then Np.ret 0
      else rules
    else rules
  else
    if total_neighbors =? 3 then
      Np.ret (if dominant_color >? 0 then dominant_color else 1)
    else Np.ret 0.

(** [set_max_size]. *)
Definition set_max_size (self : GameOfLife) (max_width' max_height' : Z)
  : GameOfLife :=
  {| max_width := max_width'; max_height := max_height';
     width := width self; height := height self;
     grid := grid self;
     active_bounds := active_bounds self;
     bounds_margin := bounds_margin self;
     chaos_mode := chaos_mode self;
     chaos_probability := chaos_probability self;
     rule_randomness := rule_randomness self |}.

(** [expand_grid_if_needed]: the new state and the returned flag. *)
Definition expand_grid_if_needed (self : GameOfLife)
    (target_width target_height : Z) : option (GameOfLife * bool) :=
  let new_width := Z.min (Z.max (width self) target_width) (max_width self) in
  let new_height :=
    Z.min (Z.max (height self) target_height) (max_height self) in
  if negb (new_width =? width self) || negb (new_height =? height self) then
    let? new_grid := Np.zeros new_height new_width in
    let offset_y := (new_height - height self) / 2 in
    let offset_x := (new_width - width self) / 2 in
    let? new_grid :=
      Np.setslice new_grid offset_y (offset_y + height self)
        offset_x (offset_x + width self) (grid self) in
    let '(b0, b1, b2, b3) := active_bounds self in
    Some (with_active_bounds
            (with_size (with_grid self new_grid) new_width new_height)
            (b0 + offset_x, b1 + offset_x, b2 + offset_y, b3 + offset_y),
          true)
  else Some (self, false).

(** [set_grid]. *)
Definition set_grid (self : GameOfLife) (new_grid : Np.ndarray)
  : option GameOfLife :=
  update_active_bounds
    (with_size (with_grid self (Np.astype_uint8 new_grid))
       (snd (Np.shape new_grid)) (fst (Np.shape new_grid))).

(** [get_neighbors_by_color]: the counts per colour, their sum and the
    colours of the living neighbours in the order they are visited. *)
Definition get_neighbors_by_color (self : GameOfLife) (x y : Z)
  : option (Py.dict * Z * list Z) :=
  let color_counts : Py.dict := [(1, 0); (2, 0); (3, 0); (4, 0)] in
  let neighbors : list Z := [] in
  let? acc :=
    Py.for_ [-1; 0; 1]
      (fun acc dx =>
         Py.for_ [-1; 0; 1]
           (fun (acc : Py.dict * list Z) dy =>
              if (dx =? 0) && (dy =? 0) then Some acc
              else
                let? nx := Py.mod_ (x + dx) (width self) in
                let? ny := Py.mod_ (y + dy) (height self) in
                let? neighbor_color := Np.getitem (grid self) ny nx in
                if neighbor_color >? 0 then
                  let? color_counts := Py.iadd (fst acc) neighbor_color 1 in
                  Some (color_counts, snd acc ++ [neighbor_color])
                else Some acc)
           acc)
      (color_counts, neighbors) in
  let total_neighbors := Py.sum (Py.values (fst acc)) in
  Some (fst acc, total_neighbors, snd acc).

(** The argument of [get_dominant_color]: a [dict] of counts, or an array
    of counts indexed by colour. *)
Inductive counts :=
| CountsDict (d : Py.dict)
| CountsArray (a : list Z).

(** [get_dominant_color] of [wow.py]; the one of [scrips3.py] is its [dict]
    branch alone. *)
Definition get_dominant_color (color_counts : counts) : option Z :=
  match color_counts with
  | CountsDict d =>
      if Py.sum (Py.values d) =? 0 then Some 1
      else Py.max_key (Py.getitem d) (Py.keys d)
  | CountsArray a =>
      if Py.sum (skipn 1 a) =? 0 then Some 1
      else
        let? i := Py.max_key (fun i => nth_error (skipn 1 a) (Z.to_nat i))
                    (Py.range 0 (Z.of_nat (length (skipn 1 a)))) in
        Some (i + 1)
  end.

(** The body of the two loops of [update] for the cell [(x, y)]: reads the
    current grid of [self], writes [new_grid]. *)
Definition update_cell (self : GameOfLife) (new_grid : Np.ndarray) (y x : Z)
  : Np.M Np.ndarray :=
  nb <- Np.lift (get_neighbors_by_color self x y) ;;
  let '(color_counts, total_neighbors, neighbors) := nb in
  current_color <- Np.lift (Np.getitem (grid self) y x) ;;
  dominant_color <- Np.lift (get_dominant_color (CountsDict color_counts)) ;;
  if chaos_mode self then
    u <- Np.random ;;
    if Float.ltb u (rule_randomness self) then
      if current_color >? 0 then
        rand_outcome <- Np.random ;;
        if Float.ltb rand_outcome Float.lit_0_4 then
          Np.lift (Np.setitem new_grid y x 0)
        else if Float.ltb rand_outcome Float.lit_0_7 then
          Np.lift (Np.setitem new_grid y x current_color)
        else
          c <- Np.randint 1 5 ;;
          Np.lift (Np.setitem new_grid y x c)
      else
        u' <- Np.random ;;
        if Float.ltb u' Float.lit_0_1 then
          c <- Np.randint 1 5 ;;
          Np.lift (Np.setitem new_grid y x c)
        else Np.lift (Np.setitem new_grid y x 0)
    else
      u' <- Np.random ;;
      if Float.ltb u' (chaos_probability self) then
        result <- apply_custom_color_rules x y current_color color_counts
                    total_neighbors dominant_color ;;
        Np.lift (Np.setitem new_grid y x result)
      else
        let result := apply_original_conway_rules x y current_color
                        total_neighbors dominant_color in
        Np.lift (Np.setitem new_grid y x result)
  else
    result <- apply_custom_color_rules x y current_color color_counts
                total_neighbors dominant_color ;;
    Np.lift (Np.setitem new_grid y x result).

(** [update]: one generation. *)
Definition update (self : GameOfLife) : Np.M GameOfLife :=
  self <- Np.lift (update_active_bounds self) ;;
  let '(min_x, max_x, min_y, max_y) := active_bounds self in
  let active_width := max_x - min_x in
  let active_height := max_y - min_y in
  if (active_width <=? 0) || (active_height <=? 0) then Np.ret self
  else
    let new_grid := grid self in
    new_grid <-
      Np.for_ (Py.range min_y max_y)
        (fun new_grid y =>
           Np.for_ (Py.range min_x max_x)
             (fun new_grid x => update_cell self new_grid y x)
             new_grid)
        new_grid ;;
    Np.ret (with_grid self new_grid).

(** [clear]. *)
Definition clear (self : GameOfLife) : option GameOfLife :=
  let? g := Np.zeros (height self) (width self) in
  let center_x := width self / 2 in
  let center_y := height self / 2 in
  Some (with_active_bounds (with_grid self g)
          (center_x - 1, center_x + 1, center_y - 1, center_y + 1)).

(** ** The fractal seeds: class [MandelbrotGenerator] *)

Module MandelbrotGenerator.

(** The float and complex arithmetic of Python, as an interface: the
    generator is modelled for every implementation of it.  [abs_gt z n] is
    [abs(z) > n], [None] when [abs] raises [OverflowError]; [truediv] is the
    division [/] of two integers; [of_int] turns the integer with which [z]
    starts into a complex number. *)
Class Arith := {
  float : Type;
  complex : Type;
  truediv : Z -> Z -> float;
  add : float -> float -> float;
  sub : float -> float -> float;
  mul : float -> float -> float;
  make_complex : float -> float -> complex;
  of_int : Z -> complex;
  cadd : complex -> complex -> complex;
  cmul : complex -> complex -> complex;
  abs_gt : complex -> Z -> option bool
}.

Section Generator.

Context {arith : Arith}.

(** The loop of [mandelbrot_iteration] over the remaining values of [n]. *)
Fixpoint mandelbrot_loop (c z : complex) (ns : list Z) (max_iter : Z)
  : option Z :=
  match ns with
  | [] => Some max_iter
  | n :: ns' =>
      let? escaped := abs_gt z 2 in
      if escaped then Some n
      else mandelbrot_loop c (cadd (cmul z z) c) ns' max_iter
  end.

(** [mandelbrot_iteration]. *)
Definition mandelbrot_iteration (c : complex) (max_iter : Z) : option Z :=
  mandelbrot_loop c (of_int 0) (Py.range 0 max_iter) max_iter.

(** The point of the complex plane of the pixel [(x, y)]. *)
Definition pixel_point (width height : Z) (x_min x_max y_min y_max : float)
    (y x : Z) : complex :=
  let real := add x_min (mul (truediv x width) (sub x_max x_min)) in
  let imag := add y_min (mul (truediv y height) (sub y_max y_min)) in
  make_complex real imag.

(** [generate_mandelbrot_grid]. *)
Definition generate_mandelbrot_grid (width height : Z)
    (x_min x_max y_min y_max : float) (max_iter threshold : Z)
  : option Np.ndarray :=
  let? grid := Np.zeros height width in
  Py.for_ (Py.range 0 height)
    (fun grid y =>
       Py.for_ (Py.range 0 width)
         (fun grid x =>
            let c := pixel_point width height x_min x_max y_min y_max y x in
            let? iterations := mandelbrot_iteration c max_iter in
            if iterations <? threshold then Np.setitem grid y x 1
            else Some grid)
         grid)
    grid.

(** The orbit [z_0 = 0], [z_(n+1) = z_n^2 + c] of the specification. *)
Fixpoint orbit (c : complex) (n : nat) : complex :=
  match n with
  | O => of_int 0
  | S n' => cadd (cmul (orbit c n') (orbit c n')) c
  end.

(** [n] is the escape iteration of [c]: the first [n < max_iter] with
    [|z_n| > 2], or [max_iter] when there is none. *)
Definition escapes_at (c : complex) (max_iter n : Z) : Prop :=
  (forall m, 0 <= m < n -> abs_gt (orbit c (Z.to_nat m)) 2 = Some false)
  /\ ((0 <= n < max_iter /\ abs_gt (orbit c (Z.to_nat n)) 2 = Some true)
      \/ n = max_iter).

(** [abs] does not raise on the points of the orbit that the loop
    evaluates: the points [z_m], [m < max_iter], up to and including the
    first one outside the disc of radius 2. *)
Definition abs_defined (c : complex) (max_iter : Z) : Prop :=
  forall m, 0 <= m < max_iter ->
    (forall k, 0 <= k < m -> abs_gt (orbit c (Z.to_nat k)) 2 = Some false) ->
    negb (match abs_gt (orbit c (Z.to_nat m)) 2 with
          | Some _ => false
          | None => true
          end) = true.

End Generator.

(** Exact rational arithmetic, an implementation of the interface on which
    the generator can be run. *)
#[export] Instance exact : Arith := {|
  float := Q;
  complex := Q * Q;
  truediv := fun a b => (inject_Z a / inject_Z b)%Q;
  add := Qplus;
  sub := Qminus;
  mul := Qmult;
  make_complex := fun re im => (re, im);
  of_int := fun n => (inject_Z n, 0%Q);
  cadd := fun a b => (fst a + fst b, snd a + snd b)%Q;
  cmul := fun a b => (fst a * fst b - snd a * snd b,
                      fst a * snd b + snd a * fst b)%Q;
  abs_gt := fun z n =>
    Some (Float.ltb (inject_Z (n * n)) (fst z * fst z + snd z * snd z)%Q)
|}.

End MandelbrotGenerator.

(** The largest finite binary64 value, [sys.float_info.max]. *)
Definition DBL_MAX : Q := inject_Z ((2 ^ 53 - 1) * 2 ^ 971).

(** Exact rational arithmetic in which [abs] raises [OverflowError] when the
    modulus exceeds the largest float, as [abs] does on a complex number of
    Python. *)
Definition overflowing : MandelbrotGenerator.Arith := {|
  MandelbrotGenerator.float := Q;
  MandelbrotGenerator.complex := Q * Q;
  MandelbrotGenerator.truediv := fun a b => (inject_Z a / inject_Z b)%Q;
  MandelbrotGenerator.add := Qplus;
  MandelbrotGenerator.sub := Qminus;
  MandelbrotGenerator.mul := Qmult;
  MandelbrotGenerator.make_complex := fun re im => (re, im);
  MandelbrotGenerator.of_int := fun n => (inject_Z n, 0%Q);
  MandelbrotGenerator.cadd := fun a b => (fst a + fst b, snd a + snd b)%Q;
  MandelbrotGenerator.cmul :=
    fun a b => (fst a * fst b - snd a * snd b,
                fst a * snd b + snd a * fst b)%Q;
  MandelbrotGenerator.abs_gt := fun z n =>
    if Float.ltb (DBL_MAX * DBL_MAX) (fst z * fst z + snd z * snd z)%Q
    then None
    else Some (Float.ltb (inject_Z (n * n))
                 (fst z * fst z + snd z * snd z)%Q)
|}.

(** ** Vocabulary of the specification *)

(** The five cell states. *)
Definition Dead : Z := 0.
Definition Red : Z := 1.
Definition Blue : Z := 2.
Definition Green : Z := 3.
Definition Yellow : Z := 4.

Definition is_color (v : Z) : bool := (1 <=? v) && (v <=? 4).
Definition is_cell_state (v : Z) : bool := (0 <=? v) && (v <=? 4).
Definition is_uint8 (v : Z) : bool := (0 <=? v) && (v <=? 255).

(** Well-formed arrays: the rows agree with the shape. *)
Definition well_shaped (a : Np.ndarray) : bool :=
  (0 <=? fst (Np.shape a)) && (0 <=? snd (Np.shape a))
  && Nat.eqb (length (Np.items a)) (Z.to_nat (fst (Np.shape a)))
  && forallb (fun row => Nat.eqb (length row) (Z.to_nat (snd (Np.shape a))))
       (Np.items a).

(** Every element satisfies [p]. *)
Definition all_cells (p : Z -> bool) (a : Np.ndarray) : bool :=
  forallb (forallb p) (Np.items a).

(** The element in row [y], column [x], for non-negative indices. *)
Definition cell (a : Np.ndarray) (y x : Z) : Z :=
  nth (Z.to_nat x) (nth (Z.to_nat y) (Np.items a) []) 0.

(** The array of shape [(h, w)] whose element [(y, x)] is [f y x]. *)
Definition tabulate (h w : Z) (f : Z -> Z -> Z) : Np.ndarray :=
  {| Np.shape := (h, w);
     Np.items := map (fun y => map (f y) (Py.range 0 w)) (Py.range 0 h) |}.

(** The exact sum of the elements. *)
Definition total_cells (a : Np.ndarray) : Z :=
  Py.sum (map Py.sum (Np.items a)).

(** The grid of an engine agrees with its recorded size, which is not
    empty. *)
Definition grid_ok (self : GameOfLife) : bool :=
  well_shaped (grid self)
  && (fst (Np.shape (grid self)) =? height self)
  && (snd (Np.shape (grid self)) =? width self)
  && (0 <? width self) && (0 <? height self).

(** The data-model invariants of the specification. *)
Definition size_within_max (self : GameOfLife) : bool :=
  (width self <=? max_width self) && (height self <=? max_height self).

Definition cells_valid (self : GameOfLife) : bool :=
  all_cells is_cell_state (grid self).

(** The eight Moore offsets [(dx, dy)] in the order the engine visits
    them. *)
Definition moore : list (Z * Z) :=
  [(-1, -1); (-1, 0); (-1, 1); (0, -1); (0, 1); (1, -1); (1, 0); (1, 1)].

(** The states of the eight toroidal neighbours of [(x, y)], and the colours
    of the living ones. *)
Definition neighbor_cells (self : GameOfLife) (x y : Z) : list Z :=
  map (fun d => cell (grid self) ((y + snd d) mod height self)
                  ((x + fst d) mod width self))
      moore.

Definition living_neighbors (self : GameOfLife) (x y : Z) : list Z :=
  filter (fun c => c >? 0) (neighbor_cells self x y).

(** The number of neighbours of colour [c]. *)
Definition count_color (nbrs : list Z) (c : Z) : Z :=
  Z.of_nat (count_occ Z.eq_dec nbrs c).

(** The neighbour-count map over the four colours. *)
Definition color_map (r b g y : Z) : Py.dict :=
  [(Red, r); (Blue, b); (Green, g); (Yellow, y)].

Definition counts_of (nbrs : list Z) : Py.dict :=
  color_map (count_color nbrs Red) (count_color nbrs Blue)
    (count_color nbrs Green) (count_color nbrs Yellow).

(** The active rectangle, [max_x] and [max_y] exclusive. *)
Definition in_bounds (b : Z * Z * Z * Z) (y x : Z) : bool :=
  let '(min_x, max_x, min_y, max_y) := b in
  (min_x <=? x) && (x <? max_x) && (min_y <=? y) && (y <? max_y).

(** The coordinates [(y, x)] listed by [np.where(a > 0)]. *)
Definition where_cells (a : Np.ndarray) : list (Z * Z) :=
  concat (map (fun yr => Np.where_row (fst yr) (snd yr))
            (combine (Py.range 0 (Z.of_nat (length (Np.items a))))
               (Np.items a))).

(** A non-Dead cell of an array. *)
Definition alive (a : Np.ndarray) (y x : Z) : Prop :=
  0 <= y < fst (Np.shape a) /\ 0 <= x < snd (Np.shape a)
  /\ cell a y x <> 0.

(** The tight bounding box of the non-Dead cells, all four sides
    inclusive. *)
Definition tight_box (a : Np.ndarray) (min_x max_x min_y max_y : Z) : Prop :=
  (forall y x, alive a y x -> min_x <= x <= max_x /\ min_y <= y <= max_y)
  /\ (exists y, alive a y min_x) /\ (exists y, alive a y max_x)
  /\ (exists x, alive a min_y x) /\ (exists x, alive a max_y x).

(** *** The rule tables of the specification *)

(** Dominant colour: the first colour, in the order Red, Blue, Green,
    Yellow, whose count is the maximum; Red when nothing is counted. *)
Definition first_maximum (r b g y : Z) : Z :=
  let m := Z.max (Z.max r b) (Z.max g y) in
  if r =? m then Red
  else if b =? m then Blue
  else if g =? m then Green
  else Yellow.

Definition spec_dominant (nbrs : list Z) : Z :=
  let n := count_color nbrs in
  first_maximum (n Red) (n Blue) (n Green) (n Yellow).

(** Custom colour rules, on the colours [nbrs] of the living neighbours and
    the uniform draw [u] of the overcrowding rule. *)
Definition spec_custom (cur : Z) (nbrs : list Z) (u : Q) : Z :=
  let total := Z.of_nat (length nbrs) in
  let n := count_color nbrs in
  let max_count := Z.max (Z.max (n Red) (n Blue)) (Z.max (n Green) (n Yellow)) in
  let dominant := spec_dominant nbrs in
  if negb (cur =? Dead) then
    if (5 <=? total) && Float.ltb u Float.lit_0_6 then Dead
    else if (total =? 2) || (total =? 3) then cur
    else if 4 <=? total then
      if 3 <=? max_count then (if dominant =? Dead then cur else dominant)
      else Dead
    else if total =? 1 then
      if n cur =? 1 then cur else Dead
    else Dead
  else
    if total =? 3 then (if dominant =? Dead then Red else dominant)
    else Dead.

(** Original monochrome rules. *)
Definition spec_original (cur : Z) (nbrs : list Z) : Z :=
  let total := Z.of_nat (length nbrs) in
  let dominant := spec_dominant nbrs in
  if negb (cur =? Dead) then
    if (total =? 2) || (total =? 3) then cur else Dead
  else
    if total =? 3 then (if dominant =? Dead then Red else dominant)
    else Dead.

(** Random-outcome rule. *)
Definition spec_random_outcome (cur : Z) : Np.M Z :=
  if negb (cur =? Dead) then
    u <- Np.random ;;
    if Float.ltb u Float.lit_0_4 then Np.ret Dead
    else if Float.ltb u Float.lit_0_7 then Np.ret cur
    else Np.randint 1 5
  else
    u <- Np.random ;;
    if Float.ltb u Float.lit_0_1 then Np.randint 1 5
    else Np.ret Dead.

(** The rule selected for a cell. *)
Inductive rule := RandomOutcome | CustomColor | OriginalMonochrome.

(** Dispatch order of the specification. *)
Definition spec_dispatch (enabled : bool)
    (random_outcome_probability custom_rule_probability : Q) : Np.M rule :=
  if enabled then
    u <- Np.random ;;
    if Float.ltb u random_outcome_probability then Np.ret RandomOutcome
    else
      u' <- Np.random ;;
      if Float.ltb u' custom_rule_probability then Np.ret CustomColor
      else Np.ret OriginalMonochrome
  else Np.ret CustomColor.

(** The draw of the overcrowding rule, made only for a living cell with five
    neighbours or more. *)
Definition spec_overcrowding_draw (cur : Z) (nbrs : list Z) : Np.M Q :=
  if negb (cur =? Dead) && (5 <=? Z.of_nat (length nbrs)) then Np.random
  else Np.ret 0%Q.

Definition spec_apply (rl : rule) (cur : Z) (nbrs : list Z) : Np.M Z :=
  match rl with
  | RandomOutcome => spec_random_outcome cur
  | CustomColor =>
      u <- spec_overcrowding_draw cur nbrs ;;
      Np.ret (spec_custom cur nbrs u)
  | OriginalMonochrome => Np.ret (spec_original cur nbrs)
  end.

(** The element addressed by the indices [y] and [x], negative ones
    counting from the end. *)
Definition addressed (self : GameOfLife) (y x : Z) : Z :=
  cell (grid self) (y mod height self) (x mod width self).

(** The transition of the cell [(x, y)] according to the specification. *)
Definition spec_cell (self : GameOfLife) (y x : Z) : Np.M Z :=
  let cur := addressed self y x in
  let nbrs := living_neighbors self x y in
  rl <- spec_dispatch (chaos_mode self) (rule_randomness self)
          (chaos_probability self) ;;
  spec_apply rl cur nbrs.

(** The scan of the active rectangle [b], row by row, with the transition
    [step] of one cell. *)
Definition scan (step : Np.ndarray -> Z -> Z -> Np.M Np.ndarray)
    (b : Z * Z * Z * Z) (new_grid : Np.ndarray) : Np.M Np.ndarray :=
  let '(min_x, max_x, min_y, max_y) := b in
  Np.for_ (Py.range min_y max_y)
    (fun new_grid y =>
       Np.for_ (Py.range min_x max_x)
         (fun new_grid x => step new_grid y x)
         new_grid)
    new_grid.

(** One generation according to the specification: refresh the active
    bounds, then give every cell of the rectangle the result of the rule
    that the dispatch selects for it. *)
Definition spec_step (self : GameOfLife) : Np.M GameOfLife :=
  self <- Np.lift (update_active_bounds self) ;;
  let '(min_x, max_x, min_y, max_y) := active_bounds self in
  if (max_x - min_x <=? 0) || (max_y - min_y <=? 0) then Np.ret self
  else
    new_grid <-
      scan (fun new_grid y x =>
              v <- spec_cell self y x ;;
              Np.lift (Np.setitem new_grid y x v))
        (active_bounds self) (grid self) ;;
    Np.ret (with_grid self new_grid).

(** The random state after [n] more draws. *)
Definition skip (n : nat) (r : Np.RandomState) : Np.RandomState :=
  {| Np.tape := Np.tape r; Np.pos := n + Np.pos r |}.

(** The writes of a scan over the rows [ys] and the columns [xs] whose
    cell results are given by [f]. *)
Definition paint (f : Z -> Z -> Z) (ys xs : list Z) (new_grid : Np.ndarray)
  : option Np.ndarray :=
  Py.for_ ys
    (fun new_grid y =>
       Py.for_ xs (fun new_grid x => Np.setitem new_grid y x (f y x))
         new_grid)
    new_grid.

(** A living cell with five living neighbours or more: the cells for which
    the custom colour rules draw a random number. *)
Definition overcrowded (self : GameOfLife) (y x : Z) : bool :=
  negb (addressed self y x =? Dead)
  && (5 <=? Z.of_nat (length (living_neighbors self x y))).

(** No cell of the grid is overcrowded. *)
Definition calm (self : GameOfLife) : bool :=
  forallb (fun y =>
             forallb (fun x => negb (overcrowded self y x))
               (Py.range 0 (width self)))
    (Py.range 0 (height self)).

(** An engine holding the pattern [g], with the default settings of the
    constructor. *)
Definition loaded (g : Np.ndarray) : GameOfLife :=
  {| max_width := 500; max_height := 500;
     width := snd (Np.shape g); height := fst (Np.shape g);
     grid := g;
     active_bounds := (0, snd (Np.shape g), 0, fst (Np.shape g));
     bounds_margin := 5;
     chaos_mode := false;
     chaos_probability := Float.lit_0_3;
     rule_randomness := Float.lit_0_1 |}.

(** [create_oscillator_pattern]: the blinker of the repository. *)
Definition create_oscillator_pattern : Np.ndarray :=
  tabulate 5 5 (fun y x => if (y =? 2) && (1 <=? x) && (x <? 4) then 1 else 0).

(** The colours of the living Moore neighbours of [(x, y)] in a pattern [f]
    on the unbounded plane. *)
Definition moore_colors (f : Z -> Z -> Z) (y x : Z) : list Z :=
  filter (fun c => c >? 0) (map (fun d => f (y + snd d) (x + fst d)) moore).

(** Patterns of one colour [c] around the row [y0] and the columns
    [x0 .. x0 + 2]: the horizontal row of three cells, the vertical row
    through its middle, the plus made of both, and the 3 by 3 block. *)
Definition row3 (y0 x0 c : Z) (y x : Z) : Z :=
  if (y =? y0) && (x0 <=? x) && (x <=? x0 + 2) then c else Dead.

Definition column3 (y0 x0 c : Z) (y x : Z) : Z :=
  if (x =? x0 + 1) && (y0 - 1 <=? y) && (y <=? y0 + 1) then c else Dead.

Definition plus5 (y0 x0 c : Z) (y x : Z) : Z :=
  if ((y =? y0) && (x0 <=? x) && (x <=? x0 + 2))
     || ((x =? x0 + 1) && (y0 - 1 <=? y) && (y <=? y0 + 1))
  then c else Dead.

Definition block9 (y0 x0 c : Z) (y x : Z) : Z :=
  if (y0 - 1 <=? y) && (y <=? y0 + 1) && (x0 <=? x) && (x <=? x0 + 2)
  then c else Dead.

(** A 3 by 3 block of Red cells in the middle of a 7 by 7 grid. *)
Definition red_block : Np.ndarray :=
  tabulate 7 7
    (fun y x =>
       if (2 <=? y) && (y <=? 4) && (2 <=? x) && (x <=? 4) then Red
       else Dead).

(** Two states of the generator: every draw is [0.0], every draw is the
    largest float below [1.0]. *)
Definition draws_low : Np.RandomState :=
  {| Np.tape := fun _ => 0; Np.pos := 0 |}.
Definition draws_high : Np.RandomState :=
  {| Np.tape := fun _ => 9007199254740991; Np.pos := 0 |}.

(** The 2 by 2 block of colour [c] whose upper left cell is [(y0, x0)]. *)
Definition block4 (y0 x0 c : Z) (y x : Z) : Z :=
  if (y0 <=? y) && (y <=? y0 + 1) && (x0 <=? x) && (x <=? x0 + 1)
  then c else Dead.

(** ** The visualizer: painting and the pattern loaders *)

Module GameOfLifeVisualizer.

(** The attributes of a [GameOfLifeVisualizer] that the handlers of the
    pointer and of the keys and the loaders read or write on the side of the
    engine; the others hold the state of the display. *)
Record visualizer := {
  game : GameOfLife;
  paint_mode : bool;
  brush_size : Z;
  current_color : Z;
  auto_expand : bool;
  chaos_intensity : Z
}.

Definition with_game (self : visualizer) (g : GameOfLife) : visualizer :=
  {| game := g;
     paint_mode := paint_mode self;
     brush_size := brush_size self;
     current_color := current_color self;
     auto_expand := auto_expand self;
     chaos_intensity := chaos_intensity self |}.

Definition with_paint_mode (self : visualizer) (b : bool) : visualizer :=
  {| game := game self;
     paint_mode := b;
     brush_size := brush_size self;
     current_color := current_color self;
     auto_expand := auto_expand self;
     chaos_intensity := chaos_intensity self |}.

Definition with_current_color (self : visualizer) (c : Z) : visualizer :=
  {| game := game self;
     paint_mode := paint_mode self;
     brush_size := brush_size self;
     current_color := c;
     auto_expand := auto_expand self;
     chaos_intensity := chaos_intensity self |}.

Definition with_chaos_intensity (self : visualizer) (i : Z) : visualizer :=
  {| game := game self;
     paint_mode := paint_mode self;
     brush_size := brush_size self;
     current_color := current_color self;
     auto_expand := auto_expand self;
     chaos_intensity := i |}.

(** [paint_cell], from the rounded coordinates [center_x] and [center_y] of
    the pointer on.  The writes go to the grid of the engine in place. *)
Definition paint_cell (self : visualizer) (center_x center_y : Z)
  : option visualizer :=
  let? game1 :=
    if auto_expand self then
      let margin := 10 in
      let needed_width :=
        Z.max (center_x + brush_size self + margin) (width (game self)) in
      let needed_height :=
        Z.max (center_y + brush_size self + margin) (height (game self)) in
      let? expanded :=
        expand_grid_if_needed (game self) needed_width needed_height in
      Some (fst expanded)
    else Some (game self) in
  let? grid1 :=
    Py.for_ (Py.range (- brush_size self + 1) (brush_size self))
      (fun grid1 dy =>
         Py.for_ (Py.range (- brush_size self + 1) (brush_size self))
           (fun grid1 dx =>
              let grid_x := center_x + dx in
              let grid_y := center_y + dy in
              if (dx * dx + dy * dy <? brush_size self * brush_size self)
                 && ((0 <=? grid_x) && (grid_x <? width game1))
                 && ((0 <=? grid_y) && (grid_y <? height game1))
              then
                if paint_mode self then
                  Np.setitem grid1 grid_y grid_x (current_color self)
                else Np.setitem grid1 grid_y grid_x 0
              else Some grid1)
           grid1)
      (grid game1) in
  Some (with_game self (with_grid game1 grid1)).

(** [load_random].  The array that is filled holds floats with integer
    values; [set_grid] converts it to [uint8]. *)
Definition load_random (self : visualizer) : Np.M visualizer :=
  random_grid <-
    Np.lift (Np.zeros (height (game self)) (width (game self))) ;;
  random_grid <-
    Np.for_ (Py.range 0 (height (game self)))
      (fun random_grid y =>
         Np.for_ (Py.range 0 (width (game self)))
           (fun random_grid x =>
              u <- Np.random ;;
              if Float.ltb u Float.lit_0_3 then
                c <- Np.randint 1 5 ;;
                Np.lift (Np.setitem random_grid y x c)
              else Np.ret random_grid)
           random_grid)
      random_grid ;;
  game1 <- Np.lift (set_grid (game self) random_grid) ;;
  Np.ret (with_game self game1).

(** [enumerate(l)]. *)
Definition enumerate {A : Type} (l : list A) : list (Z * A) :=
  combine (Py.range 0 (Z.of_nat (length l))) l.

Definition walker_pattern : list (list Z) :=
  [[0; 1; 0; 0; 0];
   [1; 1; 1; 0; 0];
   [0; 1; 0; 0; 0];
   [1; 0; 1; 0; 0];
   [1; 0; 0; 1; 0]].

(** [load_walker_attempt]. *)
Definition load_walker_attempt (self : visualizer) : option visualizer :=
  let? walker_grid := Np.zeros (height (game self)) (width (game self)) in
  let start_x := 10 in
  let start_y := height (game self) / 2 in
  let? walker_grid :=
    Py.for_ (enumerate walker_pattern)
      (fun walker_grid i_row =>
         Py.for_ (enumerate (snd i_row))
           (fun walker_grid j_cell =>
              if (start_y + fst i_row <? height (game self))
                 && (start_x + fst j_cell <? width (game self))
              then
                Np.setitem walker_grid (start_y + fst i_row)
                  (start_x + fst j_cell) (snd j_cell)
              else Some walker_grid)
           walker_grid)
      walker_grid in
  let? game1 := set_grid (game self) walker_grid in
  Some (with_game self game1).

(** [on_mouse_press] for an event inside the axes, from the rounded
    coordinates of the pointer on: the left button paints, the right button
    erases, the middle button switches between the two and paints
    nothing. *)
Definition on_mouse_press (self : visualizer) (button center_x center_y : Z)
  : option visualizer :=
  if button =? 2 then Some (with_paint_mode self (negb (paint_mode self)))
  else
    let self :=
      if button =? 1 then with_paint_mode self true
      else if button =? 3 then with_paint_mode self false
      else self in
    paint_cell self center_x center_y.

(** The binary64 values of the literals of [chaos_levels]. *)
Definition lit_0_2 : Q := 3602879701896397 # 18014398509481984.
Definition lit_0_05 : Q := 3602879701896397 # 72057594037927936.
Definition lit_0_5 : Q := 1 # 2.
Definition lit_0_8 : Q := 3602879701896397 # 4503599627370496.

(** [chaos_levels]: off, low, medium, high. *)
Definition chaos_levels : list (bool * Q * Q) :=
  [(false, 0%Q, 0%Q);
   (true, lit_0_2, lit_0_05);
   (true, lit_0_5, Float.lit_0_1);
   (true, lit_0_8, lit_0_2)].

(** [l[i]] on a list: negative indices count from the end, [IndexError]
    outside. *)
Definition list_getitem {A : Type} (l : list A) (i : Z) : option A :=
  let? k := Np.index (Z.of_nat (length l)) i in
  nth_error l k.

(** [self.game.chaos_mode = b]. *)
Definition with_chaos_mode (g : GameOfLife) (b : bool) : GameOfLife :=
  set_chaos_mode g b (chaos_probability g) (rule_randomness g).

(** [apply_chaos_settings]. *)
Definition apply_chaos_settings (self : visualizer) : option visualizer :=
  let? level := list_getitem chaos_levels (chaos_intensity self) in
  let '(enabled, chaos_prob, random_prob) := level in
  Some (with_game self
          (set_chaos_mode (game self) enabled chaos_prob random_prob)).

(** The keys that [on_key_press] tells apart by what they do to the
    attributes above: ['1'] to ['4'], ['c'], ['b'] and ['n'].  Every other
    key changes the display only. *)
Inductive key := Key1 | Key2 | Key3 | Key4 | KeyC | KeyB | KeyN | KeyOther.

(** [on_key_press]. *)
Definition on_key_press (self : visualizer) (k : key) : option visualizer :=
  match k with
  | Key1 => Some (with_current_color self 1)
  | Key2 => Some (with_current_color self 2)
  | Key3 => Some (with_current_color self 3)
  | Key4 => Some (with_current_color self 4)
  | KeyC =>
      let self :=
        with_game self
          (with_chaos_mode (game self) (negb (chaos_mode (game self)))) in
      let self :=
        if chaos_mode (game self) && (chaos_intensity self =? 0)
        then with_chaos_intensity self 1 else self in
      let self :=
        if negb (chaos_mode (game self)) then with_chaos_intensity self 0
        else self in
      apply_chaos_settings self
  | KeyB =>
      apply_chaos_settings
        (with_chaos_intensity self ((chaos_intensity self + 1) mod 4))
  | KeyN =>
      let self :=
        if chaos_mode (game self) then
          with_game (with_chaos_intensity self 0)
            (with_chaos_mode (game self) false)
        else
          with_game (with_chaos_intensity self 2)
            (with_chaos_mode (game self) true) in
      apply_chaos_settings self
  | KeyOther => Some self
  end.

End GameOfLifeVisualizer.

(** The cells that a brush of size [b] at the centre [(cy, cx)] covers. *)
Definition brushed (b cy cx y x : Z) : bool :=
  (- b <? y - cy) && (y - cy <? b) && (- b <? x - cx) && (x - cx <? b)
  && ((x - cx) * (x - cx) + (y - cy) * (y - cy) <? b * b).

(** ** The engine of [scrips3.py] *)

Module Scrips3.

(** The class [GameOfLife] of [scrips3.py] has the attributes [max_width],
    [max_height], [width], [height] and [grid] of the record above, and its
    [get_neighbors_by_color] is the one of [wow.py] word for word.  Its grid
    holds Python integers. *)

(** [get_dominant_color]. *)
Definition get_dominant_color (color_counts : Py.dict) : option Z :=
  if Py.sum (Py.values color_counts) =? 0 then Some 1
  else Py.max_key (Py.getitem color_counts) (Py.keys color_counts).

(** [np.zeros_like(a)]. *)
Definition zeros_like (a : Np.ndarray) : option Np.ndarray :=
  Np.zeros (fst (Np.shape a)) (snd (Np.shape a)).

(** The body of the two loops of [update] for the cell [(x, y)]. *)
Definition update_cell (self : GameOfLife) (new_grid : Np.ndarray) (y x : Z)
  : option Np.ndarray :=
  let? nb := get_neighbors_by_color self x y in
  let '(color_counts, total_neighbors, neighbors) := nb in
  let? current_color := Np.getitem (grid self) y x in
  if current_color >? 0 then
    if Py.in_ total_neighbors [2; 3] then
      Np.setitem new_grid y x current_color
    else if total_neighbors >=? 4 then
      let? max_color_count := Py.max (Py.values color_counts) in
      if max_color_count >=? 3 then
        let? dominant_color := get_dominant_color color_counts in
        Np.setitem new_grid y x dominant_color
      else Some new_grid
    else if total_neighbors =? 1 then
      let? same := Py.getitem color_counts current_color in
      if same =? 1 then Np.setitem new_grid y x current_color
      else Some new_grid
    else Some new_grid
  else
    if total_neighbors =? 3 then
      let? dominant_color := get_dominant_color color_counts in
      Np.setitem new_grid y x dominant_color
    else Some new_grid.

(** [update]: one generation, over the whole grid. *)
Definition update (self : GameOfLife) : option GameOfLife :=
  let? new_grid := zeros_like (grid self) in
  let? new_grid :=
    Py.for_ (Py.range 0 (height self))
      (fun new_grid y =>
         Py.for_ (Py.range 0 (width self))
           (fun new_grid x => update_cell self new_grid y x)
           new_grid)
      new_grid in
  Some (with_grid self new_grid).

End Scrips3.

(** ** The Julia seed: [MandelbrotGenerator.generate_julia_set] *)

Module JuliaGenerator.

Import MandelbrotGenerator.

(** The comparison of the Julia loop: [abs_le z n] is [abs(z) <= n], [None]
    when [abs] raises [OverflowError]. *)
Class ArithLe (arith : Arith) := {
  abs_le : complex -> Z -> option bool
}.

Section Generator.

Context {arith : Arith} {arith_le : ArithLe arith}.

(** The [while] loop of [generate_julia_set]; [abs(z) <= 2] is evaluated
    before [iterations < max_iter].  The loop is entered at most
    [max_iter - iterations] times, which [fuel] bounds. *)
Fixpoint julia_loop (fuel : nat) (c z : complex) (iterations max_iter : Z)
  : option Z :=
  let? inside := abs_le z 2 in
  if inside && (iterations <? max_iter) then
    match fuel with
    | O => Some iterations
    | S fuel' =>
        julia_loop fuel' c (cadd (cmul z z) c) (iterations + 1) max_iter
    end
  else Some iterations.

Definition julia_iteration (c z : complex) (max_iter : Z) : option Z :=
  julia_loop (Z.to_nat max_iter) c z 0 max_iter.

(** [generate_julia_set]; the bounds of the window are taken as floats. *)
Definition generate_julia_set (width height : Z) (c_real c_imag : float)
    (x_min x_max y_min y_max : float) (max_iter threshold : Z)
  : option Np.ndarray :=
  let? grid := Np.zeros height width in
  let c := make_complex c_real c_imag in
  Py.for_ (Py.range 0 height)
    (fun grid y =>
       Py.for_ (Py.range 0 width)
         (fun grid x =>
            let z := pixel_point width height x_min x_max y_min y_max y x in
            let? iterations := julia_iteration c z max_iter in
            if iterations <? threshold then Np.setitem grid y x 1
            else Some grid)
         grid)
    grid.

(** The orbit [z_0 = z], [z_(n+1) = z_n^2 + c]. *)
Fixpoint julia_orbit (c z : complex) (n : nat) : complex :=
  match n with
  | O => z
  | S n' => cadd (cmul (julia_orbit c z n') (julia_orbit c z n')) c
  end.

(** [n] is the number of steps the orbit of [z] stays within radius 2: the
    first [n < max_iter] with [|z_n| > 2], or [max_iter]. *)
Definition julia_escapes_at (c z : complex) (max_iter n : Z) : Prop :=
  (forall m, 0 <= m < n ->
     abs_le (julia_orbit c z (Z.to_nat m)) 2 = Some true)
  /\ ((0 <= n < max_iter
       /\ abs_le (julia_orbit c z (Z.to_nat n)) 2 = Some false)
      \/ n = max_iter).

(** [abs] does not raise on the points [z_0 .. z_max_iter] of the orbit. *)
Definition julia_abs_defined (c z : complex) (max_iter : Z) : Prop :=
  forall m, 0 <= m <= max_iter ->
    negb (match abs_le (julia_orbit c z (Z.to_nat m)) 2 with
          | Some _ => false
          | None => true
          end) = true.

End Generator.

(** The comparison in exact rational arithmetic. *)
#[export] Instance exact_le : ArithLe exact := {|
  abs_le := fun z n =>
    Some (negb (Float.ltb (inject_Z (n * n))
                  (fst z * fst z + snd z * snd z)%Q))
|}.

End JuliaGenerator.

(** * Verified properties *)

(** ** Ranges, lists and arrays *)

Lemma range_length (lo hi : Z) :
  length (Py.range lo hi) = Z.to_nat (hi - lo).
Proof. unfold Py.range. now rewrite length_map, length_seq. Qed.

Lemma range_nth (lo hi : Z) (i : nat) (d : Z) :
  (i < Z.to_nat (hi - lo))%nat ->
  nth i (Py.range lo hi) d = lo + Z.of_nat i.
Proof.
  intros Hi. unfold Py.range.
  rewrite (nth_indep _ d (lo + Z.of_nat 0)) by now rewrite length_map, length_seq.
  rewrite (map_nth (fun i => lo + Z.of_nat i)), seq_nth; auto.
Qed.

Lemma range_In (lo hi z : Z) : In z (Py.range lo hi) <-> lo <= z < hi.
Proof.
  unfold Py.range. rewrite in_map_iff. split.
  - intros (i & <- & Hi). apply in_seq in Hi. lia.
  - intros Hz. exists (Z.to_nat (z - lo)). split; [lia|].
    apply in_seq. lia.
Qed.

Lemma range_cons (lo hi : Z) :
  lo < hi -> Py.range lo hi = lo :: Py.range (lo + 1) hi.
Proof.
  intros H. unfold Py.range.
  replace (Z.to_nat (hi - lo)) with (S (Z.to_nat (hi - (lo + 1)))) by lia.
  cbn [seq map]. f_equal; [lia|].
  rewrite <- seq_shift, map_map. apply map_ext. intros. lia.
Qed.

Lemma range_nil (lo hi : Z) : hi <= lo -> Py.range lo hi = [].
Proof.
  intros H. unfold Py.range. now replace (Z.to_nat (hi - lo)) with O by lia.
Qed.

Lemma well_shaped_spec (a : Np.ndarray) :
  well_shaped a = true ->
  0 <= fst (Np.shape a) /\ 0 <= snd (Np.shape a)
  /\ length (Np.items a) = Z.to_nat (fst (Np.shape a))
  /\ (forall row, In row (Np.items a) ->
        length row = Z.to_nat (snd (Np.shape a))).
Proof.
  unfold well_shaped. rewrite !andb_true_iff, forallb_forall.
  intros [[[Hh Hw] Hl] Hr]. repeat split; try lia.
  - now apply Nat.eqb_eq.
  - intros row Hin. apply Nat.eqb_eq. auto.
Qed.

Lemma well_shaped_intro (a : Np.ndarray) :
  0 <= fst (Np.shape a) -> 0 <= snd (Np.shape a) ->
  length (Np.items a) = Z.to_nat (fst (Np.shape a)) ->
  (forall row, In row (Np.items a) ->
     length row = Z.to_nat (snd (Np.shape a))) ->
  well_shaped a = true.
Proof.
  intros Hh Hw Hl Hr. unfold well_shaped.
  rewrite !andb_true_iff, forallb_forall. repeat split; try lia.
  - now apply Nat.eqb_eq.
  - intros row Hin. apply Nat.eqb_eq. auto.
Qed.

Lemma all_cells_spec (p : Z -> bool) (a : Np.ndarray) :
  all_cells p a = true <->
  (forall row v, In row (Np.items a) -> In v row -> p v = true).
Proof.
  unfold all_cells. rewrite forallb_forall. split.
  - intros H row v Hr Hv. specialize (H row Hr).
    rewrite forallb_forall in H. auto.
  - intros H row Hr. apply forallb_forall. intros v Hv. eauto.
Qed.

Lemma index_inside (n i : Z) :
  0 <= i < n -> Np.index n i = Some (Z.to_nat i).
Proof.
  intros H. unfold Np.index.
  now replace ((0 <=? i) && (i <? n)) with true by lia.
Qed.

Lemma index_wrap (n i : Z) :
  - n <= i < 0 -> Np.index n i = Some (Z.to_nat (i + n)).
Proof.
  intros H. unfold Np.index.
  replace ((0 <=? i) && (i <? n)) with false by lia.
  now replace ((- n <=? i) && (i <? 0)) with true by lia.
Qed.

Lemma index_bound (n i : Z) (k : nat) :
  Np.index n i = Some k -> (k < Z.to_nat n)%nat /\ - n <= i < n.
Proof.
  unfold Np.index.
  destruct ((0 <=? i) && (i <? n)) eqn:E1.
  - intros [= <-]. lia.
  - destruct ((- n <=? i) && (i <? 0)) eqn:E2; [|discriminate].
    intros [= <-]. lia.
Qed.

Lemma index_defined (n i : Z) :
  - n <= i < n -> exists k, Np.index n i = Some k.
Proof.
  intros H. destruct (Z_lt_le_dec i 0).
  - eexists. apply index_wrap. lia.
  - eexists. apply index_inside. lia.
Qed.

Lemma cell_in_row (a : Np.ndarray) (y x : Z) :
  well_shaped a = true ->
  0 <= y < fst (Np.shape a) -> 0 <= x < snd (Np.shape a) ->
  exists row, nth_error (Np.items a) (Z.to_nat y) = Some row
              /\ In row (Np.items a)
              /\ nth_error row (Z.to_nat x) = Some (cell a y x)
              /\ In (cell a y x) row.
Proof.
  intros Hw Hy Hx. apply well_shaped_spec in Hw.
  destruct Hw as (Hh & Hw & Hl & Hr).
  assert (Hly : (Z.to_nat y < length (Np.items a))%nat) by lia.
  exists (nth (Z.to_nat y) (Np.items a) []).
  assert (Hin : In (nth (Z.to_nat y) (Np.items a) []) (Np.items a))
    by now apply nth_In.
  assert (Hlx : (Z.to_nat x < length (nth (Z.to_nat y) (Np.items a) []))%nat)
    by (rewrite (Hr _ Hin); lia).
  repeat split; auto.
  - now apply nth_error_nth'.
  - unfold cell. now apply nth_error_nth'.
  - unfold cell. now apply nth_In.
Qed.

Lemma getitem_cell (a : Np.ndarray) (y x : Z) :
  well_shaped a = true ->
  0 <= y < fst (Np.shape a) -> 0 <= x < snd (Np.shape a) ->
  Np.getitem a y x = Some (cell a y x).
Proof.
  intros Hw Hy Hx. destruct (cell_in_row a y x Hw Hy Hx) as (row & Hr & _ & Hc & _).
  unfold Np.getitem. rewrite (index_inside _ _ Hy), (index_inside _ _ Hx).
  cbn [Py.bind]. now rewrite Hr.
Qed.

Lemma cell_all (p : Z -> bool) (a : Np.ndarray) (y x : Z) :
  well_shaped a = true -> all_cells p a = true ->
  0 <= y < fst (Np.shape a) -> 0 <= x < snd (Np.shape a) ->
  p (cell a y x) = true.
Proof.
  intros Hw Hp Hy Hx. destruct (cell_in_row a y x Hw Hy Hx) as (row & _ & Hr & _ & Hc).
  rewrite all_cells_spec in Hp. eauto.
Qed.

Lemma list_set_length {A : Type} (i : nat) (v : A) (l : list A) :
  length (Np.list_set i v l) = length l.
Proof.
  revert i. induction l as [|a l IH]; intros [|i]; cbn; auto.
Qed.

Lemma list_set_nth {A : Type} (i j : nat) (v d : A) (l : list A) :
  (i < length l)%nat ->
  nth j (Np.list_set i v l) d = if Nat.eqb j i then v else nth j l d.
Proof.
  revert i j. induction l as [|a l IH]; intros [|i] [|j] Hi; cbn in *;
    try lia; auto.
  apply IH. lia.
Qed.

Lemma list_set_In {A : Type} (i : nat) (v x : A) (l : list A) :
  In x (Np.list_set i v l) -> x = v \/ In x l.
Proof.
  revert i. induction l as [|a l IH]; intros [|i]; cbn; auto.
  - intros [H|H]; auto.
  - intros [H|H]; auto. destruct (IH _ H); auto.
Qed.

(** A write through a valid index succeeds and keeps the shape. *)
Lemma setitem_defined (a : Np.ndarray) (y x v : Z) :
  well_shaped a = true ->
  - fst (Np.shape a) <= y < fst (Np.shape a) ->
  - snd (Np.shape a) <= x < snd (Np.shape a) ->
  exists a', Np.setitem a y x v = Some a'
             /\ Np.shape a' = Np.shape a
             /\ well_shaped a' = true
             /\ (forall p, p v = true -> all_cells p a = true ->
                   all_cells p a' = true).
Proof.
  intros Hw Hy Hx.
  destruct (index_defined _ _ Hy) as (iy & Hiy).
  destruct (index_defined _ _ Hx) as (ix & Hix).
  pose proof (well_shaped_spec a Hw) as (Hh & Hw' & Hl & Hr).
  apply index_bound in Hiy as Hby. apply index_bound in Hix as Hbx.
  destruct (nth_error (Np.items a) iy) as [row|] eqn:Hrow.
  2:{ apply nth_error_None in Hrow. lia. }
  unfold Np.setitem. rewrite Hiy, Hix. cbn [Py.bind]. rewrite Hrow.
  eexists. split; [reflexivity|]. cbn [Np.shape Np.items].
  split; [reflexivity|]. split.
  - apply well_shaped_intro; cbn [Np.shape Np.items]; auto.
    + now rewrite list_set_length.
    + intros r Hin. apply list_set_In in Hin as [->|Hin]; auto.
      rewrite list_set_length. apply Hr. eapply nth_error_In; eauto.
  - intros p Hv Hp. rewrite all_cells_spec in *. cbn [Np.items].
    intros r u Hin Hu. apply list_set_In in Hin as [->|Hin]; eauto.
    apply list_set_In in Hu as [->|Hu]; auto.
    eapply Hp; eauto. eapply nth_error_In; eauto.
Qed.

(** A write inside the array changes exactly the addressed element. *)
Lemma setitem_cell (a : Np.ndarray) (y x v : Z) :
  well_shaped a = true ->
  0 <= y < fst (Np.shape a) -> 0 <= x < snd (Np.shape a) ->
  exists a', Np.setitem a y x v = Some a'
             /\ Np.shape a' = Np.shape a
             /\ well_shaped a' = true
             /\ (forall y' x', 0 <= y' -> 0 <= x' ->
                   cell a' y' x' =
                   if (y' =? y) && (x' =? x) then v else cell a y' x').
Proof.
  intros Hw Hy Hx.
  destruct (setitem_defined a y x v Hw) as (a' & Ha' & Hs & Hw2 & _); try lia.
  exists a'. repeat split; auto.
  intros y' x' Hy' Hx'.
  pose proof (well_shaped_spec a Hw) as (Hh & Hw' & Hl & Hr).
  destruct (cell_in_row a y x Hw Hy Hx) as (row & Hrow & Hin & _).
  unfold Np.setitem in Ha'.
  rewrite (index_inside _ _ Hy), (index_inside _ _ Hx) in Ha'.
  cbn [Py.bind] in Ha'. rewrite Hrow in Ha'. injection Ha' as <-.
  unfold cell. cbn [Np.items].
  rewrite list_set_nth by lia.
  destruct (Z.eqb_spec y' y) as [->|Hne].
  - rewrite Nat.eqb_refl. cbn [andb].
    rewrite list_set_nth by (rewrite (Hr _ Hin); lia).
    apply nth_error_nth with (d := []) in Hrow. rewrite Hrow.
    destruct (Z.eqb_spec x' x) as [->|Hnx].
    + now rewrite Nat.eqb_refl.
    + now replace (Nat.eqb (Z.to_nat x') (Z.to_nat x)) with false
        by (symmetry; apply Nat.eqb_neq; lia).
  - cbn [andb].
    now replace (Nat.eqb (Z.to_nat y') (Z.to_nat y)) with false
      by (symmetry; apply Nat.eqb_neq; lia).
Qed.

Lemma list_ext_nth {A : Type} (d : A) (l1 l2 : list A) :
  length l1 = length l2 ->
  (forall i, (i < length l1)%nat -> nth i l1 d = nth i l2 d) ->
  l1 = l2.
Proof.
  intros Hl H. apply nth_ext with (d := d) (d' := d); auto.
Qed.

(** Arrays of one shape with the same elements are equal. *)
Lemma ndarray_ext (a b : Np.ndarray) :
  well_shaped a = true -> well_shaped b = true ->
  Np.shape a = Np.shape b ->
  (forall y x, 0 <= y < fst (Np.shape a) -> 0 <= x < snd (Np.shape a) ->
     cell a y x = cell b y x) ->
  a = b.
Proof.
  intros Ha Hb Hs H.
  apply well_shaped_spec in Ha as (Hh & Hw & Hla & Hra).
  apply well_shaped_spec in Hb as (_ & _ & Hlb & Hrb).
  destruct a as [sa ia], b as [sb ib]. cbn [Np.shape Np.items] in *. subst sb.
  f_equal. apply (list_ext_nth []); [lia|].
  intros i Hi.
  assert (Hia : In (nth i ia []) ia) by (apply nth_In; lia).
  assert (Hib : In (nth i ib []) ib) by (apply nth_In; lia).
  apply (list_ext_nth 0).
  - rewrite (Hra _ Hia), (Hrb _ Hib). reflexivity.
  - intros j Hj. rewrite (Hra _ Hia) in Hj.
    specialize (H (Z.of_nat i) (Z.of_nat j)). unfold cell in H.
    cbn [Np.items] in H. rewrite !Nat2Z.id in H. apply H; lia.
Qed.

Lemma tabulate_well_shaped (h w : Z) (f : Z -> Z -> Z) :
  0 <= h -> 0 <= w -> well_shaped (tabulate h w f) = true.
Proof.
  intros Hh Hw. apply well_shaped_intro; cbn [tabulate Np.shape Np.items fst snd]; auto.
  - rewrite length_map, range_length. f_equal. lia.
  - intros row Hin. apply in_map_iff in Hin as (y & <- & _).
    rewrite length_map, range_length. f_equal. lia.
Qed.

Lemma tabulate_cell (h w : Z) (f : Z -> Z -> Z) (y x : Z) :
  0 <= y < h -> 0 <= x < w -> cell (tabulate h w f) y x = f y x.
Proof.
  intros Hy Hx. unfold cell, tabulate. cbn [Np.items].
  rewrite (nth_indep _ [] (map (f 0) (Py.range 0 w)))
    by (rewrite length_map, range_length; lia).
  rewrite (map_nth (fun y => map (f y) (Py.range 0 w))).
  rewrite range_nth by lia.
  rewrite (nth_indep _ 0 (f (0 + Z.of_nat (Z.to_nat y)) 0))
    by (rewrite length_map, range_length; lia).
  rewrite (map_nth (f _)), range_nth by lia.
  f_equal; lia.
Qed.

(** ** Neighbour counts *)

Lemma count_color_snoc (nbrs : list Z) (c k : Z) :
  count_color (nbrs ++ [c]) k =
  count_color nbrs k + (if c =? k then 1 else 0).
Proof.
  unfold count_color. rewrite count_occ_app. cbn [count_occ].
  destruct (Z.eq_dec c k) as [->|Hne].
  - rewrite Z.eqb_refl. lia.
  - replace (c =? k) with false by lia. lia.
Qed.

Lemma count_color_nonneg (nbrs : list Z) (k : Z) : 0 <= count_color nbrs k.
Proof. unfold count_color. lia. Qed.

Lemma is_color_cases (c : Z) :
  is_color c = true -> c = 1 \/ c = 2 \/ c = 3 \/ c = 4.
Proof. unfold is_color. lia. Qed.

Lemma iadd_counts_of (nbrs : list Z) (c : Z) :
  is_color c = true ->
  Py.iadd (counts_of nbrs) c 1 = Some (counts_of (nbrs ++ [c])).
Proof.
  intros Hc. unfold counts_of, color_map.
  rewrite !count_color_snoc.
  destruct (is_color_cases c Hc) as [ -> | [ -> | [ -> | -> ] ] ];
    cbn; repeat (f_equal; try lia).
Qed.

Lemma counts_of_sum (nbrs : list Z) :
  forallb is_color nbrs = true ->
  Py.sum (Py.values (counts_of nbrs)) = Z.of_nat (length nbrs).
Proof.
  intros H. unfold counts_of, color_map, Py.values, Py.sum. cbn [map snd fold_left].
  induction nbrs as [|c l IH]; [reflexivity|].
  cbn [forallb] in H. apply andb_true_iff in H as [Hc Hl].
  specialize (IH Hl). unfold count_color in *. cbn [count_occ length].
  destruct (is_color_cases c Hc) as [ -> | [ -> | [ -> | -> ] ] ];
    unfold Red, Blue, Green, Yellow in *;
    repeat (destruct (Z.eq_dec _ _); try lia).
Qed.

Lemma living_neighbors_colors (self : GameOfLife) (x y : Z) :
  grid_ok self = true -> cells_valid self = true ->
  forallb is_color (living_neighbors self x y) = true.
Proof.
  intros Hg Hv. apply forallb_forall. intros c Hc.
  unfold living_neighbors in Hc. apply filter_In in Hc as [Hin Hpos].
  unfold neighbor_cells in Hin. apply in_map_iff in Hin as (d & <- & _).
  unfold grid_ok in Hg. rewrite !andb_true_iff in Hg.
  destruct Hg as [[[[Hw Hh] Hwd] Hwp] Hhp].
  assert (H : is_cell_state
                (cell (grid self) ((y + snd d) mod height self)
                   ((x + fst d) mod width self)) = true).
  { apply cell_all; auto.
    - pose proof (Z.mod_pos_bound (y + snd d) (height self)). lia.
    - pose proof (Z.mod_pos_bound (x + fst d) (width self)). lia. }
  unfold is_cell_state in H. unfold is_color. lia.
Qed.

(** One visited neighbour. *)
Lemma visit_neighbor (self : GameOfLife) (x y dx dy : Z) (nbrs : list Z) :
  grid_ok self = true -> cells_valid self = true ->
  (let? nx := Py.mod_ (x + dx) (width self) in
   let? ny := Py.mod_ (y + dy) (height self) in
   let? neighbor_color := Np.getitem (grid self) ny nx in
   if neighbor_color >? 0 then
     let? color_counts := Py.iadd (counts_of nbrs) neighbor_color 1 in
     Some (color_counts, nbrs ++ [neighbor_color])
   else Some (counts_of nbrs, nbrs))
  = let c := cell (grid self) ((y + dy) mod height self)
               ((x + dx) mod width self) in
    Some (counts_of (nbrs ++ filter (fun c => c >? 0) [c]),
          nbrs ++ filter (fun c => c >? 0) [c]).
Proof.
  intros Hg Hv. unfold grid_ok in Hg. rewrite !andb_true_iff in Hg.
  destruct Hg as [[[[Hw Hh] Hwd] Hwp] Hhp].
  unfold Py.mod_.
  replace (width self =? 0) with false by lia.
  replace (height self =? 0) with false by lia.
  cbn [Py.bind].
  pose proof (Z.mod_pos_bound (y + dy) (height self)).
  pose proof (Z.mod_pos_bound (x + dx) (width self)).
  rewrite getitem_cell by (auto; lia).
  cbn [Py.bind filter].
  assert (Hc : is_cell_state
                 (cell (grid self) ((y + dy) mod height self)
                    ((x + dx) mod width self)) = true)
    by (apply cell_all; auto; lia).
  destruct (_ >? 0) eqn:Hpos.
  - rewrite iadd_counts_of by (unfold is_color, is_cell_state in *; lia).
    reflexivity.
  - now rewrite app_nil_r.
Qed.

Lemma filter_cons_app {A : Type} (f : A -> bool) (a : A) (l : list A) :
  filter f (a :: l) = (if f a then [a] else []) ++ filter f l.
Proof. cbn [filter]. now destruct (f a). Qed.

Lemma get_neighbors_by_color_spec (self : GameOfLife) (x y : Z) :
  grid_ok self = true -> cells_valid self = true ->
  get_neighbors_by_color self x y =
  Some (counts_of (living_neighbors self x y),
        Z.of_nat (length (living_neighbors self x y)),
        living_neighbors self x y).
Proof.
  intros Hg Hv. unfold get_neighbors_by_color.
  change [(1, 0); (2, 0); (3, 0); (4, 0)] with (counts_of []).
  cbn [Py.for_ Py.bind Z.eqb andb fst snd].
  repeat (rewrite visit_neighbor by assumption; cbn [Py.bind fst snd]).
  match goal with
  | |- Some (counts_of ?l, _, _) = _ =>
      assert (Hl : l = living_neighbors self x y)
  end.
  { unfold living_neighbors, neighbor_cells, moore. cbn [map fst snd].
    rewrite !filter_cons_app. cbn [filter app].
    rewrite <- !app_assoc. rewrite app_nil_r. reflexivity. }
  rewrite Hl.
  rewrite counts_of_sum by now apply living_neighbors_colors.
  reflexivity.
Qed.

(** ** The dominant colour *)

Lemma get_dominant_color_dict (r b g y : Z) :
  0 <= r -> 0 <= b -> 0 <= g -> 0 <= y ->
  get_dominant_color (CountsDict (color_map r b g y)) =
  Some (first_maximum r b g y).
Proof.
  intros Hr Hb Hg Hy.
  unfold get_dominant_color, color_map, first_maximum, Red, Blue, Green, Yellow.
  cbn.
  destruct (Z.eqb_spec (r + b + g + y) 0) as [H0|H0].
  - replace (r =? Z.max (Z.max r b) (Z.max g y)) with true by lia.
    reflexivity.
  - repeat (match goal with
            | |- context [?a <? ?c] =>
                is_var a; is_var c; destruct (Z.ltb_spec a c)
            end; cbn [fst snd]);
      repeat match goal with
             | |- context [?a =? ?m] =>
                 destruct (Z.eqb_spec a m); try lia
             end; reflexivity.
Qed.

Lemma get_dominant_color_array (z r b g y : Z) :
  0 <= r -> 0 <= b -> 0 <= g -> 0 <= y ->
  get_dominant_color (CountsArray [z; r; b; g; y]) =
  Some (first_maximum r b g y).
Proof.
  intros Hr Hb Hg Hy.
  unfold get_dominant_color, first_maximum, Red, Blue, Green, Yellow.
  cbn [skipn length].
  change (Py.range 0 (Z.of_nat 4)) with [0; 1; 2; 3].
  cbn.
  change (Pos.to_nat 1) with 1%nat. change (Pos.to_nat 2) with 2%nat.
  change (Pos.to_nat 3) with 3%nat.
  cbn.
  destruct (Z.eqb_spec (r + b + g + y) 0) as [H0|H0].
  - replace (r =? Z.max (Z.max r b) (Z.max g y)) with true by lia.
    reflexivity.
  - repeat (match goal with
            | |- context [?a <? ?c] =>
                is_var a; is_var c; destruct (Z.ltb_spec a c)
            end; cbn [fst snd]);
      repeat match goal with
             | |- context [?a =? ?m] =>
                 destruct (Z.eqb_spec a m); try lia
             end; reflexivity.
Qed.

Lemma first_maximum_color (r b g y : Z) :
  is_color (first_maximum r b g y) = true.
Proof.
  unfold first_maximum.
  repeat match goal with
         | |- context [?a =? ?m] => destruct (a =? m)
         end; reflexivity.
Qed.

Lemma get_dominant_color_counts_of (nbrs : list Z) :
  get_dominant_color (CountsDict (counts_of nbrs)) =
  Some (spec_dominant nbrs).
Proof.
  unfold counts_of, spec_dominant.
  apply get_dominant_color_dict; apply count_color_nonneg.
Qed.

(** C8. On a neighbour-count map over the four colours (counts are not
    negative) [get_dominant_color] returns a colour whose count is the
    maximum; every colour before it in the order Red, Blue, Green, Yellow
    has a strictly smaller count, so the first colour reaching the maximum
    wins a tie and a colour with the strictly greatest count is the one
    returned; when the four counts are zero the result is Red. *)
Theorem dominant_color_first_maximum (r b g y : Z) :
  0 <= r -> 0 <= b -> 0 <= g -> 0 <= y ->
  let counts := color_map r b g y in
  exists k,
    get_dominant_color (CountsDict counts) = Some k
    /\ is_color k = true
    /\ (forall j, is_color j = true ->
          Py.get counts j 0 <= Py.get counts k 0)
    /\ (forall j, is_color j = true -> j < k ->
          Py.get counts j 0 < Py.get counts k 0)
    /\ (forall j, is_color j = true ->
          (forall i, is_color i = true -> i <> j ->
             Py.get counts i 0 < Py.get counts j 0) ->
          k = j)
    /\ (r = 0 -> b = 0 -> g = 0 -> y = 0 -> k = Red).
Proof.
  intros Hr Hb Hg Hy counts.
  exists (first_maximum r b g y). split.
  { now apply get_dominant_color_dict. }
  split; [apply first_maximum_color|].
  assert (Hmax : forall j, is_color j = true ->
            Py.get counts j 0 <= Py.get counts (first_maximum r b g y) 0).
  { intros j Hj.
    destruct (is_color_cases j Hj) as [ -> | [ -> | [ -> | -> ] ] ];
      unfold first_maximum, counts, color_map, Red, Blue, Green, Yellow;
      repeat match goal with
             | |- context [?a =? ?m] => destruct (Z.eqb_spec a m)
             end; cbn; lia. }
  split; [exact Hmax|]. split; [|split].
  - intros j Hj.
    destruct (is_color_cases j Hj) as [ -> | [ -> | [ -> | -> ] ] ];
      unfold first_maximum, counts, color_map, Red, Blue, Green, Yellow;
      repeat match goal with
             | |- context [?a =? ?m] => destruct (Z.eqb_spec a m)
             end; cbn; lia.
  - intros j Hj Hstrict.
    destruct (Z.eq_dec (first_maximum r b g y) j) as [E|E]; [exact E|].
    specialize (Hstrict _ (first_maximum_color r b g y) E).
    specialize (Hmax j Hj). lia.
  - intros -> -> -> ->. reflexivity.
Qed.

(** The theorem at the counts of three blue and three green neighbours:
    the tie goes to Blue. *)
Lemma dominant_color_first_maximum_witness :
  exists k,
    get_dominant_color (CountsDict (color_map 1 3 3 0)) = Some k
    /\ is_color k = true
    /\ (forall j, is_color j = true ->
          Py.get (color_map 1 3 3 0) j 0 <= Py.get (color_map 1 3 3 0) k 0)
    /\ (forall j, is_color j = true -> j < k ->
          Py.get (color_map 1 3 3 0) j 0 < Py.get (color_map 1 3 3 0) k 0)
    /\ (forall j, is_color j = true ->
          (forall i, is_color i = true -> i <> j ->
             Py.get (color_map 1 3 3 0) i 0 < Py.get (color_map 1 3 3 0) j 0) ->
          k = j)
    /\ (1 = 0 -> 3 = 0 -> 3 = 0 -> 0 = 0 -> k = Red).
Proof. apply (dominant_color_first_maximum 1 3 3 0); lia. Defined.

(** ** The rules of one cell *)

Lemma max_of_four (a b c d : Z) :
  Py.max [a; b; c; d] = Some (Z.max (Z.max a b) (Z.max c d)).
Proof.
  unfold Py.max, Py.max_key. cbn [Py.for_ Py.bind fst snd].
  repeat (match goal with
          | |- context [?p <? ?q] =>
              is_var p; is_var q; destruct (Z.ltb_spec p q)
          end; cbn [fst snd]); f_equal; lia.
Qed.

Lemma get_counts_of (nbrs : list Z) (c : Z) :
  forallb is_color nbrs = true ->
  Py.get (counts_of nbrs) c 0 = count_color nbrs c.
Proof.
  intros H. unfold counts_of, color_map, Red, Blue, Green, Yellow.
  cbn [Py.get].
  repeat match goal with
         | |- context [?k =? c] => destruct (Z.eqb_spec k c); [now subst|]
         end.
  unfold count_color.
  rewrite (proj1 (count_occ_not_In Z.eq_dec nbrs c)); [reflexivity|].
  intros Hin. rewrite forallb_forall in H. apply H in Hin.
  apply is_color_cases in Hin. lia.
Qed.

Lemma max_color_count_counts_of (nbrs : list Z) :
  (if negb (Nat.eqb (length (counts_of nbrs)) 0)
      && Py.any (Py.values (counts_of nbrs))
   then Py.max (Py.values (counts_of nbrs))
   else Some 0)
  = Some (Z.max (Z.max (count_color nbrs Red) (count_color nbrs Blue))
            (Z.max (count_color nbrs Green) (count_color nbrs Yellow))).
Proof.
  unfold counts_of, color_map, Py.values. cbn [map snd length Nat.eqb negb andb].
  rewrite max_of_four.
  destruct (Py.any _) eqn:Hany; [reflexivity|].
  unfold Py.any in Hany. cbn [existsb] in Hany.
  rewrite !orb_false_iff, !negb_false_iff in Hany.
  f_equal. lia.
Qed.

(** The custom colour rules on the neighbourhood of a cell are the table of
    the specification. *)
Lemma apply_custom_color_rules_spec (x y cur : Z) (nbrs : list Z)
    (r : Np.RandomState) :
  0 <= cur -> forallb is_color nbrs = true ->
  apply_custom_color_rules x y cur (counts_of nbrs)
    (Z.of_nat (length nbrs)) (spec_dominant nbrs) r
  = (u <- spec_overcrowding_draw cur nbrs ;;
     Np.ret (spec_custom cur nbrs u)) r.
Proof.
  intros Hcur Hn.
  pose proof (first_maximum_color (count_color nbrs Red)
                (count_color nbrs Blue) (count_color nbrs Green)
                (count_color nbrs Yellow)) as Hdom.
  fold (spec_dominant nbrs) in Hdom. unfold is_color in Hdom.
  unfold apply_custom_color_rules, spec_overcrowding_draw, spec_custom, Dead.
  rewrite max_color_count_counts_of, get_counts_of by assumption.
  set (total := Z.of_nat (length nbrs)).
  set (m := Z.max _ _).
  unfold Py.in_. cbn [existsb].
  replace (spec_dominant nbrs >? 0) with true by lia.
  replace (spec_dominant nbrs =? 0) with false by lia.
  destruct (Z.gtb_spec cur 0) as [Hc|Hc].
  - replace (cur =? 0) with false by lia. cbn [negb andb].
    destruct (Z.leb_spec 5 total) as [H5|H5].
    + replace (total >=? 5) with true by lia.
      replace (total =? 2) with false by lia.
      replace (total =? 3) with false by lia.
      replace (total >=? 4) with true by lia.
      replace (4 <=? total) with true by lia.
      unfold Np.bind, Np.random, Np.ret, Np.lift. cbn [andb orb].
      destruct (Float.ltb _ _); [reflexivity|].
      replace (m >=? 3) with (3 <=? m) by lia.
      now destruct (3 <=? m).
    + replace (total >=? 5) with false by lia.
      unfold Np.bind, Np.ret, Np.lift. cbn [andb].
      destruct (Z.eqb_spec total 2); [reflexivity|].
      destruct (Z.eqb_spec total 3); [reflexivity|]. cbn [orb].
      replace (total >=? 4) with (4 <=? total) by lia.
      replace (m >=? 3) with (3 <=? m) by lia.
      destruct (4 <=? total); [now destruct (3 <=? m)|].
      destruct (total =? 1); [|reflexivity].
      now destruct (_ =? 1).
  - replace (cur =? 0) with true by lia. cbn [negb andb].
    unfold Np.bind, Np.ret.
    now destruct (total =? 3).
Qed.

(** The original rules on the neighbourhood of a cell. *)
Lemma apply_original_conway_rules_spec (x y cur : Z) (nbrs : list Z) :
  0 <= cur ->
  apply_original_conway_rules x y cur (Z.of_nat (length nbrs))
    (spec_dominant nbrs)
  = spec_original cur nbrs.
Proof.
  intros Hcur.
  pose proof (first_maximum_color (count_color nbrs Red)
                (count_color nbrs Blue) (count_color nbrs Green)
                (count_color nbrs Yellow)) as Hdom.
  fold (spec_dominant nbrs) in Hdom. unfold is_color in Hdom.
  unfold apply_original_conway_rules, spec_original, Dead, Py.in_.
  cbn [existsb].
  replace (spec_dominant nbrs >? 0) with true by lia.
  replace (spec_dominant nbrs =? 0) with false by lia.
  destruct (Z.gtb_spec cur 0) as [Hc|Hc].
  - replace (cur =? 0) with false by lia. cbn [negb].
    now rewrite orb_false_r.
  - replace (cur =? 0) with true by lia. reflexivity.
Qed.

Lemma grid_ok_spec (self : GameOfLife) :
  grid_ok self = true ->
  well_shaped (grid self) = true
  /\ Np.shape (grid self) = (height self, width self)
  /\ 0 < width self /\ 0 < height self.
Proof.
  unfold grid_ok. rewrite !andb_true_iff.
  intros [[[[Hw Hh] Hwd] Hwp] Hhp].
  repeat split; try lia; auto.
  destruct (Np.shape (grid self)) as [h w]. cbn [fst snd] in *.
  f_equal; lia.
Qed.

Lemma index_mod (n i : Z) :
  - n <= i < n -> Np.index n i = Some (Z.to_nat (i mod n)).
Proof.
  intros H. destruct (Z_lt_le_dec i 0).
  - rewrite index_wrap by lia. do 2 f_equal.
    apply Z.mod_unique with (q := -1); lia.
  - rewrite index_inside by lia. now rewrite Z.mod_small by lia.
Qed.

Lemma addressed_valid (self : GameOfLife) (y x : Z) :
  grid_ok self = true -> cells_valid self = true ->
  is_cell_state (addressed self y x) = true.
Proof.
  intros Hg Hv. destruct (grid_ok_spec self Hg) as (Hw & Hs & Hwp & Hhp).
  pose proof (Z.mod_pos_bound y (height self)).
  pose proof (Z.mod_pos_bound x (width self)).
  apply cell_all; auto; rewrite Hs; cbn [fst snd]; lia.
Qed.

Lemma getitem_addressed (self : GameOfLife) (y x : Z) :
  grid_ok self = true ->
  - height self <= y < height self -> - width self <= x < width self ->
  Np.getitem (grid self) y x = Some (addressed self y x).
Proof.
  intros Hg Hy Hx. destruct (grid_ok_spec self Hg) as (Hw & Hs & Hwp & Hhp).
  pose proof (Z.mod_pos_bound y (height self)).
  pose proof (Z.mod_pos_bound x (width self)).
  unfold Np.getitem. rewrite Hs. cbn [fst snd].
  rewrite (index_mod _ _ Hy), (index_mod _ _ Hx). cbn [Py.bind].
  destruct (cell_in_row (grid self) (y mod height self) (x mod width self))
    as (row & Hrow & _ & Hc & _); auto; try (rewrite Hs; cbn [fst snd]; lia).
  rewrite Hrow. cbn [Py.bind]. exact Hc.
Qed.

(** The body of the scan applies the rule selected by the dispatch of the
    specification and writes its result. *)
Lemma update_cell_spec (self : GameOfLife) (new_grid : Np.ndarray) (y x : Z)
    (r : Np.RandomState) :
  grid_ok self = true -> cells_valid self = true ->
  - height self <= y < height self -> - width self <= x < width self ->
  update_cell self new_grid y x r
  = (v <- spec_cell self y x ;; Np.lift (Np.setitem new_grid y x v)) r.
Proof.
  intros Hg Hv Hy Hx.
  pose proof (addressed_valid self y x Hg Hv) as Hcur.
  pose proof (living_neighbors_colors self x y Hg Hv) as Hn.
  unfold is_cell_state in Hcur.
  unfold update_cell, spec_cell, spec_dispatch, spec_apply.
  rewrite get_neighbors_by_color_spec by assumption.
  unfold Np.bind at 1. cbn [Np.lift].
  rewrite getitem_addressed by assumption.
  unfold Np.bind at 1. cbn [Np.lift].
  rewrite get_dominant_color_counts_of.
  unfold Np.bind at 1. cbn [Np.lift].
  set (cur := addressed self y x) in *.
  set (nbrs := living_neighbors self x y) in *.
  assert (Hcustom : forall r',
             apply_custom_color_rules x y cur (counts_of nbrs)
               (Z.of_nat (length nbrs)) (spec_dominant nbrs) r'
             = match spec_overcrowding_draw cur nbrs r' with
               | Some (u, r'') => Some (spec_custom cur nbrs u, r'')
               | None => None
               end).
  { intros r'. rewrite apply_custom_color_rules_spec by (auto; lia).
    reflexivity. }
  rewrite apply_original_conway_rules_spec by lia.
  unfold spec_random_outcome, Dead.
  replace (negb (cur =? 0)) with (cur >? 0) by lia.
  destruct (chaos_mode self);
    unfold Np.bind, Np.random, Np.ret, Np.randint;
    repeat (match goal with
            | |- context [Float.ltb ?u ?p] => destruct (Float.ltb u p)
            | |- context [cur >? 0] => destruct (cur >? 0)
            end; cbn beta iota);
    rewrite ?Hcustom;
    try (destruct (spec_overcrowding_draw cur nbrs _) as [[u r'']|]);
    reflexivity.
Qed.

(** ** Sums, minima and maxima *)

Lemma fold_add_acc (l : list Z) (n : Z) :
  fold_left Z.add l n = n + fold_left Z.add l 0.
Proof.
  revert n. induction l as [|a l IH]; intros n; cbn [fold_left]; [lia|].
  rewrite IH, (IH (0 + a)). lia.
Qed.

Lemma sum_cons (a : Z) (l : list Z) : Py.sum (a :: l) = a + Py.sum l.
Proof. unfold Py.sum. cbn [fold_left]. rewrite fold_add_acc. lia. Qed.

Lemma sum_nonneg (l : list Z) :
  (forall v, In v l -> 0 <= v) ->
  0 <= Py.sum l /\ (Py.sum l = 0 -> forall v, In v l -> v = 0).
Proof.
  induction l as [|a l IH]; intros H.
  - split; [reflexivity|]. intros _ v [].
  - rewrite sum_cons.
    destruct IH as [IH0 IH1]; [intros; apply H; now right|].
    pose proof (H a (or_introl eq_refl)).
    split; [lia|]. intros Hs v [<-|Hv]; [lia|]. apply IH1; [lia|assumption].
Qed.

Lemma total_cells_zero (a : Np.ndarray) :
  all_cells is_uint8 a = true ->
  0 <= total_cells a
  /\ (total_cells a = 0 ->
      forall row v, In row (Np.items a) -> In v row -> v = 0).
Proof.
  intros Hu. rewrite all_cells_spec in Hu. unfold total_cells.
  assert (Hrows : forall s, In s (map Py.sum (Np.items a)) -> 0 <= s).
  { intros s Hs. apply in_map_iff in Hs as (row & <- & Hrow).
    apply sum_nonneg. intros v Hv. specialize (Hu row v Hrow Hv).
    unfold is_uint8 in Hu. lia. }
  destruct (sum_nonneg _ Hrows) as [H0 H1]. split; [assumption|].
  intros Hz row v Hrow Hv.
  assert (Hs : Py.sum row = 0) by (apply H1; auto; now apply in_map).
  refine (proj2 (sum_nonneg row _) Hs v Hv).
  intros u Hu'. specialize (Hu row u Hrow Hu'). unfold is_uint8 in Hu. lia.
Qed.

Lemma min_spec (l : list Z) (m : Z) :
  Py.min l = Some m -> In m l /\ forall z, In z l -> m <= z.
Proof.
  destruct l as [|x xs]; [discriminate|]. cbn [Py.min]. intros [= <-].
  revert x. induction xs as [|a xs IH]; intros x; cbn [fold_left].
  - split; [now left|]. intros z [<-|[]]. lia.
  - destruct (IH (Z.min x a)) as [Hin Hle]. split.
    + destruct Hin as [Hin|Hin]; [|now right; right].
      rewrite <- Hin. destruct (Z.min_spec x a) as [[_ ->]|[_ ->]];
        [now left|now right; left].
    + intros z [Hz|[Hz|Hz]].
      * specialize (Hle (Z.min x a) (or_introl eq_refl)). lia.
      * specialize (Hle (Z.min x a) (or_introl eq_refl)). lia.
      * apply Hle. now right.
Qed.

Lemma max_fold (xs : list Z) (x : Z) :
  exists m,
    Py.for_ xs
      (fun (best : Z * Z) y =>
         Some (if snd best <? y then (y, y) else best))
      (x, x) = Some (m, m)
    /\ In m (x :: xs) /\ forall z, In z (x :: xs) -> z <= m.
Proof.
  revert x. induction xs as [|a xs IH]; intros x; cbn [Py.for_ Py.bind snd].
  - exists x. split; [reflexivity|]. split; [now left|].
    intros z [<-|[]]. lia.
  - destruct (Z.ltb_spec x a) as [Hlt|Hge].
    + destruct (IH a) as (m & Hm & Hin & Hle). exists m.
      split; [assumption|]. split; [now right|].
      intros z [Hz|Hz]; [|now apply Hle].
      specialize (Hle a (or_introl eq_refl)). lia.
    + destruct (IH x) as (m & Hm & Hin & Hle). exists m.
      split; [assumption|]. split.
      * destruct Hin as [Hin|Hin]; [now left|now right; right].
      * intros z [Hz|[Hz|Hz]].
        -- apply Hle. now left.
        -- specialize (Hle x (or_introl eq_refl)). lia.
        -- apply Hle. now right.
Qed.

Lemma max_spec (l : list Z) (m : Z) :
  Py.max l = Some m -> In m l /\ forall z, In z l -> z <= m.
Proof.
  destruct l as [|x xs]; [discriminate|].
  unfold Py.max, Py.max_key. cbn [Py.bind].
  destruct (max_fold xs x) as (m' & -> & Hin & Hle). cbn [Py.bind fst].
  intros [= <-]. auto.
Qed.

Lemma min_defined (l : list Z) : l <> [] -> exists m, Py.min l = Some m.
Proof. destruct l; [congruence|]. intros _. eexists. reflexivity. Qed.

Lemma max_defined (l : list Z) : l <> [] -> exists m, Py.max l = Some m.
Proof.
  destruct l as [|x xs]; [congruence|]. intros _.
  unfold Py.max, Py.max_key. cbn [Py.bind].
  destruct (max_fold xs x) as (m & -> & _). now exists m.
Qed.

(** ** The active bounds *)

Lemma combine_range_In {A : Type} (l : list A) (lo i : Z) (a : A) :
  In (i, a) (combine (Py.range lo (lo + Z.of_nat (length l))) l) <->
  lo <= i /\ nth_error l (Z.to_nat (i - lo)) = Some a.
Proof.
  revert lo. induction l as [|b l IH]; intros lo.
  - cbn [length combine]. rewrite range_nil by (cbn; lia). cbn [combine].
    split; [intros []|]. intros [_ H]. now destruct (Z.to_nat (i - lo)).
  - rewrite range_cons by (cbn [length]; lia). cbn [combine In].
    replace (lo + Z.of_nat (length (b :: l)))
      with (lo + 1 + Z.of_nat (length l)) by (cbn [length]; lia).
    rewrite IH. split.
    + intros [[= <- <-]|[Hlo H]].
      * split; [lia|]. now rewrite Z.sub_diag.
      * split; [lia|].
        replace (Z.to_nat (i - lo)) with (S (Z.to_nat (i - (lo + 1)))) by lia.
        exact H.
    + intros [Hlo H]. destruct (Z.eq_dec i lo) as [->|Hne].
      * left. rewrite Z.sub_diag in H. cbn in H. congruence.
      * right. split; [lia|].
        replace (Z.to_nat (i - lo)) with (S (Z.to_nat (i - (lo + 1)))) in H
          by lia.
        exact H.
Qed.

Lemma where_cells_In (a : Np.ndarray) (y x : Z) :
  In (y, x) (where_cells a) <->
  0 <= y /\ 0 <= x
  /\ exists row v, nth_error (Np.items a) (Z.to_nat y) = Some row
                   /\ nth_error row (Z.to_nat x) = Some v /\ 0 < v.
Proof.
  unfold where_cells. rewrite in_concat. split.
  - intros (l & Hl & Hin). apply in_map_iff in Hl as ([y' row] & <- & Hyr).
    cbn [fst snd] in Hin. unfold Np.where_row in Hin.
    apply in_map_iff in Hin as ([x' v] & [= <- <-] & Hf).
    apply filter_In in Hf as [Hxv Hpos]. cbn [fst snd] in *.
    apply (combine_range_In _ 0) in Hyr as [Hy Hrow].
    apply (combine_range_In _ 0) in Hxv as [Hx Hv].
    rewrite Z.sub_0_r in *. repeat split; auto.
    exists row, v. repeat split; auto. lia.
  - intros (Hy & Hx & row & v & Hrow & Hv & Hpos).
    exists (Np.where_row y row). split.
    + apply in_map_iff. exists (y, row). split; [reflexivity|].
      apply (combine_range_In _ 0). now rewrite Z.sub_0_r.
    + unfold Np.where_row. apply in_map_iff. exists (x, v).
      split; [reflexivity|]. apply filter_In. split.
      * apply (combine_range_In _ 0). now rewrite Z.sub_0_r.
      * cbn [snd]. lia.
Qed.

Lemma where_cells_alive (a : Np.ndarray) (y x : Z) :
  well_shaped a = true -> all_cells is_uint8 a = true ->
  In (y, x) (where_cells a) <-> alive a y x.
Proof.
  intros Hw Hu. rewrite where_cells_In. unfold alive.
  pose proof (well_shaped_spec a Hw) as (Hh & Hw' & Hl & Hr).
  split.
  - intros (Hy & Hx & row & v & Hrow & Hv & Hpos).
    assert (Hyh : y < fst (Np.shape a)).
    { assert (Z.to_nat y < length (Np.items a))%nat
        by (apply nth_error_Some; congruence). lia. }
    assert (Hxw : x < snd (Np.shape a)).
    { assert (Z.to_nat x < length row)%nat
        by (apply nth_error_Some; congruence).
      rewrite (Hr row) in H by (eapply nth_error_In; eauto). lia. }
    repeat split; auto.
    destruct (cell_in_row a y x Hw) as (row' & Hrow' & _ & Hc & _); try lia.
    rewrite Hrow in Hrow'. injection Hrow' as <-. rewrite Hv in Hc.
    injection Hc as <-. lia.
  - intros (Hy & Hx & Hc).
    destruct (cell_in_row a y x Hw) as (row & Hrow & Hin & Hv & _); try lia.
    repeat split; try lia. exists row, (cell a y x). repeat split; auto.
    pose proof (cell_all is_uint8 a y x Hw Hu Hy Hx) as Hu8.
    unfold is_uint8 in Hu8. lia.
Qed.

Lemma where_gt0_cells (a : Np.ndarray) :
  Np.where_gt0 a = (map fst (where_cells a), map snd (where_cells a)).
Proof. reflexivity. Qed.

Lemma in_map_fst {A B : Type} (l : list (A * B)) (a : A) :
  In a (map fst l) -> exists b, In (a, b) l.
Proof.
  intros H. apply in_map_iff in H as ([a' b] & <- & Hin). now exists b.
Qed.

Lemma in_map_snd {A B : Type} (l : list (A * B)) (b : B) :
  In b (map snd l) -> exists a, In (a, b) l.
Proof.
  intros H. apply in_map_iff in H as ([a b'] & <- & Hin). now exists a.
Qed.

Lemma sum_nonzero (l : list Z) :
  Py.sum l <> 0 -> exists v, In v l /\ v <> 0.
Proof.
  induction l as [|a l IH]; [now cbn|]. rewrite sum_cons. intros H.
  destruct (Z.eq_dec a 0) as [Ea|Ea].
  - destruct IH as (v & Hv & Hne); [lia|]. exists v. split; auto. now right.
  - exists a. split; auto. now left.
Qed.

(** The sum test of [update_active_bounds] detects the empty grid. *)
Lemma sum_zero_dead (a : Np.ndarray) :
  well_shaped a = true -> all_cells is_uint8 a = true ->
  total_cells a < 18446744073709551616 ->
  (Np.sum a =? 0) = true <-> (forall y x, ~ alive a y x).
Proof.
  intros Hw Hu Hlt. destruct (total_cells_zero a Hu) as [H0 Hz].
  unfold Np.sum. fold (total_cells a). rewrite Z.mod_small by lia.
  rewrite Z.eqb_eq. split.
  - intros Ht y x (Hy & Hx & Hc). apply Hc.
    destruct (cell_in_row a y x Hw Hy Hx) as (row & _ & Hin & _ & Hv).
    eapply Hz; eauto.
  - intros Hdead.
    destruct (Z.eq_dec (total_cells a) 0) as [E|E]; [exact E|exfalso].
    assert (Hex : exists row v, In row (Np.items a) /\ In v row /\ v <> 0).
    { destruct (sum_nonzero (map Py.sum (Np.items a)) E) as (t & Ht & Hne).
      apply in_map_iff in Ht as (row & <- & Hrow).
      destruct (sum_nonzero row Hne) as (v & Hv & Hv0).
      now exists row, v. }
    destruct Hex as (row & v & Hrow & Hv & Hne).
    pose proof (well_shaped_spec a Hw) as (Hh & Hw' & Hl & Hr).
    apply In_nth with (d := []) in Hrow as (i & Hi & <-).
    apply In_nth with (d := 0) in Hv as (j & Hj & <-).
    apply (Hdead (Z.of_nat i) (Z.of_nat j)). unfold alive, cell.
    rewrite !Nat2Z.id. rewrite Hr in Hj by (apply nth_In; lia).
    repeat split; auto; lia.
Qed.

(** The bounds computed on a grid with a non-Dead cell. *)
Lemma update_active_bounds_alive (self : GameOfLife) :
  well_shaped (grid self) = true ->
  all_cells is_uint8 (grid self) = true ->
  (Np.sum (grid self) =? 0) = false ->
  (exists y x, alive (grid self) y x) ->
  exists min_x max_x min_y max_y,
    tight_box (grid self) min_x max_x min_y max_y
    /\ update_active_bounds self =
       Some (with_active_bounds self
               (Z.max 0 (min_x - bounds_margin self),
                Z.min (width self) (max_x + bounds_margin self + 1),
                Z.max 0 (min_y - bounds_margin self),
                Z.min (height self) (max_y + bounds_margin self + 1))).
Proof.
  intros Hw Hu Hsum (y0 & x0 & Halive).
  apply (where_cells_alive _ _ _ Hw Hu) in Halive.
  assert (Hne : where_cells (grid self) <> []).
  { intros E. now rewrite E in Halive. }
  assert (Hlen : (Z.of_nat (length (where_cells (grid self))) =? 0) = false).
  { apply Z.eqb_neq. destruct (where_cells (grid self)); [congruence|].
    cbn [length]. lia. }
  unfold update_active_bounds. rewrite Hsum, where_gt0_cells.
  cbn [fst snd]. rewrite length_map, Hlen.
  unfold Np.amin, Np.amax.
  assert (Hys : map fst (where_cells (grid self)) <> []).
  { destruct (where_cells (grid self)); [congruence|discriminate]. }
  assert (Hxs : map snd (where_cells (grid self)) <> []).
  { destruct (where_cells (grid self)); [congruence|discriminate]. }
  destruct (min_defined _ Hys) as (min_y & Hmin_y).
  destruct (max_defined _ Hys) as (max_y & Hmax_y).
  destruct (min_defined _ Hxs) as (min_x & Hmin_x).
  destruct (max_defined _ Hxs) as (max_x & Hmax_x).
  rewrite Hmin_y, Hmax_y, Hmin_x, Hmax_x. cbn [Py.bind].
  exists min_x, max_x, min_y, max_y. split; [|reflexivity].
  apply min_spec in Hmin_y as [Hiy Hly]. apply max_spec in Hmax_y as [HIy HLy].
  apply min_spec in Hmin_x as [Hix Hlx]. apply max_spec in Hmax_x as [HIx HLx].
  unfold tight_box. repeat split.
  - apply Hlx. apply (where_cells_alive _ _ _ Hw Hu) in H.
    apply in_map_iff. now exists (y, x).
  - apply HLx. apply (where_cells_alive _ _ _ Hw Hu) in H.
    apply in_map_iff. now exists (y, x).
  - apply Hly. apply (where_cells_alive _ _ _ Hw Hu) in H.
    apply in_map_iff. now exists (y, x).
  - apply HLy. apply (where_cells_alive _ _ _ Hw Hu) in H.
    apply in_map_iff. now exists (y, x).
  - apply in_map_snd in Hix as (y & Hy). exists y.
    now apply (where_cells_alive _ _ _ Hw Hu).
  - apply in_map_snd in HIx as (y & Hy). exists y.
    now apply (where_cells_alive _ _ _ Hw Hu).
  - apply in_map_fst in Hiy as (x & Hx). exists x.
    now apply (where_cells_alive _ _ _ Hw Hu).
  - apply in_map_fst in HIy as (x & Hx). exists x.
    now apply (where_cells_alive _ _ _ Hw Hu).
Qed.

(** C5. After [update_active_bounds] on a grid (of [uint8] cells, whose sum
    fits the 64-bit accumulator of [np.sum]): when no cell is non-Dead the
    bounds are the box [[w/2 - 1, w/2 + 1) x [h/2 - 1, h/2 + 1)], two cells
    wide and high around the centre; otherwise they are the tight bounding
    box of the non-Dead cells widened by the margin 5 on the four sides
    (the upper sides made exclusive) and clamped to [[0, width]] and
    [[0, height]], and every non-Dead cell [(y, x)] satisfies
    [min_x <= x < max_x] and [min_y <= y < max_y]. *)
Theorem update_active_bounds_spec (self : GameOfLife) :
  well_shaped (grid self) = true ->
  Np.shape (grid self) = (height self, width self) ->
  all_cells is_uint8 (grid self) = true ->
  total_cells (grid self) < 18446744073709551616 ->
  bounds_margin self = 5 ->
  exists b,
    update_active_bounds self = Some (with_active_bounds self b)
    /\ ((forall y x, ~ alive (grid self) y x) ->
        b = (width self / 2 - 1, width self / 2 + 1,
             height self / 2 - 1, height self / 2 + 1))
    /\ ((exists y x, alive (grid self) y x) ->
        exists min_x max_x min_y max_y,
          tight_box (grid self) min_x max_x min_y max_y
          /\ b = (Z.max 0 (min_x - 5), Z.min (width self) (max_x + 5 + 1),
                  Z.max 0 (min_y - 5), Z.min (height self) (max_y + 5 + 1))
          /\ (forall y x, alive (grid self) y x -> in_bounds b y x = true)).
Proof.
  intros Hw Hs Hu Hlt Hm.
  pose proof (sum_zero_dead (grid self) Hw Hu Hlt) as Hsum.
  destruct (Np.sum (grid self) =? 0) eqn:E.
  - assert (Hdead : forall y x, ~ alive (grid self) y x) by now apply Hsum.
    eexists. split; [|split].
    + unfold update_active_bounds. rewrite E. reflexivity.
    + reflexivity.
    + intros (y & x & Ha). now destruct (Hdead y x).
  - assert (Hex : exists y x, alive (grid self) y x).
    { destruct (where_cells (grid self)) as [|[y x] cs] eqn:Hc.
      - assert (E' : (Np.sum (grid self) =? 0) = true); [|congruence].
        rewrite E. apply Hsum. intros y x Ha.
        apply (where_cells_alive _ _ _ Hw Hu) in Ha. now rewrite Hc in Ha.
      - exists y, x. apply (where_cells_alive _ _ _ Hw Hu).
        rewrite Hc. now left. }
    destruct (update_active_bounds_alive self Hw Hu E Hex)
      as (min_x & max_x & min_y & max_y & Ht & Hb).
    rewrite Hm in Hb. eexists. split; [exact Hb|]. split.
    + intros Hdead. destruct Hex as (y & x & Ha). now destruct (Hdead y x).
    + intros _. exists min_x, max_x, min_y, max_y.
      split; [exact Ht|]. split; [reflexivity|].
      intros y x Ha. destruct Ht as (Hbox & _).
      destruct (Hbox y x Ha) as [Hx Hy].
      destruct Ha as (Hy' & Hx' & _). rewrite Hs in Hy', Hx'.
      cbn [fst snd] in Hy', Hx'. unfold in_bounds. lia.
Qed.

(** The theorem on the blinker of the repository. *)
Lemma update_active_bounds_spec_witness :
  exists b,
    update_active_bounds (loaded create_oscillator_pattern)
    = Some (with_active_bounds (loaded create_oscillator_pattern) b)
    /\ ((forall y x, ~ alive create_oscillator_pattern y x) ->
        b = (5 / 2 - 1, 5 / 2 + 1, 5 / 2 - 1, 5 / 2 + 1))
    /\ ((exists y x, alive create_oscillator_pattern y x) ->
        exists min_x max_x min_y max_y,
          tight_box create_oscillator_pattern min_x max_x min_y max_y
          /\ b = (Z.max 0 (min_x - 5), Z.min 5 (max_x + 5 + 1),
                  Z.max 0 (min_y - 5), Z.min 5 (max_y + 5 + 1))
          /\ (forall y x, alive create_oscillator_pattern y x ->
                in_bounds b y x = true)).
Proof.
  apply (update_active_bounds_spec (loaded create_oscillator_pattern));
    reflexivity.
Defined.

(** ** The generation step *)

Lemma for_ext {A S : Type} (l : list A) (body1 body2 : S -> A -> Np.M S) :
  (forall s a r, In a l -> body1 s a r = body2 s a r) ->
  forall s r, Np.for_ l body1 s r = Np.for_ l body2 s r.
Proof.
  induction l as [|a l IH]; intros H s r; [reflexivity|].
  cbn [Np.for_]. unfold Np.bind. rewrite H by now left.
  destruct (body2 s a r) as [[s' r']|]; [|reflexivity].
  apply IH. intros. apply H. now right.
Qed.

Lemma with_active_bounds_ok (self : GameOfLife) (b : Z * Z * Z * Z) :
  grid_ok (with_active_bounds self b) = grid_ok self
  /\ cells_valid (with_active_bounds self b) = cells_valid self.
Proof. split; reflexivity. Qed.

Lemma dead_total_zero (a : Np.ndarray) :
  well_shaped a = true -> (forall y x, ~ alive a y x) -> total_cells a = 0.
Proof.
  intros Hw Hdead.
  destruct (Z.eq_dec (total_cells a) 0) as [E|E]; [exact E|exfalso].
  destruct (sum_nonzero (map Py.sum (Np.items a)) E) as (t & Ht & Hne).
  apply in_map_iff in Ht as (row & <- & Hrow).
  destruct (sum_nonzero row Hne) as (v & Hv & Hv0).
  pose proof (well_shaped_spec a Hw) as (Hh & Hw' & Hl & Hr).
  apply In_nth with (d := []) in Hrow as (i & Hi & <-).
  apply In_nth with (d := 0) in Hv as (j & Hj & <-).
  apply (Hdead (Z.of_nat i) (Z.of_nat j)). unfold alive, cell.
  rewrite !Nat2Z.id. rewrite Hr in Hj by (apply nth_In; lia).
  repeat split; auto; lia.
Qed.

Lemma is_cell_state_uint8 (a : Np.ndarray) :
  all_cells is_cell_state a = true -> all_cells is_uint8 a = true.
Proof.
  rewrite !all_cells_spec. intros H row v Hr Hv.
  specialize (H row v Hr Hv). unfold is_cell_state, is_uint8 in *. lia.
Qed.

(** The refresh of the bounds always succeeds, changes nothing else, and
    yields a rectangle of valid indices. *)
Lemma update_active_bounds_defined (self : GameOfLife) :
  grid_ok self = true -> cells_valid self = true ->
  exists min_x max_x min_y max_y,
    update_active_bounds self =
    Some (with_active_bounds self (min_x, max_x, min_y, max_y))
    /\ - width self <= min_x /\ max_x <= width self
    /\ - height self <= min_y /\ max_y <= height self.
Proof.
  intros Hg Hv. destruct (grid_ok_spec self Hg) as (Hw & Hs & Hwp & Hhp).
  pose proof (is_cell_state_uint8 _ Hv) as Hu.
  destruct (Np.sum (grid self) =? 0) eqn:E.
  - unfold update_active_bounds. rewrite E.
    do 4 eexists. split; [reflexivity|].
    pose proof (Z.div_mod (width self) 2).
    pose proof (Z.mod_pos_bound (width self) 2).
    pose proof (Z.div_mod (height self) 2).
    pose proof (Z.mod_pos_bound (height self) 2).
    lia.
  - assert (Hex : exists y x, alive (grid self) y x).
    { destruct (where_cells (grid self)) as [|[y x] cs] eqn:Hc.
      - exfalso. apply Z.eqb_neq in E. apply E. unfold Np.sum.
        fold (total_cells (grid self)). rewrite dead_total_zero; auto.
        intros y x Ha.
        apply (where_cells_alive _ _ _ Hw Hu) in Ha. now rewrite Hc in Ha.
      - exists y, x. apply (where_cells_alive _ _ _ Hw Hu).
        rewrite Hc. now left. }
    destruct (update_active_bounds_alive self Hw Hu E Hex)
      as (min_x & max_x & min_y & max_y & Ht & Hb).
    do 4 eexists. split; [exact Hb|]. lia.
Qed.

(** The step of the engine is the step of the specification. *)
Lemma update_spec_step (self : GameOfLife) (r : Np.RandomState) :
  grid_ok self = true -> cells_valid self = true ->
  update self r = spec_step self r.
Proof.
  intros Hg Hv. unfold update, spec_step.
  destruct (update_active_bounds_defined self Hg Hv)
    as (min_x & max_x & min_y & max_y & Hb & Hx0 & Hx1 & Hy0 & Hy1).
  rewrite Hb. unfold Np.bind at 1 3.
  cbn [Np.lift active_bounds with_active_bounds].
  destruct ((max_x - min_x <=? 0) || (max_y - min_y <=? 0)); [reflexivity|].
  unfold Np.bind at 1 2. unfold scan.
  set (self' := with_active_bounds self (min_x, max_x, min_y, max_y)).
  rewrite (for_ext _ _
             (fun new_grid y =>
                Np.for_ (Py.range min_x max_x)
                  (fun new_grid x =>
                     v <- spec_cell self' y x ;;
                     Np.lift (Np.setitem new_grid y x v)) new_grid));
    [reflexivity|].
  intros s y r' Hy. apply range_In in Hy. apply for_ext.
  intros s' x r'' Hx. apply range_In in Hx.
  apply update_cell_spec; auto;
    cbn [height width self' with_active_bounds]; lia.
Qed.

(** C3. In every generation step the rule of each scanned cell is chosen in
    the order of the specification: with chaos enabled a first draw below
    [rule_randomness] selects the random-outcome rule and nothing else is
    applied to the cell; otherwise a second draw below [chaos_probability]
    selects the custom colour rules; otherwise the original monochrome rules
    apply; with chaos disabled the custom colour rules always apply.  The
    step of the engine is the step [spec_step] built on that dispatch, for
    every random state, and so is the transition of every addressable
    cell. *)
Theorem update_follows_dispatch (self : GameOfLife) (r : Np.RandomState) :
  grid_ok self = true -> cells_valid self = true ->
  update self r = spec_step self r
  /\ (forall new_grid y x,
        - height self <= y < height self ->
        - width self <= x < width self ->
        update_cell self new_grid y x r =
        (rl <- spec_dispatch (chaos_mode self) (rule_randomness self)
                 (chaos_probability self) ;;
         v <- spec_apply rl (addressed self y x)
                (living_neighbors self x y) ;;
         Np.lift (Np.setitem new_grid y x v)) r).
Proof.
  intros Hg Hv. split.
  - unfold update, spec_step.
    destruct (update_active_bounds_defined self Hg Hv)
      as (min_x & max_x & min_y & max_y & Hb & Hx0 & Hx1 & Hy0 & Hy1).
    rewrite Hb. unfold Np.bind at 1 3. cbn [Np.lift active_bounds with_active_bounds].
    destruct ((max_x - min_x <=? 0) || (max_y - min_y <=? 0)); [reflexivity|].
    unfold Np.bind at 1 2. unfold scan.
    set (self' := with_active_bounds self (min_x, max_x, min_y, max_y)).
    rewrite (for_ext _ _
               (fun new_grid y =>
                  Np.for_ (Py.range min_x max_x)
                    (fun new_grid x =>
                       v <- spec_cell self' y x ;;
                       Np.lift (Np.setitem new_grid y x v)) new_grid));
      [reflexivity|].
    intros s y r' Hy. apply range_In in Hy. apply for_ext.
    intros s' x r'' Hx. apply range_In in Hx.
    apply update_cell_spec; auto; cbn [height width self' with_active_bounds]; lia.
  - intros new_grid y x Hy Hx. rewrite update_cell_spec by assumption.
    unfold spec_cell, Np.bind.
    destruct (spec_dispatch _ _ _ r) as [[rl r']|]; reflexivity.
Qed.

(** The theorem on the blinker of the repository with chaos enabled. *)
Lemma update_follows_dispatch_witness :
  let self :=
    set_chaos_mode (loaded create_oscillator_pattern) true
      Float.lit_0_3 Float.lit_0_1 in
  let r := {| Np.tape := fun n => Z.of_nat n * 1234567890123457;
              Np.pos := 0 |} in
  update self r = spec_step self r
  /\ (forall new_grid y x,
        - 5 <= y < 5 -> - 5 <= x < 5 ->
        update_cell self new_grid y x r =
        (rl <- spec_dispatch true Float.lit_0_1 Float.lit_0_3 ;;
         v <- spec_apply rl (addressed self y x)
                (living_neighbors self x y) ;;
         Np.lift (Np.setitem new_grid y x v)) r).
Proof.
  intros self r. apply (update_follows_dispatch self r); reflexivity.
Defined.

(** The threshold of the overcrowding draw: of the [2^53] equally likely
    values [k / 2^53] of a draw, those below the literal [0.6] are the
    [5404319552844595] first ones, a proportion within [2^-53] of 0.6. *)
Lemma overcrowding_threshold (r : Np.RandomState) :
  let k := Np.tape r (Np.pos r) mod 9007199254740992 in
  Np.random r = Some (k # 9007199254740992, Np.advance r)
  /\ (Float.ltb (k # 9007199254740992) Float.lit_0_6 = true
      <-> k < 5404319552844595)
  /\ ((6 # 10) - (1 # 9007199254740992)
      < 5404319552844595 # 9007199254740992)%Q
  /\ (5404319552844595 # 9007199254740992 <= 6 # 10)%Q.
Proof.
  intros k. split; [reflexivity|]. split.
  - unfold Float.ltb, Float.lit_0_6, Qcompare. cbn [Qnum Qden].
    destruct (Z.compare_spec (k * 9007199254740992)
                (5404319552844595 * 9007199254740992)); split;
      intros; try discriminate; try reflexivity; lia.
  - split; [reflexivity|]. unfold Qle. cbn. lia.
Qed.

Lemma single_neighbor_count (c cur : Z) :
  count_color [c] cur = 1 <-> c = cur.
Proof.
  unfold count_color. cbn [count_occ].
  destruct (Z.eq_dec c cur); split; intros; auto; try lia; congruence.
Qed.

(** C2. For every addressable cell, the custom colour rules applied to its
    state [cur] and to the counts of its living neighbours give the result
    [spec_custom] of the table of the specification: a living cell with
    five neighbours or more dies when the draw is below 0.6, and no other
    branch is looked at; otherwise a living cell with two or three
    neighbours keeps its colour; with four or more it takes the dominant
    colour if some colour counts three or more and dies if not; with one
    neighbour it survives exactly when that neighbour has its colour; with
    none it dies; a dead cell takes the dominant colour when it has three
    neighbours and stays dead otherwise.  With chaos disabled this is the
    value that the scan writes for the cell. *)
Theorem custom_rules_follow_table (self : GameOfLife)
    (new_grid : Np.ndarray) (y x : Z) (r : Np.RandomState) :
  grid_ok self = true -> cells_valid self = true ->
  - height self <= y < height self -> - width self <= x < width self ->
  let cur := addressed self y x in
  let nbrs := living_neighbors self x y in
  get_neighbors_by_color self x y
  = Some (counts_of nbrs, Z.of_nat (length nbrs), nbrs)
  /\ get_dominant_color (CountsDict (counts_of nbrs))
     = Some (spec_dominant nbrs)
  /\ apply_custom_color_rules x y cur (counts_of nbrs)
       (Z.of_nat (length nbrs)) (spec_dominant nbrs) r
     = (u <- spec_overcrowding_draw cur nbrs ;;
        Np.ret (spec_custom cur nbrs u)) r
  /\ (chaos_mode self = false ->
      update_cell self new_grid y x r
      = (u <- spec_overcrowding_draw cur nbrs ;;
         Np.lift (Np.setitem new_grid y x (spec_custom cur nbrs u))) r)
  /\ (forall c, nbrs = [c] -> (count_color nbrs cur = 1 <-> c = cur)).
Proof.
  intros Hg Hv Hy Hx cur nbrs.
  pose proof (addressed_valid self y x Hg Hv) as Hcur.
  pose proof (living_neighbors_colors self x y Hg Hv) as Hn.
  unfold is_cell_state in Hcur. fold cur in Hcur. fold nbrs in Hn.
  split; [now apply get_neighbors_by_color_spec|].
  split; [apply get_dominant_color_counts_of|].
  split; [apply apply_custom_color_rules_spec; auto; lia|].
  split.
  - intros Hchaos. rewrite update_cell_spec by assumption.
    unfold spec_cell, spec_dispatch, spec_apply. rewrite Hchaos.
    fold cur nbrs. unfold Np.bind, Np.ret.
    destruct (spec_overcrowding_draw cur nbrs r) as [[u r']|]; reflexivity.
  - intros c ->. apply single_neighbor_count.
Qed.

(** The theorem on the centre of the blinker of the repository. *)
Lemma custom_rules_follow_table_witness :
  let self := loaded create_oscillator_pattern in
  let r := {| Np.tape := fun _ => 0; Np.pos := 0 |} in
  let cur := addressed self 2 2 in
  let nbrs := living_neighbors self 2 2 in
  get_neighbors_by_color self 2 2
  = Some (counts_of nbrs, Z.of_nat (length nbrs), nbrs)
  /\ get_dominant_color (CountsDict (counts_of nbrs))
     = Some (spec_dominant nbrs)
  /\ apply_custom_color_rules 2 2 cur (counts_of nbrs)
       (Z.of_nat (length nbrs)) (spec_dominant nbrs) r
     = (u <- spec_overcrowding_draw cur nbrs ;;
        Np.ret (spec_custom cur nbrs u)) r
  /\ (false = false ->
      update_cell self create_oscillator_pattern 2 2 r
      = (u <- spec_overcrowding_draw cur nbrs ;;
         Np.lift (Np.setitem create_oscillator_pattern 2 2
                    (spec_custom cur nbrs u))) r)
  /\ (forall c, nbrs = [c] -> (count_color nbrs cur = 1 <-> c = cur)).
Proof.
  intros self r.
  apply (custom_rules_follow_table self create_oscillator_pattern 2 2 r);
    try reflexivity; cbn; lia.
Defined.

(** ** Loops that preserve an invariant *)

Lemma for_invariant {A S : Type} (P : S -> Prop) (l : list A)
    (body : S -> A -> Np.M S) :
  (forall s a r, In a l -> P s ->
     exists s' r', body s a r = Some (s', r') /\ P s') ->
  forall s r, P s ->
    exists s' r', Np.for_ l body s r = Some (s', r') /\ P s'.
Proof.
  induction l as [|a l IH]; intros Hbody s r Hs.
  - exists s, r. split; [reflexivity|assumption].
  - destruct (Hbody s a r (or_introl eq_refl) Hs) as (s1 & r1 & E1 & H1).
    destruct (IH (fun s a r Hin => Hbody s a r (or_intror Hin)) s1 r1 H1)
      as (s2 & r2 & E2 & H2).
    exists s2, r2. split; [|assumption].
    cbn [Np.for_]. unfold Np.bind. now rewrite E1.
Qed.

Lemma py_for_invariant {A S : Type} (P : S -> Prop) (l : list A)
    (body : S -> A -> option S) :
  (forall s a, In a l -> P s -> exists s', body s a = Some s' /\ P s') ->
  forall s, P s -> exists s', Py.for_ l body s = Some s' /\ P s'.
Proof.
  induction l as [|a l IH]; intros Hbody s Hs.
  - exists s. split; [reflexivity|assumption].
  - destruct (Hbody s a (or_introl eq_refl) Hs) as (s1 & E1 & H1).
    destruct (IH (fun s a Hin => Hbody s a (or_intror Hin)) s1 H1)
      as (s2 & E2 & H2).
    exists s2. split; [|assumption].
    cbn [Py.for_]. rewrite E1. exact E2.
Qed.

Lemma spec_dominant_color (nbrs : list Z) :
  is_color (spec_dominant nbrs) = true.
Proof. apply first_maximum_color. Qed.

Lemma spec_custom_valid (cur : Z) (nbrs : list Z) (u : Q) :
  is_cell_state cur = true -> is_cell_state (spec_custom cur nbrs u) = true.
Proof.
  intros Hc. pose proof (spec_dominant_color nbrs) as Hd.
  unfold spec_custom, Dead, Red.
  repeat match goal with
         | |- context [if ?b then _ else _] => destruct b
         end; auto; unfold is_color, is_cell_state in *; lia.
Qed.

Lemma spec_original_valid (cur : Z) (nbrs : list Z) :
  is_cell_state cur = true -> is_cell_state (spec_original cur nbrs) = true.
Proof.
  intros Hc. pose proof (spec_dominant_color nbrs) as Hd.
  unfold spec_original, Dead, Red.
  repeat match goal with
         | |- context [if ?b then _ else _] => destruct b
         end; auto; unfold is_color, is_cell_state in *; lia.
Qed.

Lemma randint_1_5 (r : Np.RandomState) :
  exists c, Np.randint 1 5 r = Some (c, Np.advance r) /\ is_color c = true.
Proof.
  eexists. split; [reflexivity|].
  pose proof (Z.mod_pos_bound (Np.tape r (Np.pos r)) (5 - 1)).
  unfold is_color. lia.
Qed.

(** The transition of a cell always yields a cell state. *)
Lemma spec_cell_defined (self : GameOfLife) (y x : Z) (r : Np.RandomState) :
  grid_ok self = true -> cells_valid self = true ->
  exists v r', spec_cell self y x r = Some (v, r')
               /\ is_cell_state v = true.
Proof.
  intros Hg Hv. pose proof (addressed_valid self y x Hg Hv) as Hcur.
  unfold spec_cell, spec_dispatch, spec_apply, spec_random_outcome,
    spec_overcrowding_draw.
  set (cur := addressed self y x) in *.
  set (nbrs := living_neighbors self x y).
  assert (Hcol : forall c, is_color c = true -> is_cell_state c = true)
    by (unfold is_color, is_cell_state; lia).
  destruct (chaos_mode self);
    unfold Np.bind, Np.random, Np.ret, Np.randint;
    repeat (match goal with
            | |- context [Float.ltb ?u ?p] => destruct (Float.ltb u p)
            | |- context [if negb (cur =? Dead) then _ else _] =>
                destruct (negb (cur =? Dead))
            | |- context [if negb (cur =? Dead) && ?b then _ else _] =>
                destruct (negb (cur =? Dead) && b)
            end; cbn beta iota);
    do 2 eexists; (split; [reflexivity|]);
    auto using spec_custom_valid, spec_original_valid;
    try (apply Hcol; unfold is_color;
         match goal with
         | |- context [?t mod (5 - 1)] =>
             pose proof (Z.mod_pos_bound t (5 - 1))
         end; lia).
Qed.

(** The scan succeeds from a well-formed state and keeps the grid
    well-formed, whatever the draws. *)
Lemma scan_defined (self : GameOfLife) (min_x max_x min_y max_y : Z)
    (new_grid : Np.ndarray) (r : Np.RandomState) :
  grid_ok self = true -> cells_valid self = true ->
  - width self <= min_x -> max_x <= width self ->
  - height self <= min_y -> max_y <= height self ->
  well_shaped new_grid = true ->
  Np.shape new_grid = (height self, width self) ->
  all_cells is_cell_state new_grid = true ->
  exists new_grid' r',
    scan (fun new_grid y x =>
            v <- spec_cell self y x ;; Np.lift (Np.setitem new_grid y x v))
      (min_x, max_x, min_y, max_y) new_grid r = Some (new_grid', r')
    /\ well_shaped new_grid' = true
    /\ Np.shape new_grid' = (height self, width self)
    /\ all_cells is_cell_state new_grid' = true.
Proof.
  intros Hg Hv Hx0 Hx1 Hy0 Hy1 Hw Hs Hc. unfold scan.
  apply (for_invariant
           (fun g => well_shaped g = true
                     /\ Np.shape g = (height self, width self)
                     /\ all_cells is_cell_state g = true)); [|auto].
  intros g y r1 Hy Pg. apply range_In in Hy.
  apply (for_invariant
           (fun g => well_shaped g = true
                     /\ Np.shape g = (height self, width self)
                     /\ all_cells is_cell_state g = true)); [|auto].
  intros g' x r2 Hx (Hw' & Hs' & Hc'). apply range_In in Hx.
  destruct (spec_cell_defined self y x r2 Hg Hv) as (v & r3 & E & Hval).
  destruct (setitem_defined g' y x v Hw') as (g'' & E' & Hs'' & Hw'' & Hp);
    try (rewrite Hs'; cbn [fst snd]; lia).
  exists g'', r3. unfold Np.bind. rewrite E. cbn [Np.lift]. rewrite E'.
  repeat split; auto; congruence.
Qed.

(** A generation step succeeds from a well-formed state, whatever the
    draws, and yields a well-formed state of the same size. *)
Lemma update_defined (self : GameOfLife) (r : Np.RandomState) :
  grid_ok self = true -> cells_valid self = true ->
  exists self' r',
    update self r = Some (self', r')
    /\ grid_ok self' = true /\ cells_valid self' = true
    /\ width self' = width self /\ height self' = height self
    /\ max_width self' = max_width self
    /\ max_height self' = max_height self.
Proof.
  intros Hg Hv.
  rewrite (update_spec_step self r Hg Hv).
  unfold spec_step.
  destruct (update_active_bounds_defined self Hg Hv)
    as (min_x & max_x & min_y & max_y & Hb & Hx0 & Hx1 & Hy0 & Hy1).
  rewrite Hb. unfold Np.bind at 1. cbn [Np.lift].
  set (self1 := with_active_bounds self (min_x, max_x, min_y, max_y)).
  change (active_bounds self1) with (min_x, max_x, min_y, max_y).
  cbv beta iota.
  destruct ((max_x - min_x <=? 0) || (max_y - min_y <=? 0)).
  - exists self1, r. repeat split; auto.
  - destruct (grid_ok_spec self Hg) as (Hw & Hs & _).
    destruct (scan_defined self1 min_x max_x min_y max_y (grid self1) r)
      as (g & r' & E & Hw' & Hs' & Hc'); auto.
    unfold Np.bind at 1. rewrite E. exists (with_grid self1 g), r'.
    split; [reflexivity|]. repeat split; auto.
    unfold grid_ok in *. cbn [grid with_grid width height self1 with_active_bounds] in *.
    rewrite Hw', Hs'. cbn [fst snd]. rewrite !Z.eqb_refl.
    rewrite !andb_true_iff in Hg. destruct Hg as [[_ Hwp] Hhp].
    now rewrite Hwp, Hhp.
Qed.

(** ** Writers of the grid other than the step *)

Lemma zeros_spec (h w : Z) :
  0 <= h -> 0 <= w ->
  exists a, Np.zeros h w = Some a
            /\ Np.shape a = (h, w) /\ well_shaped a = true
            /\ (forall row v, In row (Np.items a) -> In v row -> v = 0).
Proof.
  intros Hh Hw. unfold Np.zeros.
  replace ((h <? 0) || (w <? 0)) with false by lia.
  eexists. split; [reflexivity|]. split; [reflexivity|]. split.
  - apply well_shaped_intro; cbn [Np.shape Np.items fst snd]; auto.
    + now rewrite repeat_length.
    + intros row Hin. apply repeat_spec in Hin. subst.
      now rewrite repeat_length.
  - cbn [Np.items]. intros row v Hrow Hv.
    apply repeat_spec in Hrow. subst. now apply repeat_spec in Hv.
Qed.

Lemma zeros_inv (h w : Z) (a : Np.ndarray) :
  Np.zeros h w = Some a ->
  0 <= h /\ 0 <= w /\ Np.shape a = (h, w) /\ well_shaped a = true
  /\ (forall row v, In row (Np.items a) -> In v row -> v = 0).
Proof.
  intros E. unfold Np.zeros in E.
  destruct ((h <? 0) || (w <? 0)) eqn:Hneg; [discriminate|].
  assert (0 <= h) by lia. assert (0 <= w) by lia.
  destruct (zeros_spec h w) as (a' & E' & H'); auto.
  unfold Np.zeros in E'. rewrite Hneg in E'.
  rewrite E in E'. injection E' as ->. auto.
Qed.

Lemma zeros_cells (p : Z -> bool) (h w : Z) (a : Np.ndarray) :
  p 0 = true -> Np.zeros h w = Some a -> all_cells p a = true.
Proof.
  intros Hp E. apply zeros_inv in E as (_ & _ & _ & _ & Hz).
  apply all_cells_spec. intros row v Hr Hv. now rewrite (Hz row v Hr Hv).
Qed.

Lemma stretch_In {A : Type} (n : nat) (l : list A) (x : A) :
  In x (Np.stretch n l) -> In x l.
Proof.
  unfold Np.stretch. destruct (Nat.eqb (length l) n); auto.
  destruct l as [|a [|b l]]; auto.
  intros H. apply repeat_spec in H. subst. now left.
Qed.

Lemma firstn_In {A : Type} (n : nat) (l : list A) (x : A) :
  In x (firstn n l) -> In x l.
Proof.
  intros H. rewrite <- (firstn_skipn n l). apply in_or_app. now left.
Qed.

Lemma skipn_In {A : Type} (n : nat) (l : list A) (x : A) :
  In x (skipn n l) -> In x l.
Proof.
  intros H. rewrite <- (firstn_skipn n l). apply in_or_app. now right.
Qed.

Lemma splice_In {A : Type} (a b : nat) (l src : list A) (x : A) :
  In x (Np.splice a b l src) -> In x l \/ In x src.
Proof.
  unfold Np.splice. rewrite !in_app_iff.
  intros [H|[H|H]]; auto.
  - left. eapply firstn_In; eauto.
  - left. eapply skipn_In; eauto.
Qed.

Lemma In_firstn_skipn {A : Type} (n m : nat) (l : list A) (x : A) :
  In x (firstn n (skipn m l)) -> In x l.
Proof. intros H. eapply skipn_In, firstn_In; eauto. Qed.

(** A slice assignment only stores elements of the target or of the
    source. *)
Lemma setslice_cells (p : Z -> bool) (dst src a : Np.ndarray)
    (y0 y1 x0 x1 : Z) :
  Np.setslice dst y0 y1 x0 x1 src = Some a ->
  all_cells p dst = true -> all_cells p src = true ->
  all_cells p a = true /\ Np.shape a = Np.shape dst.
Proof.
  unfold Np.setslice. destruct (_ && _); [|discriminate].
  intros [= <-] Hd Hs. split; [|reflexivity].
  rewrite all_cells_spec in *. cbn [Np.items].
  intros row v Hrow Hv.
  apply splice_In in Hrow as [Hrow|Hrow]; [eauto|].
  apply in_map_iff in Hrow as ([d s] & <- & Hin). cbn [fst snd] in Hv.
  apply in_combine_l in Hin as Hdrow. apply in_combine_r in Hin as Hsrow.
  apply In_firstn_skipn in Hdrow.
  apply splice_In in Hv as [Hv|Hv]; [eauto|].
  apply stretch_In in Hsrow. apply in_map_iff in Hsrow as (s0 & <- & Hs0).
  apply stretch_In in Hv. eauto.
Qed.

Lemma expand_cells_valid (self self' : GameOfLife) (tw th : Z) (b : bool) :
  cells_valid self = true ->
  expand_grid_if_needed self tw th = Some (self', b) ->
  cells_valid self' = true.
Proof.
  intros Hv. unfold expand_grid_if_needed.
  destruct (_ || _).
  - destruct (Np.zeros _ _) as [z|] eqn:Ez; [|discriminate]. cbn [Py.bind].
    destruct (Np.setslice _ _ _ _ _ _) as [g|] eqn:Eg; [|discriminate].
    cbn [Py.bind]. destruct (active_bounds self) as [[[b0 b1] b2] b3].
    intros [= <- <-]. unfold cells_valid. cbn [grid with_active_bounds with_size with_grid].
    eapply setslice_cells; eauto. eapply zeros_cells; eauto.
  - now intros [= <- <-].
Qed.

(** The refresh of the bounds never raises and leaves everything but the
    bounds unchanged. *)
Lemma update_active_bounds_total (self : GameOfLife) :
  exists b, update_active_bounds self = Some (with_active_bounds self b).
Proof.
  unfold update_active_bounds.
  destruct (Np.sum (grid self) =? 0); [eexists; reflexivity|].
  rewrite where_gt0_cells. cbn [fst snd].
  destruct (where_cells (grid self)) as [|c cs].
  - exists (active_bounds self). cbn. now destruct self.
  - cbn [map length].
    destruct (Z.eqb_spec (Z.of_nat (S (length (map fst cs)))) 0); [lia|].
    unfold Np.amin, Np.amax.
    destruct (max_defined (fst c :: map fst cs)) as (My & ->); [discriminate|].
    destruct (max_defined (snd c :: map snd cs)) as (Mx & ->); [discriminate|].
    cbn [Py.min Py.bind]. eexists. reflexivity.
Qed.

Lemma astype_uint8_cells (p : Z -> bool) (g : Np.ndarray) :
  all_cells p (Np.astype_uint8 g) = all_cells (fun v => p (v mod 256)) g.
Proof.
  unfold all_cells, Np.astype_uint8. cbn [Np.items].
  induction (Np.items g) as [|row rows IH]; [reflexivity|].
  cbn [map forallb]. rewrite IH. f_equal.
  induction row as [|v row IHr]; [reflexivity|].
  cbn [map forallb]. now rewrite IHr.
Qed.

Lemma set_grid_stores (self : GameOfLife) (g : Np.ndarray) :
  exists self', set_grid self g = Some self'
                /\ grid self' = Np.astype_uint8 g
                /\ width self' = snd (Np.shape g)
                /\ height self' = fst (Np.shape g)
                /\ max_width self' = max_width self
                /\ max_height self' = max_height self.
Proof.
  unfold set_grid.
  destruct (update_active_bounds_total
              (with_size (with_grid self (Np.astype_uint8 g))
                 (snd (Np.shape g)) (fst (Np.shape g)))) as (b & ->).
  eexists. split; [reflexivity|]. repeat split.
Qed.

(** ** Slice assignment *)

Lemma splice_length {A : Type} (a b : nat) (l s : list A) :
  (a <= b)%nat -> (b <= length l)%nat -> length s = (b - a)%nat ->
  length (Np.splice a b l s) = length l.
Proof.
  intros Hab Hb Hs. unfold Np.splice.
  rewrite !length_app, length_firstn, length_skipn. lia.
Qed.

Lemma splice_nth {A : Type} (a b : nat) (l s : list A) (d : A) (i : nat) :
  (a <= b)%nat -> (b <= length l)%nat -> length s = (b - a)%nat ->
  nth i (Np.splice a b l s) d =
  if (i <? a)%nat then nth i l d
  else if (i <? b)%nat then nth (i - a) s d
  else nth i l d.
Proof.
  intros Hab Hb Hs. unfold Np.splice.
  assert (Hf : length (firstn a l) = a) by (rewrite length_firstn; lia).
  destruct (Nat.ltb_spec i a) as [Hia|Hia].
  - rewrite app_nth1 by lia. rewrite nth_firstn.
    now replace (i <? a)%nat with true by (symmetry; apply Nat.ltb_lt; lia).
  - rewrite app_nth2 by lia. rewrite Hf.
    destruct (Nat.ltb_spec i b) as [Hib|Hib].
    + now rewrite app_nth1 by lia.
    + rewrite app_nth2 by lia. rewrite nth_skipn. f_equal. lia.
Qed.

Lemma stretch_same {A : Type} (n : nat) (l : list A) :
  length l = n -> Np.stretch n l = l.
Proof.
  intros H. unfold Np.stretch.
  now replace (Nat.eqb (length l) n) with true
    by (symmetry; apply Nat.eqb_eq; assumption).
Qed.

Lemma slice_bound_inside (n i : Z) : 0 <= i <= n -> Np.slice_bound n i = i.
Proof.
  intros H. unfold Np.slice_bound.
  replace (i <? 0) with false by lia. lia.
Qed.

(** A block copied inside the target: the block holds the source, the rest
    of the target is unchanged. *)
Lemma setslice_cell (dst src : Np.ndarray) (oy ox : Z) :
  well_shaped dst = true -> well_shaped src = true ->
  0 <= oy -> oy + fst (Np.shape src) <= fst (Np.shape dst) ->
  0 <= ox -> ox + snd (Np.shape src) <= snd (Np.shape dst) ->
  exists a,
    Np.setslice dst oy (oy + fst (Np.shape src)) ox (ox + snd (Np.shape src))
      src = Some a
    /\ Np.shape a = Np.shape dst
    /\ well_shaped a = true
    /\ (forall y x,
          0 <= y < fst (Np.shape dst) -> 0 <= x < snd (Np.shape dst) ->
          cell a y x =
          if (oy <=? y) && (y <? oy + fst (Np.shape src))
             && (ox <=? x) && (x <? ox + snd (Np.shape src))
          then cell src (y - oy) (x - ox)
          else cell dst y x).
Proof.
  intros Hd Hs Hoy Hoy' Hox Hox'.
  pose proof (well_shaped_spec dst Hd) as (Hdh & Hdw & Hdl & Hdr).
  pose proof (well_shaped_spec src Hs) as (Hsh & Hsw & Hsl & Hsr).
  set (h := fst (Np.shape src)) in *. set (w := snd (Np.shape src)) in *.
  set (H := fst (Np.shape dst)) in *. set (W := snd (Np.shape dst)) in *.
  unfold Np.setslice. fold H W h w.
  rewrite !slice_bound_inside by lia.
  replace (Z.max oy (oy + h)) with (oy + h) by lia.
  replace (Z.max ox (ox + w)) with (ox + w) by lia.
  replace (oy + h - oy) with h by lia. replace (ox + w - ox) with w by lia.
  unfold Np.fits. rewrite !Z.eqb_refl. cbn [orb andb].
  assert (Hrows : Np.stretch (Z.to_nat h)
                    (map (Np.stretch (Z.to_nat w)) (Np.items src))
                  = Np.items src).
  { rewrite stretch_same by (rewrite length_map; assumption).
    rewrite <- (map_id (Np.items src)) at 2. apply map_ext_in.
    intros row Hrow. apply stretch_same. auto. }
  rewrite Hrows.
  set (D := firstn (Z.to_nat h) (skipn (Z.to_nat oy) (Np.items dst))).
  assert (HD : length D = Z.to_nat h).
  { unfold D. rewrite length_firstn, length_skipn. lia. }
  set (blk := map (fun p => Np.splice (Z.to_nat ox) (Z.to_nat (ox + w))
                              (fst p) (snd p))
                (combine D (Np.items src))).
  assert (Hblk : length blk = (Z.to_nat (oy + h) - Z.to_nat oy)%nat).
  { unfold blk. rewrite length_map, length_combine. lia. }
  assert (HDnth : forall j, (j < Z.to_nat h)%nat ->
            nth j D [] = nth (Z.to_nat oy + j) (Np.items dst) []).
  { intros j Hj. unfold D. rewrite nth_firstn.
    replace (j <? Z.to_nat h)%nat with true
      by (symmetry; apply Nat.ltb_lt; lia).
    apply nth_skipn. }
  assert (Hblknth : forall j, (j < Z.to_nat h)%nat ->
            nth j blk [] =
            Np.splice (Z.to_nat ox) (Z.to_nat (ox + w))
              (nth (Z.to_nat oy + j) (Np.items dst) [])
              (nth j (Np.items src) [])).
  { intros j Hj. unfold blk.
    rewrite (nth_indep _ []
               ((fun p => Np.splice (Z.to_nat ox) (Z.to_nat (ox + w))
                            (fst p) (snd p)) ([], [])))
      by (rewrite length_map, length_combine; lia).
    rewrite (map_nth (fun p => Np.splice (Z.to_nat ox) (Z.to_nat (ox + w))
                                 (fst p) (snd p))).
    rewrite combine_nth by lia. cbn [fst snd]. now rewrite HDnth. }
  assert (Hdrow : forall i, (i < Z.to_nat H)%nat ->
            length (nth i (Np.items dst) []) = Z.to_nat W).
  { intros i Hi. apply Hdr. apply nth_In. lia. }
  assert (Hsrow : forall j, (j < Z.to_nat h)%nat ->
            length (nth j (Np.items src) []) = Z.to_nat w).
  { intros j Hj. apply Hsr. apply nth_In. lia. }
  eexists. split; [reflexivity|]. split; [reflexivity|]. split.
  - apply well_shaped_intro; cbn [Np.shape Np.items]; fold H W; auto.
    + rewrite splice_length; auto; lia.
    + intros row Hrow. apply In_nth with (d := []) in Hrow as (i & Hi & <-).
      rewrite splice_length in Hi by (auto; lia).
      rewrite splice_nth by (auto; lia).
      destruct (Nat.ltb_spec i (Z.to_nat oy)); [apply Hdrow; lia|].
      destruct (Nat.ltb_spec i (Z.to_nat (oy + h))); [|apply Hdrow; lia].
      rewrite Hblknth by lia. rewrite splice_length.
      * apply Hdrow. lia.
      * lia.
      * rewrite Hdrow; lia.
      * rewrite Hsrow; lia.
  - intros y x Hy Hx. unfold cell at 1. cbn [Np.items].
    rewrite splice_nth by (auto; lia).
    destruct (Nat.ltb_spec (Z.to_nat y) (Z.to_nat oy)) as [Hy1|Hy1].
    { replace (oy <=? y) with false by lia. reflexivity. }
    replace (oy <=? y) with true by lia.
    destruct (Nat.ltb_spec (Z.to_nat y) (Z.to_nat (oy + h))) as [Hy2|Hy2].
    2:{ replace (y <? oy + h) with false by lia. reflexivity. }
    replace (y <? oy + h) with true by lia. cbn [andb].
    rewrite Hblknth by lia.
    replace (Z.to_nat oy + (Z.to_nat y - Z.to_nat oy))%nat
      with (Z.to_nat y) by lia.
    rewrite splice_nth; try lia.
    2:{ rewrite Hdrow; lia. }
    2:{ rewrite Hsrow; lia. }
    destruct (Nat.ltb_spec (Z.to_nat x) (Z.to_nat ox)) as [Hx1|Hx1].
    { replace (ox <=? x) with false by lia. reflexivity. }
    replace (ox <=? x) with true by lia.
    destruct (Nat.ltb_spec (Z.to_nat x) (Z.to_nat (ox + w))) as [Hx2|Hx2].
    2:{ replace (x <? ox + w) with false by lia. reflexivity. }
    replace (x <? ox + w) with true by lia. cbn [andb].
    unfold cell. f_equal; [lia|]. f_equal. lia.
Qed.

(** ** Expansion *)

(** C4, with its precondition.  On an engine whose grid agrees with its
    recorded size and whose
    size is within the configured maxima, [expand_grid_if_needed] never
    raises; the new size is [min (max width target_width) max_width] by
    [min (max height target_height) max_height]; the flag returned is true
    exactly when this differs from the old size; on a resize the old
    contents are found unchanged at the offset
    [((new_w - w) // 2, (new_h - h) // 2)], every other cell of the new grid
    is Dead, and the active bounds are shifted by the offset; without a
    resize the state is unchanged. *)
Theorem expand_grid_spec (self : GameOfLife)
    (target_width target_height : Z) :
  grid_ok self = true -> size_within_max self = true ->
  let new_width := Z.min (Z.max (width self) target_width) (max_width self) in
  let new_height :=
    Z.min (Z.max (height self) target_height) (max_height self) in
  let offset_x := (new_width - width self) / 2 in
  let offset_y := (new_height - height self) / 2 in
  exists self' resized,
    expand_grid_if_needed self target_width target_height
    = Some (self', resized)
    /\ width self' = new_width /\ height self' = new_height
    /\ (resized = true <->
        (new_width, new_height) <> (width self, height self))
    /\ (resized = false -> self' = self)
    /\ (resized = true ->
        well_shaped (grid self') = true
        /\ Np.shape (grid self') = (new_height, new_width)
        /\ (forall y x,
              0 <= y < height self -> 0 <= x < width self ->
              cell (grid self') (y + offset_y) (x + offset_x)
              = cell (grid self) y x)
        /\ (forall y x,
              0 <= y < new_height -> 0 <= x < new_width ->
              ~ (offset_y <= y < offset_y + height self
                 /\ offset_x <= x < offset_x + width self) ->
              cell (grid self') y x = Dead)
        /\ active_bounds self' =
           (let '(min_x, max_x, min_y, max_y) := active_bounds self in
            (min_x + offset_x, max_x + offset_x,
             min_y + offset_y, max_y + offset_y))
        /\ max_width self' = max_width self
        /\ max_height self' = max_height self).
Proof.
  intros Hg Hm new_width new_height offset_x offset_y.
  destruct (grid_ok_spec self Hg) as (Hw & Hs & Hwp & Hhp).
  unfold size_within_max in Hm. apply andb_true_iff in Hm as [Hmw Hmh].
  assert (Hnw : width self <= new_width) by (unfold new_width; lia).
  assert (Hnh : height self <= new_height) by (unfold new_height; lia).
  assert (Hox : 0 <= offset_x /\ offset_x + width self <= new_width).
  { unfold offset_x.
    pose proof (Z.div_mod (new_width - width self) 2).
    pose proof (Z.mod_pos_bound (new_width - width self) 2). lia. }
  assert (Hoy : 0 <= offset_y /\ offset_y + height self <= new_height).
  { unfold offset_y.
    pose proof (Z.div_mod (new_height - height self) 2).
    pose proof (Z.mod_pos_bound (new_height - height self) 2). lia. }
  unfold expand_grid_if_needed. fold new_width new_height.
  destruct (negb (new_width =? width self) || negb (new_height =? height self))
    eqn:Hchg.
  - fold offset_x offset_y.
    destruct (zeros_spec new_height new_width) as (z & -> & Hzs & Hzw & Hz0);
      try lia.
    cbn [Py.bind].
    destruct (setslice_cell z (grid self) offset_y offset_x)
      as (a & Ea & Has & Haw & Hcell); auto;
      try (rewrite ?Hzs, ?Hs; cbn [fst snd]; lia).
    rewrite Hs in Ea, Hcell. rewrite Hzs in Hcell, Has. cbn [fst snd] in *.
    rewrite Ea. cbn [Py.bind].
    destruct (active_bounds self) as [[[b0 b1] b2] b3] eqn:Hb.
    eexists. exists true. split; [reflexivity|].
    cbn [width height grid active_bounds max_width max_height
           with_active_bounds with_size with_grid].
    split; [reflexivity|]. split; [reflexivity|]. split.
    { split; [|reflexivity]. intros _ [= E1 E2]. rewrite E1, E2 in Hchg.
      rewrite !Z.eqb_refl in Hchg. discriminate. }
    split; [discriminate|]. intros _.
    split; [assumption|]. split; [assumption|]. split; [|split].
    + intros y x Hy Hx. rewrite Hcell by lia.
      replace ((offset_y <=? y + offset_y)
               && (y + offset_y <? offset_y + height self)
               && (offset_x <=? x + offset_x)
               && (x + offset_x <? offset_x + width self)) with true by lia.
      f_equal; lia.
    + intros y x Hy Hx Hout. rewrite Hcell by lia.
      replace ((offset_y <=? y) && (y <? offset_y + height self)
               && (offset_x <=? x) && (x <? offset_x + width self))
        with false by lia.
      destruct (cell_in_row z y x Hzw) as (row & _ & Hrow & _ & Hv);
        try (rewrite Hzs; cbn [fst snd]; lia).
      apply (Hz0 row _ Hrow Hv).
    + repeat split.
  - exists self, false. split; [reflexivity|].
    apply orb_false_iff in Hchg as [H1 H2].
    apply negb_false_iff, Z.eqb_eq in H1, H2.
    split; [congruence|]. split; [congruence|]. split.
    { split; [discriminate|]. intros H. exfalso. apply H. congruence. }
    split; [reflexivity|discriminate].
Qed.

(** The theorem on the blinker of the repository, asked to grow to 8 by 9. *)
Lemma expand_grid_spec_witness :
  let self := loaded create_oscillator_pattern in
  exists self' resized,
    expand_grid_if_needed self 8 9 = Some (self', resized)
    /\ width self' = 8 /\ height self' = 9
    /\ (resized = true <-> (8, 9) <> (5, 5))
    /\ (resized = false -> self' = self)
    /\ (resized = true ->
        well_shaped (grid self') = true
        /\ Np.shape (grid self') = (9, 8)
        /\ (forall y x,
              0 <= y < 5 -> 0 <= x < 5 ->
              cell (grid self') (y + 2) (x + 1) = cell (grid self) y x)
        /\ (forall y x,
              0 <= y < 9 -> 0 <= x < 8 ->
              ~ (2 <= y < 2 + 5 /\ 1 <= x < 1 + 5) ->
              cell (grid self') y x = Dead)
        /\ active_bounds self' = (0 + 1, 5 + 1, 0 + 2, 5 + 2)
        /\ max_width self' = 500
        /\ max_height self' = 500).
Proof.
  intros self. apply (expand_grid_spec self 8 9); reflexivity.
Defined.

(** The expansion within the size invariant, with the state it returns. *)
Lemma expand_grid_cases (self : GameOfLife) (target_width target_height : Z) :
  grid_ok self = true -> size_within_max self = true ->
  let new_width := Z.min (Z.max (width self) target_width) (max_width self) in
  let new_height :=
    Z.min (Z.max (height self) target_height) (max_height self) in
  let offset_x := (new_width - width self) / 2 in
  let offset_y := (new_height - height self) / 2 in
  width self <= new_width /\ height self <= new_height
  /\ 0 <= offset_x /\ offset_x + width self <= new_width
  /\ 0 <= offset_y /\ offset_y + height self <= new_height
  /\ (((new_width, new_height) = (width self, height self)
       /\ expand_grid_if_needed self target_width target_height
          = Some (self, false))
      \/ ((new_width, new_height) <> (width self, height self)
          /\ exists a,
               expand_grid_if_needed self target_width target_height
               = Some (with_active_bounds
                         (with_size (with_grid self a) new_width new_height)
                         (let '(min_x, max_x, min_y, max_y) :=
                            active_bounds self in
                          (min_x + offset_x, max_x + offset_x,
                           min_y + offset_y, max_y + offset_y)),
                       true)
               /\ well_shaped a = true
               /\ Np.shape a = (new_height, new_width)
               /\ (forall y x,
                     0 <= y < new_height -> 0 <= x < new_width ->
                     cell a y x =
                     if (offset_y <=? y) && (y <? offset_y + height self)
                        && (offset_x <=? x) && (x <? offset_x + width self)
                     then cell (grid self) (y - offset_y) (x - offset_x)
                     else Dead))).
Proof.
  intros Hg Hm new_width new_height offset_x offset_y.
  destruct (grid_ok_spec self Hg) as (Hw & Hs & Hwp & Hhp).
  unfold size_within_max in Hm. apply andb_true_iff in Hm as [Hmw Hmh].
  assert (Hnw : width self <= new_width) by (unfold new_width; lia).
  assert (Hnh : height self <= new_height) by (unfold new_height; lia).
  assert (Hox : 0 <= offset_x /\ offset_x + width self <= new_width).
  { unfold offset_x.
    pose proof (Z.div_mod (new_width - width self) 2).
    pose proof (Z.mod_pos_bound (new_width - width self) 2). lia. }
  assert (Hoy : 0 <= offset_y /\ offset_y + height self <= new_height).
  { unfold offset_y.
    pose proof (Z.div_mod (new_height - height self) 2).
    pose proof (Z.mod_pos_bound (new_height - height self) 2). lia. }
  do 6 (split; [lia|]).
  unfold expand_grid_if_needed. fold new_width new_height.
  destruct (negb (new_width =? width self) || negb (new_height =? height self))
    eqn:Hchg.
  - right. split.
    { intros [= E1 E2]. rewrite E1, E2, !Z.eqb_refl in Hchg. discriminate. }
    fold offset_x offset_y.
    destruct (zeros_spec new_height new_width) as (z & -> & Hzs & Hzw & Hz0);
      try lia.
    cbn [Py.bind].
    destruct (setslice_cell z (grid self) offset_y offset_x)
      as (a & Ea & Has & Haw & Hcell); auto;
      try (rewrite ?Hzs, ?Hs; cbn [fst snd]; lia).
    rewrite Hs in Ea, Hcell. rewrite Hzs in Hcell, Has. cbn [fst snd] in *.
    rewrite Ea. cbn [Py.bind]. exists a.
    destruct (active_bounds self) as [[[b0 b1] b2] b3].
    split; [reflexivity|]. split; [assumption|]. split; [assumption|].
    intros y x Hy Hx. rewrite Hcell by lia.
    destruct ((offset_y <=? y) && (y <? offset_y + height self)
              && (offset_x <=? x) && (x <? offset_x + width self));
      [reflexivity|].
    destruct (cell_in_row z y x Hzw) as (row & _ & Hrow & _ & Hv);
      try (rewrite Hzs; cbn [fst snd]; lia).
    apply (Hz0 row _ Hrow Hv).
  - left. apply orb_false_iff in Hchg as [H1 H2].
    apply negb_false_iff, Z.eqb_eq in H1, H2.
    split; [congruence|reflexivity].
Qed.

(** Outside the size invariant the expansion shrinks and fails: on a 100
    by 100 engine whose maxima were set to 50, the slice of the new 50 by 50
    grid cannot take the old grid and NumPy raises [ValueError]. *)
Lemma expand_raises_when_oversized :
  exists self,
    init 100 100 500 500 = Some self
    /\ expand_grid_if_needed (set_max_size self 50 50) 120 120 = None.
Proof. eexists. split; reflexivity. Qed.

(** ** The invariants of the data model *)

Lemma clear_spec (self : GameOfLife) :
  0 <= width self -> 0 <= height self ->
  exists g,
    Np.zeros (height self) (width self) = Some g
    /\ clear self =
       Some (with_active_bounds (with_grid self g)
               (width self / 2 - 1, width self / 2 + 1,
                height self / 2 - 1, height self / 2 + 1))
    /\ (forall p, p 0 = true -> all_cells p g = true).
Proof.
  intros Hw Hh.
  destruct (zeros_spec (height self) (width self)) as (g & Eg & _); auto.
  exists g. split; [assumption|]. split.
  - unfold clear. now rewrite Eg.
  - intros p Hp. eapply zeros_cells; eauto.
Qed.

(** The blinker engine of the witnesses is the one obtained through the
    constructor and [set_grid]. *)
Lemma loaded_oscillator_reachable :
  (let? self := init 5 5 500 500 in set_grid self create_oscillator_pattern)
  = Some (loaded create_oscillator_pattern).
Proof. reflexivity. Qed.

(** C7, as the engine has it. From a state whose cells are all in
    [{0, 1, 2, 3, 4}]: a generation step always succeeds and leaves all
    cells in that set, whatever the draws; so does an expansion that
    returns; [clear] succeeds and leaves only Dead cells.  [set_grid] neither
    clamps nor validates: it stores every value of the pattern modulo 256,
    so that the cells are in the set afterwards exactly when every value of
    the pattern is, modulo 256. *)
Theorem cell_states_preserved (self : GameOfLife) :
  grid_ok self = true -> cells_valid self = true ->
  (forall r, exists self' r',
      update self r = Some (self', r') /\ cells_valid self' = true)
  /\ (forall tw th self' resized,
        expand_grid_if_needed self tw th = Some (self', resized) ->
        cells_valid self' = true)
  /\ (exists self', clear self = Some self' /\ cells_valid self' = true)
  /\ (forall g, exists self',
        set_grid self g = Some self'
        /\ grid self' = Np.astype_uint8 g
        /\ cells_valid self'
           = all_cells (fun v => is_cell_state (v mod 256)) g).
Proof.
  intros Hg Hv. split; [|split; [|split]].
  - intros r. destruct (update_defined self r Hg Hv)
      as (self' & r' & E & _ & Hv' & _).
    now exists self', r'.
  - intros tw th self' resized E. eapply expand_cells_valid; eauto.
  - destruct (grid_ok_spec self Hg) as (_ & _ & Hw & Hh).
    destruct (clear_spec self) as (g & _ & E & Hc); try lia.
    eexists. split; [exact E|]. now apply Hc.
  - intros g. destruct (set_grid_stores self g) as (self' & E & Hgr & _).
    exists self'. split; [assumption|]. split; [assumption|].
    unfold cells_valid. rewrite Hgr. apply astype_uint8_cells.
Qed.

(** The theorem on the blinker of the repository. *)
Lemma cell_states_preserved_witness :
  let self := loaded create_oscillator_pattern in
  (forall r, exists self' r',
      update self r = Some (self', r') /\ cells_valid self' = true)
  /\ (forall tw th self' resized,
        expand_grid_if_needed self tw th = Some (self', resized) ->
        cells_valid self' = true)
  /\ (exists self', clear self = Some self' /\ cells_valid self' = true)
  /\ (forall g, exists self',
        set_grid self g = Some self'
        /\ grid self' = Np.astype_uint8 g
        /\ cells_valid self'
           = all_cells (fun v => is_cell_state (v mod 256)) g).
Proof.
  intros self. apply (cell_states_preserved self); reflexivity.
Defined.

(** [set_grid] stores a value that is no cell state: a pattern holding 7
    leaves 7 in the grid. *)
Lemma set_grid_stores_invalid_cell :
  exists self self',
    init 5 5 500 500 = Some self
    /\ cells_valid self = true
    /\ set_grid self (tabulate 2 2 (fun _ _ => 7)) = Some self'
    /\ Np.getitem (grid self') 0 0 = Some 7
    /\ cells_valid self' = false.
Proof. do 2 eexists. repeat split. Qed.

(** Whatever the step returns has the size and the maxima of the state it
    started from. *)
Lemma update_keeps_size (self self' : GameOfLife) (r r' : Np.RandomState) :
  update self r = Some (self', r') ->
  width self' = width self /\ height self' = height self
  /\ max_width self' = max_width self /\ max_height self' = max_height self.
Proof.
  intros E. unfold update in E.
  destruct (update_active_bounds_total self) as ([[[min_x max_x] min_y] max_y]
                                                  & Hb).
  rewrite Hb in E. unfold Np.bind at 1 in E. cbn [Np.lift] in E.
  cbn [active_bounds with_active_bounds] in E.
  destruct ((max_x - min_x <=? 0) || (max_y - min_y <=? 0)).
  - injection E as <- _. auto.
  - unfold Np.bind in E.
    destruct (Np.for_ _ _ _ _) as [[g r1]|]; [|discriminate].
    injection E as <- _. auto.
Qed.

Lemma expand_keeps_size_invariant (self self' : GameOfLife) (tw th : Z)
    (resized : bool) :
  size_within_max self = true ->
  expand_grid_if_needed self tw th = Some (self', resized) ->
  size_within_max self' = true.
Proof.
  intros Hm E. unfold expand_grid_if_needed in E.
  destruct (negb (_ =? width self) || negb (_ =? height self)).
  - destruct (Np.zeros _ _); [|discriminate]. cbn [Py.bind] in E.
    destruct (Np.setslice _ _ _ _ _ _); [|discriminate].
    cbn [Py.bind] in E.
    destruct (active_bounds self) as [[[b0 b1] b2] b3].
    injection E as <- _. unfold size_within_max in *.
    cbn [width height max_width max_height with_active_bounds with_size
           with_grid]. lia.
  - now injection E as <- _.
Qed.

(** C6, as the engine has it.  A generation step, an expansion and [clear]
    keep the size within the maxima: from any state within its maxima,
    every state that they return is within its maxima; and on a grid that
    matches the recorded, non-empty size and holds only cell states they do
    return.  The constructor, [set_grid] and [set_max_size] check nothing:
    after them the size is within the maxima exactly when the sizes they
    are given are. *)
Theorem size_invariant_preserved (self : GameOfLife) :
  size_within_max self = true ->
  (forall r self' r',
      update self r = Some (self', r') -> size_within_max self' = true)
  /\ (forall tw th self' resized,
        expand_grid_if_needed self tw th = Some (self', resized) ->
        size_within_max self' = true)
  /\ (forall self', clear self = Some self' -> size_within_max self' = true)
  /\ (grid_ok self = true -> cells_valid self = true ->
      (forall r, exists self' r', update self r = Some (self', r'))
      /\ (forall tw th, exists self' resized,
            expand_grid_if_needed self tw th = Some (self', resized))
      /\ (exists self', clear self = Some self'))
  /\ (forall g, exists self',
        set_grid self g = Some self'
        /\ size_within_max self'
           = (snd (Np.shape g) <=? max_width self)
             && (fst (Np.shape g) <=? max_height self))
  /\ (forall mw mh,
        size_within_max (set_max_size self mw mh)
        = (width self <=? mw) && (height self <=? mh))
  /\ (forall w h mw mh self0,
        init w h mw mh = Some self0 ->
        size_within_max self0 = (w <=? mw) && (h <=? mh)).
Proof.
  intros Hm. split; [|split; [|split; [|split; [|split; [|split]]]]].
  - intros r self' r' E.
    destruct (update_keeps_size self self' r r' E) as (Hw & Hh & Hmw & Hmh).
    unfold size_within_max in *. now rewrite Hw, Hh, Hmw, Hmh.
  - intros tw th self' resized E.
    apply (expand_keeps_size_invariant self self' tw th resized Hm E).
  - intros self' E. unfold clear in E.
    destruct (Np.zeros _ _); [|discriminate]. cbn [Py.bind] in E.
    injection E as <-. exact Hm.
  - intros Hg Hv. split; [|split].
    + intros r. destruct (update_defined self r Hg Hv) as (self' & r' & E & _).
      now exists self', r'.
    + intros tw th.
      destruct (expand_grid_cases self tw th Hg Hm)
        as (_ & _ & _ & _ & _ & _ & [[_ E]|[_ (a & E & _)]]).
      * now exists self, false.
      * eexists. exists true. exact E.
    + destruct (grid_ok_spec self Hg) as (_ & _ & Hw & Hh).
      destruct (clear_spec self) as (g & _ & E & _); try lia.
      eexists. exact E.
  - intros g.
    destruct (set_grid_stores self g)
      as (self' & E & _ & Hw & Hh & Hmw & Hmh).
    exists self'. split; [assumption|].
    unfold size_within_max. now rewrite Hw, Hh, Hmw, Hmh.
  - reflexivity.
  - intros w h mw mh self0 E. unfold init in E.
    destruct (Np.zeros h w); [|discriminate]. cbn [Py.bind] in E.
    now injection E as <-.
Qed.

(** The theorem on the blinker of the repository, a well-formed grid. *)
Lemma size_invariant_preserved_witness :
  let self := loaded create_oscillator_pattern in
  (forall r self' r',
      update self r = Some (self', r') -> size_within_max self' = true)
  /\ (forall tw th self' resized,
        expand_grid_if_needed self tw th = Some (self', resized) ->
        size_within_max self' = true)
  /\ (forall self', clear self = Some self' -> size_within_max self' = true)
  /\ ((forall r, exists self' r', update self r = Some (self', r'))
      /\ (forall tw th, exists self' resized,
            expand_grid_if_needed self tw th = Some (self', resized))
      /\ (exists self', clear self = Some self'))
  /\ (forall g, exists self',
        set_grid self g = Some self'
        /\ size_within_max self'
           = (snd (Np.shape g) <=? 500) && (fst (Np.shape g) <=? 500))
  /\ (forall mw mh,
        size_within_max (set_max_size self mw mh)
        = (5 <=? mw) && (5 <=? mh))
  /\ (forall w h mw mh self0,
        init w h mw mh = Some self0 ->
        size_within_max self0 = (w <=? mw) && (h <=? mh)).
Proof.
  intros self.
  destruct (size_invariant_preserved self eq_refl)
    as (Hu & He & Hc & Hret & Hs & Hm & Hi).
  split; [exact Hu|]. split; [exact He|]. split; [exact Hc|].
  split; [exact (Hret eq_refl eq_refl)|].
  split; [exact Hs|]. split; [exact Hm|exact Hi].
Defined.

(** The size invariant is broken by [set_max_size], by [set_grid] and by
    the constructor. *)
Lemma set_max_size_breaks_size_invariant :
  exists self,
    init 100 100 500 500 = Some self
    /\ size_within_max self = true
    /\ size_within_max (set_max_size self 50 50) = false
    /\ (exists self',
          set_grid (set_max_size self 4 4) create_oscillator_pattern
          = Some self'
          /\ size_within_max self' = false)
    /\ (exists self0,
          init 100 100 50 50 = Some self0 /\ size_within_max self0 = false).
Proof.
  eexists. split; [reflexivity|]. split; [reflexivity|].
  split; [reflexivity|]. split; eexists; split; reflexivity.
Qed.

(** ** Scans whose cell results do not depend on the draws *)

Lemma skip_0 (r : Np.RandomState) : skip 0 r = r.
Proof. now destruct r. Qed.

Lemma skip_skip (a b : nat) (r : Np.RandomState) :
  skip a (skip b r) = skip (a + b) r.
Proof. unfold skip. cbn [Np.tape Np.pos]. f_equal. lia. Qed.

Lemma advance_skip (r : Np.RandomState) : Np.advance r = skip 1 r.
Proof. reflexivity. Qed.

Lemma for_cons {A S : Type} (a : A) (l : list A) (body : S -> A -> Np.M S)
    (s : S) (r : Np.RandomState) :
  Np.for_ (a :: l) body s r =
  match body s a r with
  | Some (s', r') => Np.for_ l body s' r'
  | None => None
  end.
Proof. reflexivity. Qed.

Lemma row_paint (self : GameOfLife) (f : Z -> Z -> Z) (k : nat) (y : Z)
    (xs : list Z) :
  (forall x r, In x xs -> spec_cell self y x r = Some (f y x, skip k r)) ->
  forall new_grid r,
    Np.for_ xs
      (fun new_grid x =>
         v <- spec_cell self y x ;; Np.lift (Np.setitem new_grid y x v))
      new_grid r
    = match Py.for_ xs (fun g x => Np.setitem g y x (f y x)) new_grid with
      | Some g => Some (g, skip (k * length xs) r)
      | None => None
      end.
Proof.
  induction xs as [|x xs IH]; intros Hf g r.
  - cbn [Np.for_ Py.for_ length]. rewrite Nat.mul_0_r, skip_0. reflexivity.
  - rewrite for_cons. cbn [Py.for_ length].
    assert (Hstep :
              (v <- spec_cell self y x ;; Np.lift (Np.setitem g y x v)) r
              = match Np.setitem g y x (f y x) with
                | Some g1 => Some (g1, skip k r)
                | None => None
                end).
    { unfold Np.bind. rewrite Hf by now left. reflexivity. }
    rewrite Hstep.
    destruct (Np.setitem g y x (f y x)) as [g1|]; [|reflexivity].
    cbn [Py.bind]. rewrite IH by (intros; apply Hf; now right).
    destruct (Py.for_ xs _ g1); [|reflexivity].
    rewrite skip_skip. do 3 f_equal. lia.
Qed.

Lemma scan_paint (self : GameOfLife) (f : Z -> Z -> Z) (k : nat)
    (min_x max_x min_y max_y : Z) :
  (forall y x r, min_y <= y < max_y -> min_x <= x < max_x ->
     spec_cell self y x r = Some (f y x, skip k r)) ->
  forall new_grid r,
    scan (fun new_grid y x =>
            v <- spec_cell self y x ;; Np.lift (Np.setitem new_grid y x v))
      (min_x, max_x, min_y, max_y) new_grid r
    = match paint f (Py.range min_y max_y) (Py.range min_x max_x) new_grid
      with
      | Some g =>
          Some (g, skip (k * (length (Py.range min_y max_y)
                              * length (Py.range min_x max_x))) r)
      | None => None
      end.
Proof.
  intros Hf. unfold scan, paint.
  assert (Hys : forall y, In y (Py.range min_y max_y) -> min_y <= y < max_y)
    by (intros; now apply range_In).
  revert Hys. generalize (Py.range min_y max_y) as ys.
  induction ys as [|y ys IH]; intros Hys g r.
  - cbn [Np.for_ Py.for_ length]. rewrite Nat.mul_0_l, Nat.mul_0_r, skip_0.
    reflexivity.
  - rewrite for_cons. cbn [Py.for_ length].
    rewrite (row_paint self f k y).
    2:{ intros x r' Hx. apply range_In in Hx. apply Hf; auto.
        apply Hys. now left. }
    destruct (Py.for_ (Py.range min_x max_x) _ g) as [g1|]; [|reflexivity].
    cbn [Py.bind]. rewrite IH by (intros; apply Hys; now right).
    destruct (Py.for_ ys _ g1); [|reflexivity].
    rewrite skip_skip. do 3 f_equal. lia.
Qed.

(** The writes of a scan over valid indices succeed. *)
Lemma paint_defined (f : Z -> Z -> Z) (ys xs : list Z) (g : Np.ndarray) :
  well_shaped g = true ->
  (forall y, In y ys -> - fst (Np.shape g) <= y < fst (Np.shape g)) ->
  (forall x, In x xs -> - snd (Np.shape g) <= x < snd (Np.shape g)) ->
  exists g', paint f ys xs g = Some g'
             /\ well_shaped g' = true /\ Np.shape g' = Np.shape g.
Proof.
  intros Hw Hys Hxs. unfold paint.
  apply (py_for_invariant
           (fun g' => well_shaped g' = true /\ Np.shape g' = Np.shape g));
    [|auto].
  intros g1 y Hy P1.
  apply (py_for_invariant
           (fun g' => well_shaped g' = true /\ Np.shape g' = Np.shape g));
    [|auto].
  intros g2 x Hx (Hw2 & Hs2).
  destruct (setitem_defined g2 y x (f y x) Hw2) as (g3 & E & Hs3 & Hw3 & _);
    try (rewrite Hs2; auto).
  exists g3. repeat split; auto; congruence.
Qed.

Lemma in_range (x lo hi : Z) :
  Py.in_ x (Py.range lo hi) = (lo <=? x) && (x <? hi).
Proof.
  unfold Py.in_. destruct (existsb _ _) eqn:E.
  - apply existsb_exists in E as (z & Hz & Hxz). apply range_In in Hz. lia.
  - destruct ((lo <=? x) && (x <? hi)) eqn:E'; [|reflexivity].
    assert (Hin : In x (Py.range lo hi)) by (apply range_In; lia).
    assert (Hex : existsb (Z.eqb x) (Py.range lo hi) = true)
      by (apply existsb_exists; exists x; split; [assumption|lia]).
    congruence.
Qed.

Lemma in_cons (x a : Z) (l : list Z) :
  Py.in_ x (a :: l) = (x =? a) || Py.in_ x l.
Proof. reflexivity. Qed.

Lemma paint_row_cell (f : Z -> Z -> Z) (y : Z) (xs : list Z)
    (g : Np.ndarray) :
  well_shaped g = true -> 0 <= y < fst (Np.shape g) ->
  (forall x, In x xs -> 0 <= x < snd (Np.shape g)) ->
  exists g', Py.for_ xs (fun g x => Np.setitem g y x (f y x)) g = Some g'
             /\ well_shaped g' = true /\ Np.shape g' = Np.shape g
             /\ (forall y' x', 0 <= y' -> 0 <= x' ->
                   cell g' y' x' =
                   if (y' =? y) && Py.in_ x' xs then f y x'
                   else cell g y' x').
Proof.
  revert g. induction xs as [|x xs IH]; intros g Hw Hy Hxs.
  - exists g. cbn [Py.for_ Py.in_ existsb]. repeat split; auto.
    intros. now rewrite andb_false_r.
  - destruct (setitem_cell g y x (f y x) Hw Hy) as (g1 & E1 & Hs1 & Hw1 & Hc1);
      [apply Hxs; now left|].
    destruct (IH g1 Hw1) as (g2 & E2 & Hw2 & Hs2 & Hc2).
    + now rewrite Hs1.
    + intros. rewrite Hs1. apply Hxs. now right.
    + exists g2. cbn [Py.for_]. rewrite E1. cbn [Py.bind].
      split; [assumption|]. split; [assumption|]. split; [congruence|].
      intros y' x' Hy' Hx'. rewrite Hc2, Hc1 by assumption.
      rewrite in_cons.
      destruct (Z.eqb_spec y' y) as [->|]; cbn [andb]; [|reflexivity].
      destruct (Z.eqb_spec x' x) as [->|]; cbn [orb]; [|reflexivity].
      now destruct (Py.in_ x xs).
Qed.

(** The writes of a scan inside the grid: the scanned cells hold their
    results, the others are unchanged. *)
Lemma paint_cell (f : Z -> Z -> Z) (ys xs : list Z) (g : Np.ndarray) :
  well_shaped g = true ->
  (forall y, In y ys -> 0 <= y < fst (Np.shape g)) ->
  (forall x, In x xs -> 0 <= x < snd (Np.shape g)) ->
  exists g', paint f ys xs g = Some g'
             /\ well_shaped g' = true /\ Np.shape g' = Np.shape g
             /\ (forall y' x', 0 <= y' -> 0 <= x' ->
                   cell g' y' x' =
                   if Py.in_ y' ys && Py.in_ x' xs then f y' x'
                   else cell g y' x').
Proof.
  unfold paint. revert g. induction ys as [|y ys IH]; intros g Hw Hys Hxs.
  - exists g. cbn [Py.for_ Py.in_ existsb andb]. repeat split; auto.
  - destruct (paint_row_cell f y xs g Hw) as (g1 & E1 & Hw1 & Hs1 & Hc1);
      [apply Hys; now left|assumption|].
    destruct (IH g1 Hw1) as (g2 & E2 & Hw2 & Hs2 & Hc2).
    + intros. rewrite Hs1. apply Hys. now right.
    + intros. rewrite Hs1. now apply Hxs.
    + exists g2. cbn [Py.for_]. rewrite E1. cbn [Py.bind].
      split; [assumption|]. split; [assumption|]. split; [congruence|].
      intros y' x' Hy' Hx'. rewrite Hc2, Hc1 by assumption.
      rewrite in_cons.
      destruct (Z.eqb_spec y' y) as [->|]; cbn [andb orb]; [|reflexivity].
      destruct (Py.in_ y ys); cbn [andb]; [|reflexivity].
      now destruct (Py.in_ x' xs).
Qed.

(** ** Determinism of the step without chaos *)

Lemma living_neighbors_mod (self : GameOfLife) (x y : Z) :
  living_neighbors self (x mod width self) (y mod height self)
  = living_neighbors self x y.
Proof.
  unfold living_neighbors, neighbor_cells. f_equal. apply map_ext.
  intros d. now rewrite !Zplus_mod_idemp_l.
Qed.

Lemma addressed_mod (self : GameOfLife) (y x : Z) :
  addressed self (y mod height self) (x mod width self) = addressed self y x.
Proof. unfold addressed. now rewrite !Zmod_mod. Qed.

Lemma calm_spec (self : GameOfLife) (y x : Z) :
  grid_ok self = true -> calm self = true -> overcrowded self y x = false.
Proof.
  intros Hg Hc. destruct (grid_ok_spec self Hg) as (_ & _ & Hw & Hh).
  unfold calm in Hc. rewrite forallb_forall in Hc.
  specialize (Hc (y mod height self)). rewrite forallb_forall in Hc.
  specialize (Hc ltac:(apply range_In; pose proof (Z.mod_pos_bound y (height self)); lia)
                (x mod width self)
                ltac:(apply range_In; pose proof (Z.mod_pos_bound x (width self)); lia)).
  apply negb_true_iff in Hc. unfold overcrowded in *.
  now rewrite living_neighbors_mod, addressed_mod in Hc.
Qed.

(** Without chaos a cell that is not overcrowded is updated without any
    draw. *)
Lemma spec_cell_calm (self : GameOfLife) (y x : Z) (r : Np.RandomState) :
  chaos_mode self = false -> overcrowded self y x = false ->
  spec_cell self y x r
  = Some (spec_custom (addressed self y x) (living_neighbors self x y) 0,
          skip 0 r).
Proof.
  intros Hc Ho. unfold spec_cell, spec_dispatch, spec_apply,
    spec_overcrowding_draw. rewrite Hc.
  unfold overcrowded in Ho. unfold Np.bind, Np.ret. rewrite Ho.
  now rewrite skip_0.
Qed.

(** C1, as the engine has it. With chaos disabled the step applies the
    custom colour rules, and these draw a random number for every living
    cell with five living neighbours or more.  On a grid without such a
    cell the step consults no randomness: it returns one and the same
    state for every state of the generator, and leaves the generator as it
    was. *)
Theorem update_without_chaos_deterministic (self : GameOfLife) :
  grid_ok self = true -> cells_valid self = true ->
  chaos_mode self = false -> calm self = true ->
  exists self', forall r, update self r = Some (self', r).
Proof.
  intros Hg Hv Hc Hcalm.
  destruct (update_active_bounds_defined self Hg Hv)
    as (min_x & max_x & min_y & max_y & Hb & Hx0 & Hx1 & Hy0 & Hy1).
  set (self1 := with_active_bounds self (min_x, max_x, min_y, max_y)).
  set (f := fun y x => spec_custom (addressed self1 y x)
                         (living_neighbors self1 x y) 0).
  destruct (grid_ok_spec self Hg) as (Hw & Hs & _).
  destruct (paint_defined f (Py.range min_y max_y) (Py.range min_x max_x)
              (grid self) Hw) as (g & Eg & _).
  { intros y Hy. apply range_In in Hy. rewrite Hs. cbn [fst]. lia. }
  { intros x Hx. apply range_In in Hx. rewrite Hs. cbn [snd]. lia. }
  exists (if (max_x - min_x <=? 0) || (max_y - min_y <=? 0) then self1
          else with_grid self1 g).
  intros r. rewrite (update_spec_step self r Hg Hv).
  unfold spec_step. rewrite Hb. unfold Np.bind at 1. cbn [Np.lift].
  fold self1. change (active_bounds self1) with (min_x, max_x, min_y, max_y).
  cbv beta iota.
  destruct ((max_x - min_x <=? 0) || (max_y - min_y <=? 0)); [reflexivity|].
  unfold Np.bind at 1.
  rewrite (scan_paint self1 f 0).
  - change (grid self1) with (grid self). rewrite Eg.
    cbn [Nat.mul]. now rewrite skip_0.
  - intros y x r' _ _. apply spec_cell_calm; [assumption|].
    now apply (calm_spec self).
Qed.

(** The theorem on the blinker of the repository. *)
Lemma update_without_chaos_deterministic_witness :
  exists self',
    forall r, update (loaded create_oscillator_pattern) r = Some (self', r).
Proof.
  apply (update_without_chaos_deterministic
           (loaded create_oscillator_pattern)); reflexivity.
Defined.

(** With chaos disabled the step still draws: on the red block the five
    cells with five neighbours or more each consume a draw, and two states of
    the generator give two different grids. *)
Lemma overcrowding_draws_without_chaos :
  (let? self := init 7 7 500 500 in set_grid self red_block)
  = Some (loaded red_block)
  /\ chaos_mode (loaded red_block) = false
  /\ option_map (fun p => (Np.items (grid (fst p)), Np.pos (snd p)))
       (update (loaded red_block) draws_low)
     = Some ([[0; 0; 0; 0; 0; 0; 0]; [0; 0; 0; 1; 0; 0; 0];
              [0; 0; 1; 0; 1; 0; 0]; [0; 1; 0; 0; 0; 1; 0];
              [0; 0; 1; 0; 1; 0; 0]; [0; 0; 0; 1; 0; 0; 0];
              [0; 0; 0; 0; 0; 0; 0]], 5%nat)
  /\ option_map (fun p => (Np.items (grid (fst p)), Np.pos (snd p)))
       (update (loaded red_block) draws_high)
     = Some ([[0; 0; 0; 0; 0; 0; 0]; [0; 0; 0; 1; 0; 0; 0];
              [0; 0; 1; 1; 1; 0; 0]; [0; 1; 1; 1; 1; 1; 0];
              [0; 0; 1; 1; 1; 0; 0]; [0; 0; 0; 1; 0; 0; 0];
              [0; 0; 0; 0; 0; 0; 0]], 5%nat)
  /\ option_map (fun p => grid (fst p)) (update (loaded red_block) draws_low)
     <> option_map (fun p => grid (fst p))
          (update (loaded red_block) draws_high).
Proof.
  split; [reflexivity|]. split; [reflexivity|].
  split; [reflexivity|]. split; [reflexivity|].
  vm_compute. discriminate.
Qed.

(** ** The blinker *)

(** Case analysis on the position of a cell relative to a pattern: every
    comparison between coordinates is decided, branch by branch. *)
Ltac coordinate a :=
  lazymatch a with
  | context [if _ then _ else _] => fail
  | context [length _] => fail
  | _ => idtac
  end.

Ltac decide_comparisons :=
  repeat match goal with
         | |- context [?a =? ?b] =>
             coordinate a; coordinate b;
             destruct (Z.eqb_spec a b); try (exfalso; lia)
         | |- context [?a <=? ?b] =>
             coordinate a; coordinate b;
             destruct (Z.leb_spec a b); try (exfalso; lia)
         end.

Lemma original_row_to_column (y0 x0 c y x : Z) :
  is_color c = true ->
  spec_original (row3 y0 x0 c y x) (moore_colors (row3 y0 x0 c) y x)
  = column3 y0 x0 c y x.
Proof.
  intros Hc. unfold moore_colors, row3, column3, moore.
  cbn [map fst snd].
  decide_comparisons; cbn [andb orb];
    destruct (is_color_cases c Hc) as [ -> | [ -> | [ -> | -> ] ] ];
    reflexivity.
Qed.

Lemma original_column_to_row (y0 x0 c y x : Z) :
  is_color c = true ->
  spec_original (column3 y0 x0 c y x) (moore_colors (column3 y0 x0 c) y x)
  = row3 y0 x0 c y x.
Proof.
  intros Hc. unfold moore_colors, row3, column3, moore.
  cbn [map fst snd].
  decide_comparisons; cbn [andb orb];
    destruct (is_color_cases c Hc) as [ -> | [ -> | [ -> | -> ] ] ];
    reflexivity.
Qed.

Lemma custom_row_to_plus (y0 x0 c y x : Z) (u : Q) :
  is_color c = true ->
  spec_custom (row3 y0 x0 c y x) (moore_colors (row3 y0 x0 c) y x) u
  = plus5 y0 x0 c y x
  /\ negb (row3 y0 x0 c y x =? Dead)
     && (5 <=? Z.of_nat (length (moore_colors (row3 y0 x0 c) y x))) = false.
Proof.
  intros Hc. unfold moore_colors, row3, plus5, moore.
  cbn [map fst snd].
  decide_comparisons; cbn [andb orb];
    destruct (is_color_cases c Hc) as [ -> | [ -> | [ -> | -> ] ] ];
    split; reflexivity.
Qed.

Lemma custom_plus_to_block (y0 x0 c y x : Z) (u : Q) :
  is_color c = true ->
  spec_custom (plus5 y0 x0 c y x) (moore_colors (plus5 y0 x0 c) y x) u
  = block9 y0 x0 c y x
  /\ negb (plus5 y0 x0 c y x =? Dead)
     && (5 <=? Z.of_nat (length (moore_colors (plus5 y0 x0 c) y x))) = false.
Proof.
  intros Hc. unfold moore_colors, plus5, block9, moore.
  cbn [map fst snd].
  decide_comparisons; cbn [andb orb];
    destruct (is_color_cases c Hc) as [ -> | [ -> | [ -> | -> ] ] ];
    split; reflexivity.
Qed.

(** *** Patterns on a grid *)

Lemma tabulate_all_cells (p : Z -> bool) (h w : Z) (f : Z -> Z -> Z) :
  (forall y x, p (f y x) = true) -> all_cells p (tabulate h w f) = true.
Proof.
  intros Hp. apply all_cells_spec. cbn [tabulate Np.items].
  intros row v Hrow Hv. apply in_map_iff in Hrow as (y & <- & _).
  apply in_map_iff in Hv as (x & <- & _). apply Hp.
Qed.

(** A pattern that leaves the border of the grid empty is seen through the
    toroidal lookups as on the unbounded plane. *)
Lemma torus_cell (h w : Z) (f : Z -> Z -> Z) (y x : Z) :
  (forall y x, f y x <> 0 -> 1 <= y <= h - 2 /\ 1 <= x <= w - 2) ->
  0 < h -> 0 < w -> -1 <= y <= h -> -1 <= x <= w ->
  cell (tabulate h w f) (y mod h) (x mod w) = f y x.
Proof.
  intros Hsup Hh Hw Hy Hx.
  pose proof (Z.mod_pos_bound y h Hh). pose proof (Z.mod_pos_bound x w Hw).
  rewrite tabulate_cell by lia.
  assert (Hym : y mod h = y \/ (y mod h = h - 1 /\ y = -1)
                \/ (y mod h = 0 /\ y = h)).
  { destruct (Z.eq_dec y (-1)) as [->|]; [right; left; split; [|reflexivity]|].
    - symmetry. apply Z.mod_unique with (q := -1); lia.
    - destruct (Z.eq_dec y h) as [->|]; [right; right; split; [|reflexivity]|].
      + apply Z_mod_same_full.
      + left. apply Z.mod_small. lia. }
  assert (Hxm : x mod w = x \/ (x mod w = w - 1 /\ x = -1)
                \/ (x mod w = 0 /\ x = w)).
  { destruct (Z.eq_dec x (-1)) as [->|]; [right; left; split; [|reflexivity]|].
    - symmetry. apply Z.mod_unique with (q := -1); lia.
    - destruct (Z.eq_dec x w) as [->|]; [right; right; split; [|reflexivity]|].
      + apply Z_mod_same_full.
      + left. apply Z.mod_small. lia. }
  destruct (Z.eq_dec (f (y mod h) (x mod w)) 0) as [E1|E1];
    destruct (Z.eq_dec (f y x) 0) as [E2|E2]; try congruence.
  - apply Hsup in E2. destruct Hym as [->|[[-> ->]|[-> ->]]];
      destruct Hxm as [->|[[-> ->]|[-> ->]]]; try lia; congruence.
  - pose proof (Hsup _ _ E1).
    destruct Hym as [Ey|[[Ey ->]|[Ey ->]]];
      destruct Hxm as [Ex|[[Ex ->]|[Ex ->]]]; try lia.
    now rewrite Ey, Ex.
  - pose proof (Hsup _ _ E1).
    destruct Hym as [Ey|[[Ey ->]|[Ey ->]]];
      destruct Hxm as [Ex|[[Ex ->]|[Ex ->]]]; try lia.
    now rewrite Ey, Ex.
Qed.

Lemma moore_offsets (d : Z * Z) :
  In d moore -> -1 <= fst d <= 1 /\ -1 <= snd d <= 1.
Proof.
  unfold moore. cbn [In].
  intros [<-|[<-|[<-|[<-|[<-|[<-|[<-|[<-|[]]]]]]]]]; cbn; lia.
Qed.

Lemma torus_neighbors (self : GameOfLife) (h w : Z) (f : Z -> Z -> Z)
    (y x : Z) :
  grid self = tabulate h w f -> height self = h -> width self = w ->
  (forall y x, f y x <> 0 -> 1 <= y <= h - 2 /\ 1 <= x <= w - 2) ->
  0 <= y < h -> 0 <= x < w ->
  addressed self y x = f y x
  /\ living_neighbors self x y = moore_colors f y x.
Proof.
  intros Hg Hh Hw Hsup Hy Hx. split.
  - unfold addressed. rewrite Hg, Hh, Hw. apply torus_cell; auto; lia.
  - unfold living_neighbors, neighbor_cells, moore_colors. f_equal.
    apply map_ext_in. intros d Hd. apply moore_offsets in Hd.
    rewrite Hg, Hh, Hw. apply torus_cell; auto; lia.
Qed.

(** *** The sum of a pattern *)

Lemma sum_app (l1 l2 : list Z) : Py.sum (l1 ++ l2) = Py.sum l1 + Py.sum l2.
Proof.
  induction l1 as [|a l1 IH]; [reflexivity|].
  cbn [app]. rewrite !sum_cons, IH. lia.
Qed.

Lemma sum_zeros {A : Type} (g : A -> Z) (l : list A) :
  (forall a, In a l -> g a = 0) -> Py.sum (map g l) = 0.
Proof.
  induction l as [|a l IH]; intros H; [reflexivity|].
  cbn [map]. rewrite sum_cons, H by now left.
  rewrite IH; [reflexivity|]. intros. apply H. now right.
Qed.

Lemma range_app (lo m hi : Z) :
  lo <= m <= hi -> Py.range lo hi = Py.range lo m ++ Py.range m hi.
Proof.
  intros H. remember (Z.to_nat (m - lo)) as n eqn:Hn.
  revert lo H Hn. induction n as [|n IH]; intros lo H Hn.
  - replace m with lo by lia. now rewrite (range_nil lo lo) by lia.
  - rewrite (range_cons lo hi), (range_cons lo m) by lia.
    cbn [app]. f_equal. apply IH; lia.
Qed.

Lemma sum_map_support (g : Z -> Z) (lo hi a b : Z) :
  lo <= a -> a <= b -> b <= hi ->
  (forall z, g z <> 0 -> a <= z < b) ->
  Py.sum (map g (Py.range lo hi)) = Py.sum (map g (Py.range a b)).
Proof.
  intros H1 H2 H3 Hsup.
  rewrite (range_app lo a hi), (range_app a b hi) by lia.
  rewrite !map_app, !sum_app.
  rewrite sum_zeros, (sum_zeros g (Py.range b hi)); [lia| |].
  - intros z Hz. apply range_In in Hz.
    destruct (Z.eq_dec (g z) 0) as [E|E]; [exact E|]. apply Hsup in E. lia.
  - intros z Hz. apply range_In in Hz.
    destruct (Z.eq_dec (g z) 0) as [E|E]; [exact E|]. apply Hsup in E. lia.
Qed.

Lemma range_three (a : Z) : Py.range a (a + 3) = [a; a + 1; a + 2].
Proof.
  rewrite (range_cons a), (range_cons (a + 1)), (range_cons (a + 1 + 1)),
    (range_nil (a + 1 + 1 + 1) (a + 3)) by lia.
  now replace (a + 1 + 1) with (a + 2) by lia.
Qed.

(** The sum test of [update_active_bounds] on a pattern contained in a 3 by 3
    box: the sum is at most 36 and does not wrap. *)
Lemma pattern_sum_nonzero (h w : Z) (f : Z -> Z -> Z) (y1 x1 : Z) :
  0 <= y1 -> y1 + 3 <= h -> 0 <= x1 -> x1 + 3 <= w ->
  (forall y x, is_cell_state (f y x) = true) ->
  (forall y x, f y x <> 0 -> y1 <= y < y1 + 3 /\ x1 <= x < x1 + 3) ->
  (exists y x, f y x <> 0) ->
  (Np.sum (tabulate h w f) =? 0) = false.
Proof.
  intros Hy1 Hy2 Hx1 Hx2 Hval Hsup (ya & xa & Ha).
  unfold Np.sum. cbn [tabulate Np.items]. rewrite map_map.
  assert (Hrow : forall y,
            Py.sum (map (f y) (Py.range 0 w))
            = f y x1 + f y (x1 + 1) + f y (x1 + 2)).
  { intros y. rewrite (sum_map_support (f y) 0 w x1 (x1 + 3)); try lia.
    - rewrite range_three. cbn [map]. rewrite !sum_cons. cbn. lia.
    - intros x Hx. now apply Hsup in Hx. }
  rewrite (map_ext _ _ Hrow).
  rewrite (sum_map_support _ 0 h y1 (y1 + 3)); try lia.
  - rewrite range_three. cbn [map]. rewrite !sum_cons.
    change (Py.sum []) with 0.
    assert (Hb : forall y x, 0 <= f y x <= 4).
    { intros y x. specialize (Hval y x). unfold is_cell_state in Hval. lia. }
    pose proof (Hb y1 x1). pose proof (Hb y1 (x1 + 1)).
    pose proof (Hb y1 (x1 + 2)). pose proof (Hb (y1 + 1) x1).
    pose proof (Hb (y1 + 1) (x1 + 1)). pose proof (Hb (y1 + 1) (x1 + 2)).
    pose proof (Hb (y1 + 2) x1). pose proof (Hb (y1 + 2) (x1 + 1)).
    pose proof (Hb (y1 + 2) (x1 + 2)).
    apply Z.eqb_neq. rewrite Z.mod_small.
    + destruct (Hsup _ _ Ha) as [Hya Hxa].
      assert (Ey : ya = y1 \/ ya = y1 + 1 \/ ya = y1 + 2) by lia.
      assert (Ex : xa = x1 \/ xa = x1 + 1 \/ xa = x1 + 2) by lia.
      destruct Ey as [ -> | [ -> | -> ] ]; destruct Ex as [ -> | [ -> | -> ] ]; lia.
    + lia.
  - intros y Hy.
    destruct (Z_lt_le_dec y y1); [|destruct (Z_lt_le_dec y (y1 + 3)); [lia|]];
      exfalso; apply Hy;
      destruct (Z.eq_dec (f y x1) 0) as [E1|E1];
      try (apply Hsup in E1; lia);
      destruct (Z.eq_dec (f y (x1 + 1)) 0) as [E2|E2];
      try (apply Hsup in E2; lia);
      destruct (Z.eq_dec (f y (x1 + 2)) 0) as [E3|E3];
      try (apply Hsup in E3; lia); lia.
Qed.

Lemma tabulate_alive (h w : Z) (f : Z -> Z -> Z) (y x : Z) :
  alive (tabulate h w f) y x <-> 0 <= y < h /\ 0 <= x < w /\ f y x <> 0.
Proof.
  unfold alive. cbn [tabulate Np.shape fst snd]. split.
  - intros (Hy & Hx & Hc). rewrite tabulate_cell in Hc by assumption. auto.
  - intros (Hy & Hx & Hc). rewrite tabulate_cell by assumption. auto.
Qed.

(** The active bounds computed on a pattern whose tight bounding box is
    known. *)
Lemma pattern_bounds (self : GameOfLife) (h w : Z) (f : Z -> Z -> Z)
    (y1 x1 mx Mx my My ya yb xa xb : Z) :
  grid self = tabulate h w f -> height self = h -> width self = w ->
  bounds_margin self = 5 ->
  0 <= y1 -> y1 + 3 <= h -> 0 <= x1 -> x1 + 3 <= w ->
  (forall y x, is_cell_state (f y x) = true) ->
  (forall y x, f y x <> 0 -> y1 <= y < y1 + 3 /\ x1 <= x < x1 + 3) ->
  (forall y x, f y x <> 0 -> mx <= x <= Mx /\ my <= y <= My) ->
  f ya mx <> 0 -> f yb Mx <> 0 -> f my xa <> 0 -> f My xb <> 0 ->
  update_active_bounds self =
  Some (with_active_bounds self
          (Z.max 0 (mx - 5), Z.min w (Mx + 6),
           Z.max 0 (my - 5), Z.min h (My + 6))).
Proof.
  intros Hg Hh Hw Hm Hy1 Hy2 Hx1 Hx2 Hval Hsup Hbox Ha Hb Hc Hd.
  assert (Hws : well_shaped (grid self) = true)
    by (rewrite Hg; apply tabulate_well_shaped; lia).
  assert (Hu : all_cells is_uint8 (grid self) = true).
  { apply is_cell_state_uint8. rewrite Hg. now apply tabulate_all_cells. }
  assert (Hsum : (Np.sum (grid self) =? 0) = false).
  { rewrite Hg. apply (pattern_sum_nonzero h w f y1 x1); auto.
    now exists ya, mx. }
  assert (Hal : forall y x, f y x <> 0 -> alive (grid self) y x).
  { intros y x Hf. rewrite Hg. apply tabulate_alive.
    pose proof (Hsup _ _ Hf). repeat split; auto; lia. }
  destruct (update_active_bounds_alive self Hws Hu Hsum)
    as (a & b & c & d & (Htb & (y2 & Ha') & (y3 & Hb') & (x2 & Hc') & (x3 & Hd'))
        & E).
  { exists ya, mx. now apply Hal. }
  rewrite E, Hm, Hh, Hw.
  rewrite Hg in Ha', Hb', Hc', Hd'.
  apply (proj1 (tabulate_alive _ _ _ _ _)) in Ha' as (_ & _ & Ha').
  apply (proj1 (tabulate_alive _ _ _ _ _)) in Hb' as (_ & _ & Hb').
  apply (proj1 (tabulate_alive _ _ _ _ _)) in Hc' as (_ & _ & Hc').
  apply (proj1 (tabulate_alive _ _ _ _ _)) in Hd' as (_ & _ & Hd').
  apply Hbox in Ha', Hb', Hc', Hd'.
  pose proof (Htb _ _ (Hal _ _ Ha)). pose proof (Htb _ _ (Hal _ _ Hb)).
  pose proof (Htb _ _ (Hal _ _ Hc)). pose proof (Htb _ _ (Hal _ _ Hd)).
  replace a with mx by lia. replace b with Mx by lia.
  replace c with my by lia. replace d with My by lia.
  replace (Mx + 5 + 1) with (Mx + 6) by lia.
  now replace (My + 5 + 1) with (My + 6) by lia.
Qed.

(** One generation of a pattern that leaves the border empty, when the
    transition of every scanned cell is known and makes [k] draws. *)
Lemma update_pattern (self : GameOfLife) (h w : Z) (f g : Z -> Z -> Z)
    (k : nat) (min_x max_x min_y max_y : Z) :
  grid self = tabulate h w f -> height self = h -> width self = w ->
  0 < h -> 0 < w ->
  (forall y x, is_cell_state (f y x) = true) ->
  (forall y x, f y x <> 0 -> 1 <= y <= h - 2 /\ 1 <= x <= w - 2) ->
  update_active_bounds self =
  Some (with_active_bounds self (min_x, max_x, min_y, max_y)) ->
  0 <= min_x < max_x -> max_x <= w -> 0 <= min_y < max_y -> max_y <= h ->
  (forall y x r,
     0 <= y < h -> 0 <= x < w ->
     in_bounds (min_x, max_x, min_y, max_y) y x = true ->
     (rl <- spec_dispatch (chaos_mode self) (rule_randomness self)
              (chaos_probability self) ;;
      spec_apply rl (f y x) (moore_colors f y x)) r
     = Some (g y x, skip k r)) ->
  (forall y x,
     0 <= y < h -> 0 <= x < w ->
     in_bounds (min_x, max_x, min_y, max_y) y x = false -> g y x = f y x) ->
  forall r, exists m,
    update self r =
    Some (with_grid (with_active_bounds self (min_x, max_x, min_y, max_y))
            (tabulate h w g),
          skip (k * m) r).
Proof.
  intros Hg Hh Hw Hhp Hwp Hval Hsup Hb Hx0 Hx1 Hy0 Hy1 Hrule Hout r.
  assert (Hws : well_shaped (grid self) = true)
    by (rewrite Hg; apply tabulate_well_shaped; lia).
  assert (Hok : grid_ok self = true).
  { unfold grid_ok. rewrite Hws, Hg, Hh, Hw. cbn [tabulate Np.shape fst snd].
    rewrite !Z.eqb_refl. cbn [andb]. lia. }
  assert (Hcv : cells_valid self = true).
  { unfold cells_valid. rewrite Hg. now apply tabulate_all_cells. }
  rewrite (update_spec_step self r Hok Hcv).
  unfold spec_step. rewrite Hb. unfold Np.bind at 1. cbn [Np.lift].
  set (self1 := with_active_bounds self (min_x, max_x, min_y, max_y)).
  change (active_bounds self1) with (min_x, max_x, min_y, max_y).
  cbv beta iota.
  replace ((max_x - min_x <=? 0) || (max_y - min_y <=? 0)) with false by lia.
  unfold Np.bind at 1.
  rewrite (scan_paint self1 g k).
  2:{ intros y x r' Hy Hx. unfold spec_cell.
      destruct (torus_neighbors self1 h w f y x) as [-> ->]; auto; try lia.
      apply Hrule; try lia. unfold in_bounds. lia. }
  change (grid self1) with (grid self).
  destruct (paint_cell g (Py.range min_y max_y) (Py.range min_x max_x)
              (grid self) Hws) as (g' & -> & Hw' & Hs' & Hc').
  { intros y Hy. apply range_In in Hy. rewrite Hg. cbn. lia. }
  { intros x Hx. apply range_In in Hx. rewrite Hg. cbn. lia. }
  eexists. unfold Np.ret. do 3 f_equal.
  apply ndarray_ext; auto.
  - apply tabulate_well_shaped; lia.
  - now rewrite Hs', Hg.
  - rewrite Hs', Hg. cbn [tabulate Np.shape fst snd]. intros y x Hy Hx.
    rewrite Hc' by lia. rewrite !in_range, Hg, !tabulate_cell by lia.
    destruct ((min_y <=? y) && (y <? max_y) && ((min_x <=? x) && (x <? max_x)))
      eqn:E; [reflexivity|].
    symmetry. apply Hout; auto. unfold in_bounds. lia.
Qed.

Lemma draw_not_below_zero (r : Np.RandomState) :
  Float.ltb (Np.tape r (Np.pos r) mod 9007199254740992 # 9007199254740992) 0
  = false.
Proof.
  unfold Float.ltb, Qcompare. cbn [Qnum Qden].
  pose proof (Z.mod_pos_bound (Np.tape r (Np.pos r)) 9007199254740992).
  destruct (Z.compare_spec
              (Np.tape r (Np.pos r) mod 9007199254740992 * 1)
              (0 * 9007199254740992)); auto; lia.
Qed.

(** With chaos enabled and both probabilities zero the dispatch always
    selects the original monochrome rules, after two draws. *)
Lemma forced_original (self : GameOfLife) (cur : Z) (nbrs : list Z)
    (r : Np.RandomState) :
  chaos_mode self = true -> rule_randomness self = 0%Q ->
  chaos_probability self = 0%Q ->
  (rl <- spec_dispatch (chaos_mode self) (rule_randomness self)
           (chaos_probability self) ;;
   spec_apply rl cur nbrs) r
  = Some (spec_original cur nbrs, skip 2 r).
Proof.
  intros -> -> ->. unfold spec_dispatch, Np.bind, Np.random.
  rewrite draw_not_below_zero.
  change (Np.tape (Np.advance r)) with (Np.tape r).
  pose proof (draw_not_below_zero (Np.advance r)) as E.
  change (Np.tape (Np.advance r)) with (Np.tape r) in E. rewrite E.
  reflexivity.
Qed.

(** With chaos disabled a cell that is not overcrowded gets the result of
    the custom colour rules, without any draw. *)
Lemma calm_custom (self : GameOfLife) (cur : Z) (nbrs : list Z)
    (r : Np.RandomState) :
  chaos_mode self = false ->
  negb (cur =? Dead) && (5 <=? Z.of_nat (length nbrs)) = false ->
  (rl <- spec_dispatch (chaos_mode self) (rule_randomness self)
           (chaos_probability self) ;;
   spec_apply rl cur nbrs) r
  = Some (spec_custom cur nbrs 0, skip 0 r).
Proof.
  intros -> Ho. unfold spec_dispatch, spec_apply, spec_overcrowding_draw,
    Np.bind, Np.ret.
  rewrite Ho. now rewrite skip_0.
Qed.

(** One generation of a pattern [f] contained in the 3 by 3 box at
    [(y1, x1)], away from the border, towards a pattern [g] of the same
    box. *)
Lemma step_pattern (self : GameOfLife) (h w : Z) (f g : Z -> Z -> Z)
    (k : nat) (y1 x1 mx Mx my My ya yb xa xb : Z) :
  grid self = tabulate h w f -> height self = h -> width self = w ->
  bounds_margin self = 5 ->
  1 <= y1 -> y1 + 3 < h -> 1 <= x1 -> x1 + 3 < w ->
  (forall y x, is_cell_state (f y x) = true) ->
  (forall y x, f y x <> 0 -> y1 <= y < y1 + 3 /\ x1 <= x < x1 + 3) ->
  (forall y x, g y x <> 0 -> y1 <= y < y1 + 3 /\ x1 <= x < x1 + 3) ->
  (forall y x, f y x <> 0 -> mx <= x <= Mx /\ my <= y <= My) ->
  f ya mx <> 0 -> f yb Mx <> 0 -> f my xa <> 0 -> f My xb <> 0 ->
  (forall y x r,
     (rl <- spec_dispatch (chaos_mode self) (rule_randomness self)
              (chaos_probability self) ;;
      spec_apply rl (f y x) (moore_colors f y x)) r
     = Some (g y x, skip k r)) ->
  forall r, exists b m,
    update self r =
    Some (with_grid (with_active_bounds self b) (tabulate h w g),
          skip (k * m) r).
Proof.
  intros Hg Hh Hw Hm Hy1 Hy2 Hx1 Hx2 Hval Hf Hgs Hbox Ha Hb Hc Hd Hrule r.
  pose proof (Hf _ _ Ha). pose proof (Hf _ _ Hb).
  pose proof (Hf _ _ Hc). pose proof (Hf _ _ Hd).
  destruct (update_pattern self h w f g k
              (Z.max 0 (mx - 5)) (Z.min w (Mx + 6))
              (Z.max 0 (my - 5)) (Z.min h (My + 6))) with (r := r)
    as (m & E); auto; try lia.
  - intros y x Hfx. apply Hf in Hfx. lia.
  - apply (pattern_bounds self h w f y1 x1 mx Mx my My ya yb xa xb);
      auto; lia.
  - intros y x Hy Hx Hout.
    destruct (Z.eq_dec (g y x) 0) as [E1|E1];
      destruct (Z.eq_dec (f y x) 0) as [E2|E2]; try congruence; exfalso.
    + apply Hf in E2. unfold in_bounds in Hout. lia.
    + apply Hgs in E1. unfold in_bounds in Hout. lia.
    + apply Hgs in E1. unfold in_bounds in Hout. lia.
  - eexists. exists m. exact E.
Qed.

Lemma color_not_dead (c : Z) : is_color c = true -> c <> 0.
Proof. unfold is_color. lia. Qed.

Ltac decide_comparisons_in_hyps :=
  repeat match goal with
         | H : context [?a =? ?b] |- _ =>
             coordinate a; coordinate b;
             destruct (Z.eqb_spec a b); try (exfalso; lia)
         | H : context [?a <=? ?b] |- _ =>
             coordinate a; coordinate b;
             destruct (Z.leb_spec a b); try (exfalso; lia)
         end.

Ltac pattern_cell Hc :=
  intros;
  unfold row3, column3, plus5, block9, Dead in *;
  decide_comparisons; decide_comparisons_in_hyps; cbn [andb orb] in *;
  try (apply color_not_dead; exact Hc);
  try (unfold is_color, is_cell_state in *; lia);
  try congruence.

(** The four generations of the blinker story. *)
Lemma step_row_to_column (self : GameOfLife) (h w y0 x0 c : Z)
    (r : Np.RandomState) :
  grid self = tabulate h w (row3 y0 x0 c) ->
  height self = h -> width self = w -> bounds_margin self = 5 ->
  chaos_mode self = true -> rule_randomness self = 0%Q ->
  chaos_probability self = 0%Q ->
  is_color c = true -> 1 <= x0 -> x0 + 3 < w -> 2 <= y0 -> y0 + 2 < h ->
  exists b m,
    update self r =
    Some (with_grid (with_active_bounds self b)
            (tabulate h w (column3 y0 x0 c)),
          skip (2 * m) r).
Proof.
  intros Hg Hh Hw Hm Hch Hrr Hcp Hc Hx0 Hx1 Hy0 Hy1.
  apply (step_pattern self h w (row3 y0 x0 c) (column3 y0 x0 c) 2
           (y0 - 1) x0 x0 (x0 + 2) y0 y0 y0 y0 x0 x0); auto; try lia;
    try (pattern_cell Hc; fail).
  intros y x r'. rewrite forced_original by assumption.
  now rewrite original_row_to_column.
Qed.

Lemma step_column_to_row (self : GameOfLife) (h w y0 x0 c : Z)
    (r : Np.RandomState) :
  grid self = tabulate h w (column3 y0 x0 c) ->
  height self = h -> width self = w -> bounds_margin self = 5 ->
  chaos_mode self = true -> rule_randomness self = 0%Q ->
  chaos_probability self = 0%Q ->
  is_color c = true -> 1 <= x0 -> x0 + 3 < w -> 2 <= y0 -> y0 + 2 < h ->
  exists b m,
    update self r =
    Some (with_grid (with_active_bounds self b)
            (tabulate h w (row3 y0 x0 c)),
          skip (2 * m) r).
Proof.
  intros Hg Hh Hw Hm Hch Hrr Hcp Hc Hx0 Hx1 Hy0 Hy1.
  apply (step_pattern self h w (column3 y0 x0 c) (row3 y0 x0 c) 2
           (y0 - 1) x0 (x0 + 1) (x0 + 1) (y0 - 1) (y0 + 1)
           y0 y0 (x0 + 1) (x0 + 1)); auto; try lia;
    try (pattern_cell Hc; fail).
  intros y x r'. rewrite forced_original by assumption.
  now rewrite original_column_to_row.
Qed.

Lemma step_row_to_plus (self : GameOfLife) (h w y0 x0 c : Z)
    (r : Np.RandomState) :
  grid self = tabulate h w (row3 y0 x0 c) ->
  height self = h -> width self = w -> bounds_margin self = 5 ->
  chaos_mode self = false ->
  is_color c = true -> 1 <= x0 -> x0 + 3 < w -> 2 <= y0 -> y0 + 2 < h ->
  exists b,
    update self r =
    Some (with_grid (with_active_bounds self b)
            (tabulate h w (plus5 y0 x0 c)), r).
Proof.
  intros Hg Hh Hw Hm Hch Hc Hx0 Hx1 Hy0 Hy1.
  destruct (step_pattern self h w (row3 y0 x0 c) (plus5 y0 x0 c) 0
              (y0 - 1) x0 x0 (x0 + 2) y0 y0 y0 y0 x0 x0) with (r := r)
    as (b & m & E); auto; try lia; try (pattern_cell Hc; fail).
  - intros y x r'. destruct (custom_row_to_plus y0 x0 c y x 0 Hc) as [E O].
    now rewrite calm_custom, E.
  - exists b. cbn [Nat.mul] in E. now rewrite skip_0 in E.
Qed.

Lemma step_plus_to_block (self : GameOfLife) (h w y0 x0 c : Z)
    (r : Np.RandomState) :
  grid self = tabulate h w (plus5 y0 x0 c) ->
  height self = h -> width self = w -> bounds_margin self = 5 ->
  chaos_mode self = false ->
  is_color c = true -> 1 <= x0 -> x0 + 3 < w -> 2 <= y0 -> y0 + 2 < h ->
  exists b,
    update self r =
    Some (with_grid (with_active_bounds self b)
            (tabulate h w (block9 y0 x0 c)), r).
Proof.
  intros Hg Hh Hw Hm Hch Hc Hx0 Hx1 Hy0 Hy1.
  destruct (step_pattern self h w (plus5 y0 x0 c) (block9 y0 x0 c) 0
              (y0 - 1) x0 x0 (x0 + 2) (y0 - 1) (y0 + 1)
              y0 y0 (x0 + 1) (x0 + 1)) with (r := r)
    as (b & m & E); auto; try lia; try (pattern_cell Hc; fail).
  - intros y x r'. destruct (custom_plus_to_block y0 x0 c y x 0 Hc) as [E O].
    now rewrite calm_custom, E.
  - exists b. cbn [Nat.mul] in E. now rewrite skip_0 in E.
Qed.

Lemma row_not_column (h w y0 x0 c : Z) :
  is_color c = true -> 1 <= x0 -> x0 + 3 < w -> 2 <= y0 -> y0 + 2 < h ->
  tabulate h w (column3 y0 x0 c) <> tabulate h w (row3 y0 x0 c)
  /\ tabulate h w (block9 y0 x0 c) <> tabulate h w (row3 y0 x0 c).
Proof.
  intros Hc Hx0 Hx1 Hy0 Hy1. split; intros E.
  - apply (f_equal (fun a => cell a y0 x0)) in E.
    rewrite !tabulate_cell in E by lia. revert E. pattern_cell Hc.
    all: apply color_not_dead in Hc; congruence.
  - apply (f_equal (fun a => cell a (y0 - 1) x0)) in E.
    rewrite !tabulate_cell in E by lia. revert E. pattern_cell Hc.
    all: apply color_not_dead in Hc; congruence.
Qed.

(** C9, as the engine has it. An engine holds a horizontal row of three
    cells of one colour on an otherwise Dead grid, the 3 by 3 box around the
    row not touching the border.  When the dispatch is forced to the
    original monochrome rules (chaos enabled, both probabilities zero) one
    step turns the row into the vertical row, which differs from it, and the
    second step gives the horizontal row back: the period is exactly 2.
    Under the custom colour rules (chaos disabled) the two end cells
    survive, each having one neighbour of its own colour: one step gives the
    plus of five cells, the second the full 3 by 3 block, and the row does
    not come back; no random number is drawn on the way. *)
Theorem blinker_period_two (self : GameOfLife) (h w y0 x0 c : Z)
    (r : Np.RandomState) :
  is_color c = true -> 1 <= x0 -> x0 + 3 < w -> 2 <= y0 -> y0 + 2 < h ->
  let row := tabulate h w (row3 y0 x0 c) in
  let column := tabulate h w (column3 y0 x0 c) in
  let plus := tabulate h w (plus5 y0 x0 c) in
  let block := tabulate h w (block9 y0 x0 c) in
  grid self = row -> height self = h -> width self = w ->
  bounds_margin self = 5 ->
  (exists s1 r1 s2 r2,
      update (set_chaos_mode self true 0 0) r = Some (s1, r1)
      /\ grid s1 = column
      /\ update s1 r1 = Some (s2, r2)
      /\ grid s2 = row)
  /\ column <> row
  /\ (exists s1 s2,
        update (set_chaos_mode self false (chaos_probability self)
                  (rule_randomness self)) r = Some (s1, r)
        /\ grid s1 = plus
        /\ update s1 r = Some (s2, r) /\ grid s2 = block)
  /\ block <> row.
Proof.
  intros Hc Hx0 Hx1 Hy0 Hy1 row column plus block Hg Hh Hw Hm.
  destruct (row_not_column h w y0 x0 c Hc Hx0 Hx1 Hy0 Hy1) as [Hn1 Hn2].
  split; [|split; [exact Hn1|split; [|exact Hn2]]].
  - destruct (step_row_to_column (set_chaos_mode self true 0 0)
                h w y0 x0 c r) as (b1 & m1 & E1); auto.
    rewrite E1.
    destruct (step_column_to_row
                (with_grid
                   (with_active_bounds (set_chaos_mode self true 0 0) b1)
                   column)
                h w y0 x0 c (skip (2 * m1) r)) as (b2 & m2 & E2); auto.
    do 4 eexists. split; [reflexivity|]. split; [reflexivity|].
    split; [exact E2|reflexivity].
  - destruct (step_row_to_plus
                (set_chaos_mode self false (chaos_probability self)
                   (rule_randomness self)) h w y0 x0 c r)
      as (b1 & E1); auto.
    rewrite E1.
    destruct (step_plus_to_block
                (with_grid
                   (with_active_bounds
                      (set_chaos_mode self false (chaos_probability self)
                         (rule_randomness self)) b1) plus)
                h w y0 x0 c r) as (b2 & E2); auto.
    do 2 eexists. split; [reflexivity|]. split; [reflexivity|].
    split; [exact E2|reflexivity].
Qed.

(** The theorem on the engine holding the blinker of the repository. *)
Lemma blinker_period_two_witness :
  let self := loaded create_oscillator_pattern in
  let row := tabulate 5 5 (row3 2 1 Red) in
  let column := tabulate 5 5 (column3 2 1 Red) in
  let plus := tabulate 5 5 (plus5 2 1 Red) in
  let block := tabulate 5 5 (block9 2 1 Red) in
  (exists s1 r1 s2 r2,
      update (set_chaos_mode self true 0 0) draws_high = Some (s1, r1)
      /\ grid s1 = column
      /\ update s1 r1 = Some (s2, r2)
      /\ grid s2 = row)
  /\ column <> row
  /\ (exists s1 s2,
        update (set_chaos_mode self false (chaos_probability self)
                  (rule_randomness self)) draws_high
        = Some (s1, draws_high)
        /\ grid s1 = plus
        /\ update s1 draws_high = Some (s2, draws_high) /\ grid s2 = block)
  /\ block <> row.
Proof.
  intros self.
  apply (blinker_period_two self 5 5 2 1 Red draws_high);
    try reflexivity; lia.
Defined.

(** Under the custom colour rules, the rules of an engine with chaos
    disabled, the blinker of the repository is not back after two steps:
    it has become the plus and then the 3 by 3 block. *)
Lemma blinker_grows_under_custom_rules :
  (let? self := init 5 5 500 500 in set_grid self create_oscillator_pattern)
  = Some (loaded create_oscillator_pattern)
  /\ Np.items create_oscillator_pattern
     = [[0; 0; 0; 0; 0]; [0; 0; 0; 0; 0]; [0; 1; 1; 1; 0];
        [0; 0; 0; 0; 0]; [0; 0; 0; 0; 0]]
  /\ option_map (fun p => Np.items (grid (fst p)))
       (update (loaded create_oscillator_pattern) draws_low)
     = Some [[0; 0; 0; 0; 0]; [0; 0; 1; 0; 0]; [0; 1; 1; 1; 0];
             [0; 0; 1; 0; 0]; [0; 0; 0; 0; 0]]
  /\ option_map (fun p => Np.items (grid (fst p)))
       ((s <- update (loaded create_oscillator_pattern) ;; update s)
          draws_low)
     = Some [[0; 0; 0; 0; 0]; [0; 1; 1; 1; 0]; [0; 1; 1; 1; 0];
             [0; 1; 1; 1; 0]; [0; 0; 0; 0; 0]]
  /\ option_map (fun p => grid (fst p))
       ((s <- update (loaded create_oscillator_pattern) ;; update s)
          draws_low)
     <> Some create_oscillator_pattern.
Proof.
  split; [reflexivity|]. split; [reflexivity|]. split; [reflexivity|].
  split; [reflexivity|]. vm_compute. discriminate.
Qed.

(** ** The Mandelbrot seed *)

Section MandelbrotProperties.

Import MandelbrotGenerator.
Context {arith : Arith}.

(** The loop from the [k]-th point of the orbit on. *)
Lemma mandelbrot_loop_spec (c : complex) (max_iter : Z) (fuel : nat) :
  forall k, 0 <= k -> Z.to_nat (max_iter - k) = fuel ->
  (forall m, k <= m < max_iter ->
     (forall j, k <= j < m ->
        abs_gt (orbit c (Z.to_nat j)) 2 = Some false) ->
     negb (match abs_gt (orbit c (Z.to_nat m)) 2 with
           | Some _ => false
           | None => true
           end) = true) ->
  exists n,
    mandelbrot_loop c (orbit c (Z.to_nat k)) (Py.range k max_iter) max_iter
    = Some n
    /\ (forall m, k <= m < n -> abs_gt (orbit c (Z.to_nat m)) 2 = Some false)
    /\ ((k <= n < max_iter /\ abs_gt (orbit c (Z.to_nat n)) 2 = Some true)
        \/ n = max_iter).
Proof.
  induction fuel as [|fuel IH]; intros k Hk Hf Hdef.
  - rewrite range_nil by lia. exists max_iter. cbn [mandelbrot_loop].
    split; [reflexivity|]. split; [intros; lia|now right].
  - rewrite range_cons by lia. cbn [mandelbrot_loop].
    pose proof (Hdef k ltac:(lia) ltac:(intros; lia)) as Hk'.
    destruct (abs_gt (orbit c (Z.to_nat k)) 2) as [[|]|] eqn:E;
      [| |discriminate]; cbn [Py.bind].
    + exists k. split; [reflexivity|]. split; [intros; lia|left].
      split; [lia|assumption].
    + destruct (IH (k + 1)) as (n & En & Hbefore & Hn); try lia.
      { intros m Hm Hin. apply Hdef; [lia|].
        intros j Hj. destruct (Z.eq_dec j k) as [->|]; [assumption|].
        apply Hin. lia. }
      replace (Z.to_nat (k + 1)) with (S (Z.to_nat k)) in En by lia.
      cbn [orbit] in En. exists n. split; [exact En|]. split.
      * intros m Hm. destruct (Z.eq_dec m k) as [->|]; [assumption|].
        apply Hbefore. lia.
      * destruct Hn as [[Hn1 Hn2]|Hn]; [left; split; [lia|assumption]|].
        now right.
Qed.

(** [mandelbrot_iteration] returns the escape iteration. *)
Lemma mandelbrot_iteration_spec (c : complex) (max_iter : Z) :
  abs_defined c max_iter ->
  exists n, mandelbrot_iteration c max_iter = Some n
            /\ escapes_at c max_iter n.
Proof.
  intros Hdef.
  destruct (mandelbrot_loop_spec c max_iter (Z.to_nat (max_iter - 0)) 0)
    as (n & E & Hbefore & Hn); try lia; auto.
  exists n. split; [exact E|]. split; assumption.
Qed.

(** The condition is necessary: when the iteration returns, [abs] has not
    raised on any point that the loop evaluates. *)
Lemma mandelbrot_loop_defined (c : complex) (max_iter : Z) (fuel : nat) :
  forall k n, 0 <= k -> Z.to_nat (max_iter - k) = fuel ->
  mandelbrot_loop c (orbit c (Z.to_nat k)) (Py.range k max_iter) max_iter
  = Some n ->
  forall m, k <= m < max_iter ->
    (forall j, k <= j < m ->
       abs_gt (orbit c (Z.to_nat j)) 2 = Some false) ->
    negb (match abs_gt (orbit c (Z.to_nat m)) 2 with
          | Some _ => false
          | None => true
          end) = true.
Proof.
  induction fuel as [|fuel IH]; intros k n Hk Hf E m Hm Hin; [lia|].
  rewrite range_cons in E by lia. cbn [mandelbrot_loop] in E.
  destruct (abs_gt (orbit c (Z.to_nat k)) 2) as [b|] eqn:Ek;
    [|discriminate]. cbn [Py.bind] in E.
  destruct (Z.eq_dec m k) as [->|Hne]; [now rewrite Ek|].
  pose proof (Hin k ltac:(lia)) as Hk'. rewrite Ek in Hk'.
  injection Hk' as ->.
  apply (IH (k + 1) n); try lia.
  - replace (Z.to_nat (k + 1)) with (S (Z.to_nat k)) by lia. exact E.
  - intros j Hj. apply Hin. lia.
Qed.

Lemma mandelbrot_iteration_defined (c : complex) (max_iter n : Z) :
  mandelbrot_iteration c max_iter = Some n -> abs_defined c max_iter.
Proof.
  intros E m Hm Hin.
  apply (mandelbrot_loop_defined c max_iter (Z.to_nat (max_iter - 0)) 0 n);
    auto; lia.
Qed.

(** The escape iteration is unique. *)
Lemma escapes_at_unique (c : complex) (max_iter n n' : Z) :
  escapes_at c max_iter n -> escapes_at c max_iter n' -> n = n'.
Proof.
  intros [Hb [[Hn He]|Hn]] [Hb' [[Hn' He']|Hn']].
  - destruct (Z.lt_trichotomy n n') as [Hlt|[Heq|Hgt]]; [|assumption|].
    + rewrite Hb' in He by lia. discriminate.
    + rewrite Hb in He' by lia. discriminate.
  - subst n'. rewrite Hb' in He by lia. discriminate.
  - subst n. rewrite Hb in He' by lia. discriminate.
  - congruence.
Qed.

Lemma py_for_ext {A S : Type} (l : list A) (body1 body2 : S -> A -> option S)
    (s : S) :
  (forall s a, body1 s a = body2 s a) ->
  Py.for_ l body1 s = Py.for_ l body2 s.
Proof.
  intros H. revert s. induction l as [|a l IH]; intros s; [reflexivity|].
  cbn [Py.for_]. rewrite H. destruct (body2 s a); cbn [Py.bind]; auto.
Qed.

(** One row of pixels. *)
Lemma mandelbrot_row (alive_at : Z -> Z -> option bool) (y : Z)
    (xs : list Z) (g : Np.ndarray) :
  well_shaped g = true -> 0 <= y < fst (Np.shape g) ->
  (forall x, In x xs -> 0 <= x < snd (Np.shape g)) ->
  (forall x, In x xs -> exists b, alive_at y x = Some b) ->
  exists g',
    Py.for_ xs
      (fun g x =>
         let? b := alive_at y x in
         if b then Np.setitem g y x 1 else Some g) g = Some g'
    /\ well_shaped g' = true /\ Np.shape g' = Np.shape g
    /\ (forall y' x', 0 <= y' -> 0 <= x' ->
          cell g' y' x' =
          if (y' =? y) && Py.in_ x' xs
             && match alive_at y x' with Some true => true | _ => false end
          then 1 else cell g y' x').
Proof.
  revert g. induction xs as [|x xs IH]; intros g Hw Hy Hxs Hdef.
  - exists g. cbn [Py.for_ Py.in_ existsb]. repeat split; auto.
    intros. now rewrite andb_false_r.
  - destruct (Hdef x (or_introl eq_refl)) as (b & Eb).
    assert (Hstep : exists g1,
               (let? b := alive_at y x in
                if b then Np.setitem g y x 1 else Some g) = Some g1
               /\ well_shaped g1 = true /\ Np.shape g1 = Np.shape g
               /\ (forall y' x', 0 <= y' -> 0 <= x' ->
                     cell g1 y' x' =
                     if (y' =? y) && (x' =? x) && b then 1
                     else cell g y' x')).
    { rewrite Eb. cbn [Py.bind]. destruct b.
      - destruct (setitem_cell g y x 1 Hw Hy) as (g1 & E1 & Hs1 & Hw1 & Hc1);
          [apply Hxs; now left|].
        exists g1. repeat split; auto. intros y' x' Hy' Hx'.
        rewrite Hc1 by assumption. now rewrite andb_true_r.
      - exists g. repeat split; auto. intros. now rewrite andb_false_r. }
    destruct Hstep as (g1 & E1 & Hw1 & Hs1 & Hc1).
    destruct (IH g1 Hw1) as (g2 & E2 & Hw2 & Hs2 & Hc2).
    + now rewrite Hs1.
    + intros. rewrite Hs1. apply Hxs. now right.
    + intros. apply Hdef. now right.
    + exists g2. cbn [Py.for_]. rewrite E1. cbn [Py.bind].
      split; [assumption|]. split; [assumption|]. split; [congruence|].
      intros y' x' Hy' Hx'. rewrite Hc2, Hc1 by assumption.
      rewrite in_cons.
      destruct (Z.eqb_spec y' y) as [->|]; cbn [andb]; [|reflexivity].
      destruct (Z.eqb_spec x' x) as [->|]; cbn [orb andb].
      * rewrite Eb. destruct (Py.in_ x xs); cbn [andb]; now destruct b.
      * reflexivity.
Qed.

(** All the rows. *)
Lemma mandelbrot_rows (alive_at : Z -> Z -> option bool) (ys xs : list Z)
    (g : Np.ndarray) :
  well_shaped g = true ->
  (forall y, In y ys -> 0 <= y < fst (Np.shape g)) ->
  (forall x, In x xs -> 0 <= x < snd (Np.shape g)) ->
  (forall y x, In y ys -> In x xs -> exists b, alive_at y x = Some b) ->
  exists g',
    Py.for_ ys
      (fun g y =>
         Py.for_ xs
           (fun g x =>
              let? b := alive_at y x in
              if b then Np.setitem g y x 1 else Some g) g) g = Some g'
    /\ well_shaped g' = true /\ Np.shape g' = Np.shape g
    /\ (forall y' x', 0 <= y' -> 0 <= x' ->
          cell g' y' x' =
          if Py.in_ y' ys && Py.in_ x' xs
             && match alive_at y' x' with Some true => true | _ => false end
          then 1 else cell g y' x').
Proof.
  revert g. induction ys as [|y ys IH]; intros g Hw Hys Hxs Hdef.
  - exists g. cbn [Py.for_ Py.in_ existsb andb]. repeat split; auto.
  - destruct (mandelbrot_row alive_at y xs g Hw)
      as (g1 & E1 & Hw1 & Hs1 & Hc1);
      [apply Hys; now left|assumption|intros; apply Hdef; auto; now left|].
    destruct (IH g1 Hw1) as (g2 & E2 & Hw2 & Hs2 & Hc2).
    + intros. rewrite Hs1. apply Hys. now right.
    + intros. rewrite Hs1. now apply Hxs.
    + intros. apply Hdef; auto. now right.
    + exists g2. cbn [Py.for_]. rewrite E1. cbn [Py.bind].
      split; [assumption|]. split; [assumption|]. split; [congruence|].
      intros y' x' Hy' Hx'. rewrite Hc2, Hc1 by assumption.
      rewrite in_cons.
      destruct (Z.eqb_spec y' y) as [->|]; cbn [andb orb]; [|reflexivity].
      destruct (Py.in_ y ys); cbn [andb]; [|reflexivity].
      now destruct (Py.in_ x' xs && _).
Qed.

(** C10, with the condition under which the generator returns.
    [generate_mandelbrot_grid] is a function of its arguments alone: it
    takes and returns no generator or engine state.  For non-negative sizes,
    and as long as [abs] does not raise on a point of an orbit that the loop
    evaluates (the points up to the first one outside the disc of radius 2),
    it returns a grid of
    shape [(height, width)] where, for every pixel [(x, y)], with
    [c = x_min + (x / width)(x_max - x_min)
         + i (y_min + (y / height)(y_max - y_min))]
    and [n] the escape iteration of [c] (the first [n < max_iter] with
    [|z_n| > 2] on the orbit [z_0 = 0], [z_(n+1) = z_n^2 + c], or [max_iter]
    when there is none), the cell is 1 when [n < threshold] and 0
    otherwise. *)
Theorem mandelbrot_grid_spec (width height : Z)
    (x_min x_max y_min y_max : float) (max_iter threshold : Z) :
  0 <= width -> 0 <= height ->
  (forall y x, 0 <= y < height -> 0 <= x < width ->
     abs_defined
       (make_complex
          (add x_min (mul (truediv x width) (sub x_max x_min)))
          (add y_min (mul (truediv y height) (sub y_max y_min))))
       max_iter) ->
  exists grid,
    generate_mandelbrot_grid width height x_min x_max y_min y_max
      max_iter threshold = Some grid
    /\ Np.shape grid = (height, width)
    /\ well_shaped grid = true
    /\ (forall y x, 0 <= y < height -> 0 <= x < width ->
          let c :=
            make_complex
              (add x_min (mul (truediv x width) (sub x_max x_min)))
              (add y_min (mul (truediv y height) (sub y_max y_min))) in
          exists n,
            escapes_at c max_iter n
            /\ mandelbrot_iteration c max_iter = Some n
            /\ cell grid y x = if n <? threshold then 1 else 0).
Proof.
  intros Hw Hh Hdef. unfold generate_mandelbrot_grid.
  destruct (zeros_spec height width Hh Hw) as (z & -> & Hzs & Hzw & Hz0).
  cbn [Py.bind].
  set (point := pixel_point width height x_min x_max y_min y_max).
  set (alive_at := fun y x =>
         let? iterations := mandelbrot_iteration (point y x) max_iter in
         Some (iterations <? threshold)).
  rewrite (py_for_ext (Py.range 0 height) _
             (fun g y =>
                Py.for_ (Py.range 0 width)
                  (fun g x =>
                     let? b := alive_at y x in
                     if b then Np.setitem g y x 1 else Some g) g)).
  2:{ intros g y. apply py_for_ext. intros g' x.
      unfold alive_at, point. cbv zeta.
      now destruct (mandelbrot_iteration _ max_iter). }
  assert (Hpoint : forall y x, 0 <= y < height -> 0 <= x < width ->
            exists n, mandelbrot_iteration (point y x) max_iter = Some n
                      /\ escapes_at (point y x) max_iter n).
  { intros y x Hy Hx. apply mandelbrot_iteration_spec. now apply Hdef. }
  destruct (mandelbrot_rows alive_at (Py.range 0 height) (Py.range 0 width) z
              Hzw) as (g & Eg & Hgw & Hgs & Hgc).
  { intros y Hy. apply range_In in Hy. rewrite Hzs. cbn. lia. }
  { intros x Hx. apply range_In in Hx. rewrite Hzs. cbn. lia. }
  { intros y x Hy Hx. apply range_In in Hy, Hx.
    destruct (Hpoint y x) as (n & En & _); try lia.
    unfold alive_at. rewrite En. eexists. reflexivity. }
  exists g. split; [exact Eg|]. split; [congruence|]. split; [assumption|].
  intros y x Hy Hx. destruct (Hpoint y x Hy Hx) as (n & En & Hn).
  exists n. split; [exact Hn|]. split; [exact En|].
  rewrite Hgc by lia. rewrite !in_range.
  replace ((0 <=? y) && (y <? height)) with true by lia.
  replace ((0 <=? x) && (x <? width)) with true by lia. cbn [andb].
  unfold alive_at. rewrite En. cbn [Py.bind].
  destruct (n <? threshold); [reflexivity|].
  destruct (cell_in_row z y x Hzw) as (row & _ & Hrow & _ & Hv);
    try (rewrite Hzs; cbn [fst snd]; lia).
  apply (Hz0 row _ Hrow Hv).
Qed.

End MandelbrotProperties.

(** The theorem on an 8 by 6 grid with exact rational arithmetic, the
    window of the specification, 5 iterations and threshold 3. *)
Lemma mandelbrot_grid_spec_witness :
  exists grid,
    MandelbrotGenerator.generate_mandelbrot_grid
      (arith := MandelbrotGenerator.exact) 8 6
      (-5 # 2)%Q (1 # 1)%Q (-3 # 2)%Q (3 # 2)%Q 5 3 = Some grid
    /\ Np.shape grid = (6, 8)
    /\ well_shaped grid = true
    /\ (forall y x, 0 <= y < 6 -> 0 <= x < 8 ->
          let c :=
            ((-5 # 2) + (inject_Z x / inject_Z 8) * ((1 # 1) - (-5 # 2)),
             (-3 # 2) + (inject_Z y / inject_Z 6) * ((3 # 2) - (-3 # 2)))%Q in
          exists n,
            MandelbrotGenerator.escapes_at
              (arith := MandelbrotGenerator.exact) c 5 n
            /\ MandelbrotGenerator.mandelbrot_iteration
                 (arith := MandelbrotGenerator.exact) c 5 = Some n
            /\ cell grid y x = if n <? 3 then 1 else 0).
Proof.
  apply (mandelbrot_grid_spec (arith := MandelbrotGenerator.exact) 8 6
           (-5 # 2)%Q (1 # 1)%Q (-3 # 2)%Q (3 # 2)%Q 5 3); try lia.
  intros y x Hy Hx m Hm _. reflexivity.
Defined.

(** Where [abs] overflows the generator raises instead of returning a grid:
    the one pixel of a window at the largest float has [z_1 = c] with a
    modulus above the largest float, and [abs(z_1)] raises
    [OverflowError]. *)
Lemma mandelbrot_grid_raises_on_overflow :
  MandelbrotGenerator.generate_mandelbrot_grid (arith := overflowing) 1 1
    DBL_MAX DBL_MAX DBL_MAX DBL_MAX 2 1 = None
  /\ MandelbrotGenerator.mandelbrot_iteration (arith := overflowing)
       (DBL_MAX, DBL_MAX) 2 = None
  /\ MandelbrotGenerator.abs_gt (Arith := overflowing)
       (MandelbrotGenerator.orbit (arith := overflowing)
          (DBL_MAX, DBL_MAX) 0) 2 = Some false
  /\ MandelbrotGenerator.abs_gt (Arith := overflowing)
       (MandelbrotGenerator.orbit (arith := overflowing)
          (DBL_MAX, DBL_MAX) 1) 2 = None.
Proof. repeat split; vm_compute; reflexivity. Qed.

(** ** Clearing and repeated expansion *)

Lemma zeros_sum (h w : Z) (g : Np.ndarray) :
  Np.zeros h w = Some g -> Np.sum g = 0.
Proof.
  intros E. destruct (zeros_inv h w g E) as (Hh & Hw & Hs & Hws & Hz).
  unfold Np.sum. fold (total_cells g).
  rewrite (dead_total_zero g Hws); [reflexivity|].
  intros y x (Hy & Hx & Hc). apply Hc.
  destruct (cell_in_row g y x Hws Hy Hx) as (row & _ & Hrow & _ & Hv).
  apply (Hz row _ Hrow Hv).
Qed.

Lemma zeros_cell (h w : Z) (g : Np.ndarray) (y x : Z) :
  Np.zeros h w = Some g -> 0 <= y < h -> 0 <= x < w -> cell g y x = 0.
Proof.
  intros E Hy Hx.
  destruct (zeros_inv h w g E) as (Hh & Hw & Hs & Hws & Hz).
  destruct (cell_in_row g y x Hws) as (row & _ & Hrow & _ & Hv);
    try (rewrite Hs; cbn [fst snd]; lia).
  apply (Hz row _ Hrow Hv).
Qed.

(** X1. [clear] empties the grid and keeps its size; clearing again, or
    refreshing the active bounds of the cleared engine, changes nothing: the
    bounds that [clear] sets are the ones [update_active_bounds] computes
    for an empty grid. *)
Theorem clear_idempotent (self : GameOfLife) :
  0 <= width self -> 0 <= height self ->
  exists self',
    clear self = Some self'
    /\ clear self' = Some self'
    /\ update_active_bounds self' = Some self'
    /\ width self' = width self /\ height self' = height self
    /\ (forall y x, 0 <= y < height self -> 0 <= x < width self ->
          cell (grid self') y x = Dead).
Proof.
  intros Hw Hh.
  destruct (clear_spec self Hw Hh) as (g & Eg & Ec & _).
  eexists. split; [exact Ec|].
  split; [|split; [|split; [reflexivity|split; [reflexivity|]]]].
  - unfold clear. cbn [width height with_active_bounds with_grid].
    rewrite Eg. reflexivity.
  - unfold update_active_bounds.
    cbn [grid width height with_active_bounds with_grid].
    rewrite (zeros_sum _ _ _ Eg). reflexivity.
  - intros y x Hy Hx. cbn [grid with_active_bounds with_grid].
    apply (zeros_cell _ _ _ _ _ Eg Hy Hx).
Qed.

Lemma clear_idempotent_witness :
  exists self',
    clear (loaded red_block) = Some self'
    /\ clear self' = Some self'
    /\ update_active_bounds self' = Some self'
    /\ width self' = 7 /\ height self' = 7
    /\ (forall y x, 0 <= y < 7 -> 0 <= x < 7 ->
          cell (grid self') y x = Dead).
Proof.
  apply (clear_idempotent (loaded red_block)); cbn; lia.
Defined.

(** X2. A second expansion towards targets that are not larger than the
    ones of a successful call changes nothing and returns [False], whatever
    the state of the engine: the size reached by the first call already
    satisfies them. *)
Theorem expand_grid_idempotent (self self' : GameOfLife)
    (target_width target_height : Z) (resized : bool)
    (target_width' target_height' : Z) :
  expand_grid_if_needed self target_width target_height
  = Some (self', resized) ->
  target_width' <= target_width -> target_height' <= target_height ->
  expand_grid_if_needed self' target_width' target_height'
  = Some (self', false).
Proof.
  intros E Hw Hh.
  assert (Hsize :
            width self'
            = Z.min (Z.max (width self) target_width) (max_width self)
            /\ height self'
               = Z.min (Z.max (height self) target_height) (max_height self)
            /\ max_width self' = max_width self
            /\ max_height self' = max_height self).
  { unfold expand_grid_if_needed in E.
    destruct (negb (_ =? width self) || negb (_ =? height self)) eqn:Hchg.
    - destruct (Np.zeros _ _); [|discriminate]. cbn [Py.bind] in E.
      destruct (Np.setslice _ _ _ _ _ _); [|discriminate].
      cbn [Py.bind] in E.
      destruct (active_bounds self) as [[[b0 b1] b2] b3].
      injection E as <- _. cbn. auto.
    - injection E as <- _.
      apply orb_false_iff in Hchg as [H1 H2].
      apply negb_false_iff, Z.eqb_eq in H1, H2. auto. }
  destruct Hsize as (Ew & Eh & Emw & Emh).
  unfold expand_grid_if_needed.
  replace (Z.min (Z.max (width self') target_width') (max_width self'))
    with (width self') by lia.
  replace (Z.min (Z.max (height self') target_height') (max_height self'))
    with (height self') by lia.
  rewrite !Z.eqb_refl. reflexivity.
Qed.

Lemma expand_grid_idempotent_witness :
  exists self',
    expand_grid_if_needed (loaded create_oscillator_pattern) 8 9
    = Some (self', true)
    /\ expand_grid_if_needed self' 7 9 = Some (self', false).
Proof.
  eexists. split; [vm_compute; reflexivity|].
  apply (expand_grid_idempotent (loaded create_oscillator_pattern) _ 8 9 true);
    [vm_compute; reflexivity | lia | lia].
Defined.

(** ** What a generation step leaves alone *)

Lemma for_preserves {A S : Type} (P : S -> Prop) (l : list A)
    (body : S -> A -> Np.M S) :
  (forall s a r s' r', In a l -> P s -> body s a r = Some (s', r') -> P s') ->
  forall s r s' r', P s -> Np.for_ l body s r = Some (s', r') -> P s'.
Proof.
  induction l as [|a l IH]; intros Hbody s r s' r' Ps E.
  - injection E as <- _. exact Ps.
  - rewrite for_cons in E.
    destruct (body s a r) as [[s1 r1]|] eqn:E1; [|discriminate].
    apply (IH (fun s a r s' r' Hin => Hbody s a r s' r' (or_intror Hin))
             s1 r1 s' r'); auto.
    apply (Hbody s a r s1 r1); auto. now left.
Qed.

Lemma for_fixed {A S : Type} (l : list A) (body : S -> A -> Np.M S) (s : S) :
  (forall a r, In a l -> body s a r = Some (s, r)) ->
  forall r, Np.for_ l body s r = Some (s, r).
Proof.
  induction l as [|a l IH]; intros Hbody r; [reflexivity|].
  rewrite for_cons, Hbody by now left.
  apply IH. intros a' r' Hin. apply Hbody. now right.
Qed.

(** A write through an index that may be negative lands on the index
    modulo the length of the axis. *)
Lemma setitem_wrap (a : Np.ndarray) (y x v : Z) :
  - fst (Np.shape a) <= y < fst (Np.shape a) ->
  - snd (Np.shape a) <= x < snd (Np.shape a) ->
  Np.setitem a y x v
  = Np.setitem a (y mod fst (Np.shape a)) (x mod snd (Np.shape a)) v.
Proof.
  intros Hy Hx. unfold Np.setitem.
  rewrite (index_mod _ y Hy), (index_mod _ x Hx).
  rewrite !index_inside by (apply Z.mod_pos_bound; lia).
  reflexivity.
Qed.

Lemma setitem_cell_wrap (a : Np.ndarray) (y x v : Z) :
  well_shaped a = true ->
  - fst (Np.shape a) <= y < fst (Np.shape a) ->
  - snd (Np.shape a) <= x < snd (Np.shape a) ->
  exists a', Np.setitem a y x v = Some a'
             /\ Np.shape a' = Np.shape a
             /\ well_shaped a' = true
             /\ (forall y' x', 0 <= y' -> 0 <= x' ->
                   cell a' y' x' =
                   if (y' =? y mod fst (Np.shape a))
                      && (x' =? x mod snd (Np.shape a))
                   then v else cell a y' x').
Proof.
  intros Hw Hy Hx. rewrite (setitem_wrap a y x v Hy Hx).
  apply setitem_cell; auto; apply Z.mod_pos_bound; lia.
Qed.

(** Writing back the value that a cell holds changes nothing. *)
Lemma setitem_same (a : Np.ndarray) (y x : Z) :
  well_shaped a = true ->
  - fst (Np.shape a) <= y < fst (Np.shape a) ->
  - snd (Np.shape a) <= x < snd (Np.shape a) ->
  Np.setitem a y x
    (cell a (y mod fst (Np.shape a)) (x mod snd (Np.shape a)))
  = Some a.
Proof.
  intros Hw Hy Hx.
  destruct (setitem_cell_wrap a y x
              (cell a (y mod fst (Np.shape a)) (x mod snd (Np.shape a)))
              Hw Hy Hx) as (a' & -> & Hs & Hw' & Hc).
  f_equal. apply ndarray_ext; auto.
  rewrite Hs. intros y' x' Hy' Hx'. rewrite Hc by lia.
  destruct (Z.eqb_spec y' (y mod fst (Np.shape a))) as [->|]; [|reflexivity].
  destruct (Z.eqb_spec x' (x mod snd (Np.shape a))) as [->|]; reflexivity.
Qed.

(** The refreshed rectangle is closed under the wrap-around of indices: its
    sides are negative only on an empty grid one cell wide or high, where
    the index [-1] addresses the same cell as [0]. *)
Lemma update_active_bounds_wrap (self : GameOfLife) :
  grid_ok self = true -> cells_valid self = true ->
  exists min_x max_x min_y max_y,
    update_active_bounds self =
    Some (with_active_bounds self (min_x, max_x, min_y, max_y))
    /\ - width self <= min_x /\ max_x <= width self
    /\ - height self <= min_y /\ max_y <= height self
    /\ (forall x, min_x <= x < max_x -> min_x <= x mod width self < max_x)
    /\ (forall y, min_y <= y < max_y -> min_y <= y mod height self < max_y).
Proof.
  intros Hg Hv. destruct (grid_ok_spec self Hg) as (Hw & Hs & Hwp & Hhp).
  pose proof (is_cell_state_uint8 _ Hv) as Hu.
  destruct (Np.sum (grid self) =? 0) eqn:E.
  - unfold update_active_bounds. rewrite E.
    do 4 eexists. split; [reflexivity|].
    pose proof (Z.div_mod (width self) 2).
    pose proof (Z.mod_pos_bound (width self) 2).
    pose proof (Z.div_mod (height self) 2).
    pose proof (Z.mod_pos_bound (height self) 2).
    do 4 (split; [lia|]). split.
    + intros x Hx. destruct (Z.eq_dec (width self) 1) as [E1|N1].
      * rewrite E1, Z.mod_1_r. rewrite E1 in Hx. cbn in Hx. cbn. lia.
      * rewrite Z.mod_small; lia.
    + intros y Hy. destruct (Z.eq_dec (height self) 1) as [E1|N1].
      * rewrite E1, Z.mod_1_r. rewrite E1 in Hy. cbn in Hy. cbn. lia.
      * rewrite Z.mod_small; lia.
  - assert (Hex : exists y x, alive (grid self) y x).
    { destruct (where_cells (grid self)) as [|[y x] cs] eqn:Hc.
      - exfalso. apply Z.eqb_neq in E. apply E. unfold Np.sum.
        fold (total_cells (grid self)). rewrite dead_total_zero; auto.
        intros y x Ha.
        apply (where_cells_alive _ _ _ Hw Hu) in Ha. now rewrite Hc in Ha.
      - exists y, x. apply (where_cells_alive _ _ _ Hw Hu).
        rewrite Hc. now left. }
    destruct (update_active_bounds_alive self Hw Hu E Hex)
      as (min_x & max_x & min_y & max_y & Ht & Hb).
    do 4 eexists. split; [exact Hb|].
    do 4 (split; [lia|]).
    split; intros i Hi; rewrite Z.mod_small; lia.
Qed.

(** The scan writes inside its rectangle only. *)
Lemma scan_frame (value : Z -> Z -> Np.M Z) (h w : Z)
    (min_x max_x min_y max_y : Z) (g g' : Np.ndarray)
    (r r' : Np.RandomState) :
  well_shaped g = true -> Np.shape g = (h, w) ->
  (forall x, min_x <= x < max_x -> min_x <= x mod w < max_x) ->
  (forall y, min_y <= y < max_y -> min_y <= y mod h < max_y) ->
  scan (fun new_grid y x =>
          v <- value y x ;; Np.lift (Np.setitem new_grid y x v))
    (min_x, max_x, min_y, max_y) g r = Some (g', r') ->
  well_shaped g' = true /\ Np.shape g' = (h, w)
  /\ (forall y x, 0 <= y -> 0 <= x ->
        in_bounds (min_x, max_x, min_y, max_y) y x = false ->
        cell g' y x = cell g y x).
Proof.
  intros Hw Hs Hcx Hcy E. unfold scan in E.
  set (P := fun a : Np.ndarray =>
              well_shaped a = true /\ Np.shape a = (h, w)
              /\ (forall y x, 0 <= y -> 0 <= x ->
                    in_bounds (min_x, max_x, min_y, max_y) y x = false ->
                    cell a y x = cell g y x)).
  refine (for_preserves P _ _ _ g r g' r' _ E); [|unfold P; auto].
  intros a y r1 a1 r2 Hy Pa E1. apply range_In in Hy.
  refine (for_preserves P _ _ _ a r1 a1 r2 Pa E1).
  intros b x r3 b1 r4 Hx (Hwb & Hsb & Hb) E2. apply range_In in Hx.
  unfold Np.bind in E2.
  destruct (value y x r3) as [[v r5]|]; [|discriminate].
  unfold Np.lift in E2.
  destruct (Np.setitem b y x v) as [b2|] eqn:E3; [|discriminate].
  injection E2 as <- _.
  assert (Hyx : (- h <= y < h) /\ (- w <= x < w)).
  { unfold Np.setitem in E3. rewrite Hsb in E3. cbn [fst snd] in E3.
    destruct (Np.index h y) eqn:Ey; [|discriminate].
    cbn [Py.bind] in E3.
    destruct (Np.index w x) eqn:Ex; [|discriminate].
    apply index_bound in Ey, Ex. lia. }
  destruct (setitem_cell_wrap b y x v Hwb) as (b3 & E4 & Hs3 & Hw3 & Hc3);
    try (rewrite Hsb; cbn [fst snd]; lia).
  rewrite E3 in E4. injection E4 as <-.
  split; [assumption|]. split; [congruence|].
  intros y' x' Hy' Hx' Hout. rewrite Hc3 by assumption.
  rewrite Hsb. cbn [fst snd].
  destruct (Z.eqb_spec y' (y mod h)) as [->|]; [|now apply Hb].
  destruct (Z.eqb_spec x' (x mod w)) as [->|]; [|now apply Hb].
  exfalso. specialize (Hcx x Hx). specialize (Hcy y Hy).
  unfold in_bounds in Hout. lia.
Qed.

(** X3. A generation step never changes a cell outside the active rectangle
    that it computes at its start, whatever the chaos settings and the
    random draws; it keeps the size, the maxima and the chaos settings, and
    leaves the refreshed rectangle as the active bounds. *)
Theorem update_frame (self : GameOfLife) (r : Np.RandomState) :
  grid_ok self = true -> cells_valid self = true ->
  exists b self' r',
    update_active_bounds self = Some (with_active_bounds self b)
    /\ update self r = Some (self', r')
    /\ self' = with_grid (with_active_bounds self b) (grid self')
    /\ (forall y x, 0 <= y < height self -> 0 <= x < width self ->
          in_bounds b y x = false ->
          cell (grid self') y x = cell (grid self) y x).
Proof.
  intros Hg Hv.
  destruct (grid_ok_spec self Hg) as (Hw & Hs & Hwp & Hhp).
  destruct (update_active_bounds_wrap self Hg Hv)
    as (min_x & max_x & min_y & max_y & Hb & Hx0 & Hx1 & Hy0 & Hy1
        & Hcx & Hcy).
  exists (min_x, max_x, min_y, max_y).
  rewrite (update_spec_step self r Hg Hv). unfold spec_step.
  rewrite Hb. unfold Np.bind at 1. cbn [Np.lift].
  set (self1 := with_active_bounds self (min_x, max_x, min_y, max_y)).
  change (active_bounds self1) with (min_x, max_x, min_y, max_y).
  cbv beta iota.
  destruct ((max_x - min_x <=? 0) || (max_y - min_y <=? 0)).
  - exists self1, r. unfold Np.ret. repeat split; auto.
  - destruct (with_active_bounds_ok self (min_x, max_x, min_y, max_y))
      as [Hg1 Hv1]. fold self1 in Hg1, Hv1.
    rewrite Hg in Hg1. rewrite Hv in Hv1.
    destruct (scan_defined self1 min_x max_x min_y max_y (grid self1) r)
      as (g' & r' & E & _); auto.
    unfold Np.bind at 1. rewrite E. unfold Np.ret.
    exists (with_grid self1 g'), r'.
    split; [reflexivity|]. split; [reflexivity|]. split; [reflexivity|].
    intros y x Hy Hx Hout.
    apply (scan_frame (spec_cell self1) (height self) (width self)) in E
      as (_ & _ & Hf); auto.
    apply Hf; auto; lia.
Qed.

Lemma update_frame_witness :
  (exists b self' r',
     update_active_bounds
       (set_chaos_mode (loaded (tabulate 16 16 (block4 7 7 Red))) true
          Float.lit_0_3 Float.lit_0_1)
     = Some (with_active_bounds
               (set_chaos_mode (loaded (tabulate 16 16 (block4 7 7 Red)))
                  true Float.lit_0_3 Float.lit_0_1) b)
     /\ update
          (set_chaos_mode (loaded (tabulate 16 16 (block4 7 7 Red))) true
             Float.lit_0_3 Float.lit_0_1) draws_low
        = Some (self', r')
     /\ self'
        = with_grid
            (with_active_bounds
               (set_chaos_mode (loaded (tabulate 16 16 (block4 7 7 Red)))
                  true Float.lit_0_3 Float.lit_0_1) b)
            (grid self')
     /\ (forall y x, 0 <= y < 16 -> 0 <= x < 16 ->
           in_bounds b y x = false ->
           cell (grid self') y x
           = cell (tabulate 16 16 (block4 7 7 Red)) y x))
  /\ update_active_bounds
       (set_chaos_mode (loaded (tabulate 16 16 (block4 7 7 Red))) true
          Float.lit_0_3 Float.lit_0_1)
     = Some (with_active_bounds
               (set_chaos_mode (loaded (tabulate 16 16 (block4 7 7 Red)))
                  true Float.lit_0_3 Float.lit_0_1) (2, 14, 2, 14))
  /\ in_bounds (2, 14, 2, 14) 0 15 = false.
Proof.
  split; [|split; vm_compute; reflexivity].
  apply (update_frame
           (set_chaos_mode (loaded (tabulate 16 16 (block4 7 7 Red))) true
              Float.lit_0_3 Float.lit_0_1) draws_low);
    vm_compute; reflexivity.
Defined.

(** ** Fixed points of the step *)

Lemma all_cells_intro (p : Z -> bool) (a : Np.ndarray) :
  well_shaped a = true ->
  (forall y x, 0 <= y < fst (Np.shape a) -> 0 <= x < snd (Np.shape a) ->
     p (cell a y x) = true) ->
  all_cells p a = true.
Proof.
  intros Hw Hp. apply all_cells_spec. intros row v Hrow Hv.
  destruct (well_shaped_spec a Hw) as (Hh & Hw' & Hl & Hr).
  destruct (In_nth_error _ _ Hrow) as (n & En).
  destruct (In_nth_error _ _ Hv) as (m & Em).
  assert (Hn : (n < length (Np.items a))%nat)
    by (apply nth_error_Some; congruence).
  assert (Hm : (m < length row)%nat) by (apply nth_error_Some; congruence).
  rewrite (Hr _ Hrow) in Hm.
  specialize (Hp (Z.of_nat n) (Z.of_nat m)).
  unfold cell in Hp. rewrite !Nat2Z.id in Hp.
  rewrite (nth_error_nth _ _ _ En), (nth_error_nth _ _ _ Em) in Hp.
  apply Hp; lia.
Qed.

Lemma with_grid_same (self : GameOfLife) : with_grid self (grid self) = self.
Proof. destruct self; reflexivity. Qed.

Lemma overcrowded_mod (self : GameOfLife) (y x : Z) :
  overcrowded self (y mod height self) (x mod width self)
  = overcrowded self y x.
Proof.
  unfold overcrowded. now rewrite addressed_mod, living_neighbors_mod.
Qed.

(** Without chaos, a grid whose scanned cells are not overcrowded and are
    each mapped to themselves by the custom colour rules is left as it is,
    and no random number is drawn. *)
Lemma update_unchanged (self : GameOfLife) (b : Z * Z * Z * Z) :
  grid_ok self = true -> cells_valid self = true ->
  chaos_mode self = false ->
  update_active_bounds self = Some (with_active_bounds self b) ->
  (forall y x, 0 <= y < height self -> 0 <= x < width self ->
     in_bounds b y x = true ->
     overcrowded self y x = false
     /\ spec_custom (cell (grid self) y x) (living_neighbors self x y) 0
        = cell (grid self) y x) ->
  forall r, update self r = Some (with_active_bounds self b, r).
Proof.
  intros Hg Hv Hch Hb Hfix r.
  destruct (grid_ok_spec self Hg) as (Hw & Hs & Hwp & Hhp).
  destruct (update_active_bounds_wrap self Hg Hv)
    as (min_x & max_x & min_y & max_y & Hb' & Hx0 & Hx1 & Hy0 & Hy1
        & Hcx & Hcy).
  assert (Eb : b = (min_x, max_x, min_y, max_y)).
  { rewrite Hb in Hb'. injection Hb' as E. exact E. }
  subst b.
  rewrite (update_spec_step self r Hg Hv). unfold spec_step.
  rewrite Hb. unfold Np.bind at 1. cbn [Np.lift].
  set (self1 := with_active_bounds self (min_x, max_x, min_y, max_y)).
  change (active_bounds self1) with (min_x, max_x, min_y, max_y).
  cbv beta iota.
  destruct ((max_x - min_x <=? 0) || (max_y - min_y <=? 0)); [reflexivity|].
  unfold Np.bind at 1. unfold scan.
  rewrite for_fixed.
  - unfold Np.ret. now rewrite with_grid_same.
  - intros y r1 Hy. apply range_In in Hy. apply for_fixed.
    intros x r2 Hx. apply range_In in Hx.
    pose proof (Z.mod_pos_bound y (height self) Hhp) as Hym.
    pose proof (Z.mod_pos_bound x (width self) Hwp) as Hxm.
    destruct (Hfix (y mod height self) (x mod width self) Hym Hxm)
      as [Hcalm Hsame].
    { unfold in_bounds. specialize (Hcx x Hx). specialize (Hcy y Hy). lia. }
    rewrite overcrowded_mod in Hcalm.
    rewrite living_neighbors_mod in Hsame.
    unfold Np.bind.
    rewrite (spec_cell_calm self1 y x r2 Hch Hcalm), skip_0.
    change (addressed self1 y x) with (addressed self y x).
    change (living_neighbors self1 x y) with (living_neighbors self x y).
    unfold addressed at 1. rewrite Hsame.
    change (grid self1) with (grid self).
    replace (height self) with (fst (Np.shape (grid self)))
      by now rewrite Hs.
    replace (width self) with (snd (Np.shape (grid self)))
      by now rewrite Hs.
    unfold Np.lift. rewrite setitem_same; auto; rewrite Hs; cbn [fst snd]; lia.
Qed.

(** X4. Without chaos, a grid on which no cell is overcrowded and every
    cell is mapped to itself by the custom colour rules is a fixed point of
    the step: the grid is returned as it is and the random generator is not
    consulted; only the active bounds are refreshed. *)
Theorem update_fixed_point (self : GameOfLife) (r : Np.RandomState) :
  grid_ok self = true -> cells_valid self = true ->
  chaos_mode self = false ->
  (forall y x, 0 <= y < height self -> 0 <= x < width self ->
     overcrowded self y x = false
     /\ spec_custom (cell (grid self) y x) (living_neighbors self x y) 0
        = cell (grid self) y x) ->
  exists b,
    update_active_bounds self = Some (with_active_bounds self b)
    /\ update self r = Some (with_active_bounds self b, r).
Proof.
  intros Hg Hv Hch Hfix.
  destruct (update_active_bounds_total self) as (b & Hb).
  exists b. split; [exact Hb|].
  apply update_unchanged; auto.
Qed.

Lemma update_fixed_point_witness :
  exists b,
    update_active_bounds (loaded (tabulate 4 4 (block4 1 1 Blue)))
    = Some (with_active_bounds (loaded (tabulate 4 4 (block4 1 1 Blue))) b)
    /\ update (loaded (tabulate 4 4 (block4 1 1 Blue))) draws_low
       = Some (with_active_bounds (loaded (tabulate 4 4 (block4 1 1 Blue))) b,
               draws_low).
Proof.
  apply (update_fixed_point (loaded (tabulate 4 4 (block4 1 1 Blue)))
           draws_low); try reflexivity.
  intros y x Hy Hx. cbn in Hy, Hx.
  assert (Ey : y = 0 \/ y = 1 \/ y = 2 \/ y = 3) by lia.
  assert (Ex : x = 0 \/ x = 1 \/ x = 2 \/ x = 3) by lia.
  destruct Ey as [ -> | [ -> | [ -> | -> ] ] ];
    destruct Ex as [ -> | [ -> | [ -> | -> ] ] ];
    split; reflexivity.
Defined.

Lemma dead_neighbors (self : GameOfLife) (x y : Z) :
  grid_ok self = true ->
  (forall y x, 0 <= y < height self -> 0 <= x < width self ->
     cell (grid self) y x = Dead) ->
  living_neighbors self x y = [].
Proof.
  intros Hg Hd. destruct (grid_ok_spec self Hg) as (_ & _ & Hwp & Hhp).
  unfold living_neighbors, neighbor_cells, moore. cbn [map fst snd].
  rewrite !Hd by (apply Z.mod_pos_bound; lia). reflexivity.
Qed.

(** X5. The empty grid stays empty: without chaos, a step on a grid whose
    cells are all Dead returns the same grid, sets the active bounds to the
    two by two window at the centre and draws no random number. *)
Theorem empty_grid_stays_empty (self : GameOfLife) (r : Np.RandomState) :
  grid_ok self = true -> chaos_mode self = false ->
  (forall y x, 0 <= y < height self -> 0 <= x < width self ->
     cell (grid self) y x = Dead) ->
  update self r
  = Some (with_active_bounds self
            (width self / 2 - 1, width self / 2 + 1,
             height self / 2 - 1, height self / 2 + 1), r).
Proof.
  intros Hg Hch Hd.
  destruct (grid_ok_spec self Hg) as (Hw & Hs & Hwp & Hhp).
  assert (Hv : cells_valid self = true).
  { apply all_cells_intro; auto. rewrite Hs. cbn [fst snd].
    intros y x Hy Hx. now rewrite Hd. }
  apply update_unchanged; auto.
  - unfold update_active_bounds, Np.sum. fold (total_cells (grid self)).
    rewrite dead_total_zero; auto.
    intros y x (Hy & Hx & Hc). rewrite Hs in Hy, Hx. cbn [fst snd] in Hy, Hx.
    apply Hc. now apply Hd.
  - intros y x Hy Hx _. unfold overcrowded, addressed.
    rewrite (dead_neighbors self x y Hg Hd), !Hd;
      try (apply Z.mod_pos_bound; lia); auto.
Qed.

Lemma empty_grid_stays_empty_witness :
  exists self,
    init 6 4 500 500 = Some self
    /\ update self draws_high
       = Some (with_active_bounds self
                 (6 / 2 - 1, 6 / 2 + 1, 4 / 2 - 1, 4 / 2 + 1), draws_high).
Proof.
  eexists. split; [reflexivity|].
  refine (empty_grid_stays_empty _ draws_high _ _ _); try reflexivity.
  intros y x Hy Hx. cbn in Hy, Hx.
  assert (Ey : y = 0 \/ y = 1 \/ y = 2 \/ y = 3) by lia.
  assert (Ex : x = 0 \/ x = 1 \/ x = 2 \/ x = 3 \/ x = 4 \/ x = 5) by lia.
  destruct Ey as [ -> | [ -> | [ -> | -> ] ] ];
    destruct Ex as [ -> | [ -> | [ -> | [ -> | [ -> | -> ] ] ] ] ];
    reflexivity.
Defined.

Lemma block_rules (y0 x0 c y x : Z) (u : Q) :
  is_color c = true ->
  spec_custom (block4 y0 x0 c y x) (moore_colors (block4 y0 x0 c) y x) u
  = block4 y0 x0 c y x
  /\ spec_original (block4 y0 x0 c y x) (moore_colors (block4 y0 x0 c) y x)
     = block4 y0 x0 c y x
  /\ negb (block4 y0 x0 c y x =? Dead)
     && (5 <=? Z.of_nat (length (moore_colors (block4 y0 x0 c) y x))) = false.
Proof.
  intros Hc. unfold moore_colors, block4, moore.
  cbn [map fst snd].
  decide_comparisons; cbn [andb orb];
    destruct (is_color_cases c Hc) as [ -> | [ -> | [ -> | -> ] ] ];
    repeat split; reflexivity.
Qed.

(** The step on a pattern, with the number of draws: [k] for every cell of
    the rectangle. *)
Lemma update_pattern_draws (self : GameOfLife) (h w : Z) (f g : Z -> Z -> Z)
    (k : nat) (min_x max_x min_y max_y : Z) :
  grid self = tabulate h w f -> height self = h -> width self = w ->
  0 < h -> 0 < w ->
  (forall y x, is_cell_state (f y x) = true) ->
  (forall y x, f y x <> 0 -> 1 <= y <= h - 2 /\ 1 <= x <= w - 2) ->
  update_active_bounds self =
  Some (with_active_bounds self (min_x, max_x, min_y, max_y)) ->
  0 <= min_x < max_x -> max_x <= w -> 0 <= min_y < max_y -> max_y <= h ->
  (forall y x r,
     0 <= y < h -> 0 <= x < w ->
     in_bounds (min_x, max_x, min_y, max_y) y x = true ->
     (rl <- spec_dispatch (chaos_mode self) (rule_randomness self)
              (chaos_probability self) ;;
      spec_apply rl (f y x) (moore_colors f y x)) r
     = Some (g y x, skip k r)) ->
  (forall y x,
     0 <= y < h -> 0 <= x < w ->
     in_bounds (min_x, max_x, min_y, max_y) y x = false -> g y x = f y x) ->
  forall r,
    update self r =
    Some (with_grid (with_active_bounds self (min_x, max_x, min_y, max_y))
            (tabulate h w g),
          skip (k * (Z.to_nat (max_y - min_y) * Z.to_nat (max_x - min_x))) r).
Proof.
  intros Hg Hh Hw Hhp Hwp Hval Hsup Hb Hx0 Hx1 Hy0 Hy1 Hrule Hout r.
  assert (Hws : well_shaped (grid self) = true)
    by (rewrite Hg; apply tabulate_well_shaped; lia).
  assert (Hok : grid_ok self = true).
  { unfold grid_ok. rewrite Hws, Hg, Hh, Hw. cbn [tabulate Np.shape fst snd].
    rewrite !Z.eqb_refl. cbn [andb]. lia. }
  assert (Hcv : cells_valid self = true).
  { unfold cells_valid. rewrite Hg. now apply tabulate_all_cells. }
  rewrite (update_spec_step self r Hok Hcv).
  unfold spec_step. rewrite Hb. unfold Np.bind at 1. cbn [Np.lift].
  set (self1 := with_active_bounds self (min_x, max_x, min_y, max_y)).
  change (active_bounds self1) with (min_x, max_x, min_y, max_y).
  cbv beta iota.
  replace ((max_x - min_x <=? 0) || (max_y - min_y <=? 0)) with false by lia.
  unfold Np.bind at 1.
  rewrite (scan_paint self1 g k).
  2:{ intros y x r' Hy Hx. unfold spec_cell.
      destruct (torus_neighbors self1 h w f y x) as [-> ->]; auto; try lia.
      apply Hrule; try lia. unfold in_bounds. lia. }
  change (grid self1) with (grid self).
  destruct (paint_cell g (Py.range min_y max_y) (Py.range min_x max_x)
              (grid self) Hws) as (g' & -> & Hw' & Hs' & Hc').
  { intros y Hy. apply range_In in Hy. rewrite Hg. cbn. lia. }
  { intros x Hx. apply range_In in Hx. rewrite Hg. cbn. lia. }
  rewrite !range_length. unfold Np.ret. do 3 f_equal.
  apply ndarray_ext; auto.
  - apply tabulate_well_shaped; lia.
  - now rewrite Hs', Hg.
  - rewrite Hs', Hg. cbn [tabulate Np.shape fst snd]. intros y x Hy Hx.
    rewrite Hc' by lia. rewrite !in_range, Hg, !tabulate_cell by lia.
    destruct ((min_y <=? y) && (y <? max_y) && ((min_x <=? x) && (x <? max_x)))
      eqn:E; [reflexivity|].
    symmetry. apply Hout; auto. unfold in_bounds. lia.
Qed.

(** X6. The 2 by 2 block of one colour, away from the edges of the grid, is
    a still life of the engine.  The step returns the grid unchanged, with
    the block widened by the margin of 5 (clipped to the grid) as active
    rectangle.  Without chaos it draws nothing; with chaos forced onto the
    original rules (both probabilities zero) it makes exactly two draws for
    every cell of that rectangle. *)
Theorem block_still_life (self : GameOfLife) (h w y0 x0 c : Z)
    (r : Np.RandomState) :
  grid self = tabulate h w (block4 y0 x0 c) ->
  height self = h -> width self = w -> bounds_margin self = 5 ->
  is_color c = true -> 1 <= x0 -> x0 + 3 < w -> 1 <= y0 -> y0 + 3 < h ->
  (chaos_mode self = true ->
   rule_randomness self = 0%Q /\ chaos_probability self = 0%Q) ->
  let min_x := Z.max 0 (x0 - 5) in
  let max_x := Z.min w (x0 + 7) in
  let min_y := Z.max 0 (y0 - 5) in
  let max_y := Z.min h (y0 + 7) in
  let scanned := (Z.to_nat (max_y - min_y) * Z.to_nat (max_x - min_x))%nat in
  update self r
  = Some (with_active_bounds self (min_x, max_x, min_y, max_y),
          skip ((if chaos_mode self then 2 else 0) * scanned) r).
Proof.
  intros Hg Hh Hw Hm Hc Hx0 Hx1 Hy0 Hy1 Hforced min_x max_x min_y max_y
    scanned.
  assert (Hsup : forall y x, block4 y0 x0 c y x <> 0 ->
             y0 <= y <= y0 + 1 /\ x0 <= x <= x0 + 1).
  { intros y x. unfold block4, Dead.
    destruct ((y0 <=? y) && (y <=? y0 + 1) && (x0 <=? x) && (x <=? x0 + 1))
      eqn:E; [lia|congruence]. }
  assert (Hin : forall y x, y0 <= y <= y0 + 1 -> x0 <= x <= x0 + 1 ->
             block4 y0 x0 c y x <> 0).
  { intros y x Hy Hx. unfold block4.
    replace ((y0 <=? y) && (y <=? y0 + 1) && (x0 <=? x) && (x <=? x0 + 1))
      with true by lia.
    now apply color_not_dead. }
  assert (Hval : forall y x, is_cell_state (block4 y0 x0 c y x) = true).
  { intros y x. unfold block4.
    destruct ((y0 <=? y) && (y <=? y0 + 1) && (x0 <=? x) && (x <=? x0 + 1));
      [|reflexivity].
    unfold is_color in Hc. unfold is_cell_state. lia. }
  assert (Hb : update_active_bounds self
               = Some (with_active_bounds self (min_x, max_x, min_y, max_y))).
  { unfold min_x, max_x, min_y, max_y.
    replace (x0 + 7) with (x0 + 1 + 6) by lia.
    replace (y0 + 7) with (y0 + 1 + 6) by lia.
    apply (pattern_bounds self h w (block4 y0 x0 c) y0 x0
             x0 (x0 + 1) y0 (y0 + 1) y0 y0 x0 x0); auto; try lia.
    - intros y x H. apply Hsup in H. lia.
    - intros y x H. apply Hsup in H. lia.
    - apply Hin; lia.
    - apply Hin; lia.
    - apply Hin; lia.
    - apply Hin; lia. }
  assert (Hsame : with_grid
                    (with_active_bounds self (min_x, max_x, min_y, max_y))
                    (tabulate h w (block4 y0 x0 c))
                  = with_active_bounds self (min_x, max_x, min_y, max_y)).
  { rewrite <- Hg. destruct self; reflexivity. }
  rewrite <- Hsame.
  apply (update_pattern_draws self h w (block4 y0 x0 c) (block4 y0 x0 c));
    auto; try (unfold min_x, max_x, min_y, max_y; lia).
  - intros y x H. apply Hsup in H. lia.
  - intros y x r' _ _ _.
    destruct (block_rules y0 x0 c y x 0 Hc) as (Ecus & Eorig & Ocalm).
    assert (Hch : chaos_mode self = true \/ chaos_mode self = false)
      by (destruct (chaos_mode self); auto).
    destruct Hch as [Hch|Hch].
    + destruct (Hforced Hch) as [Hrr Hcp].
      rewrite forced_original, Eorig by assumption. now rewrite Hch.
    + rewrite calm_custom, Ecus by assumption. now rewrite Hch.
Qed.

Lemma block_still_life_witness :
  update (loaded (tabulate 6 6 (block4 2 2 Green))) draws_high
  = Some (with_active_bounds (loaded (tabulate 6 6 (block4 2 2 Green)))
            (Z.max 0 (2 - 5), Z.min 6 (2 + 7),
             Z.max 0 (2 - 5), Z.min 6 (2 + 7)),
          skip (0 * (Z.to_nat (Z.min 6 (2 + 7) - Z.max 0 (2 - 5))
                     * Z.to_nat (Z.min 6 (2 + 7) - Z.max 0 (2 - 5))))
            draws_high)
  /\ update
       (set_chaos_mode (loaded (tabulate 6 6 (block4 2 2 Green))) true 0 0)
       draws_high
     = Some (with_active_bounds
               (set_chaos_mode (loaded (tabulate 6 6 (block4 2 2 Green)))
                  true 0 0)
               (Z.max 0 (2 - 5), Z.min 6 (2 + 7),
                Z.max 0 (2 - 5), Z.min 6 (2 + 7)),
             skip (2 * (Z.to_nat (Z.min 6 (2 + 7) - Z.max 0 (2 - 5))
                        * Z.to_nat (Z.min 6 (2 + 7) - Z.max 0 (2 - 5))))
               draws_high).
Proof.
  split.
  - apply (block_still_life (loaded (tabulate 6 6 (block4 2 2 Green)))
             6 6 2 2 Green draws_high); try reflexivity; try lia.
    intros H. discriminate H.
  - apply (block_still_life
             (set_chaos_mode (loaded (tabulate 6 6 (block4 2 2 Green)))
                true 0 0)
             6 6 2 2 Green draws_high); try reflexivity; try lia.
    intros _. split; reflexivity.
Defined.

(** ** Where the step raises *)

Lemma for_fails {A S : Type} (l : list A) (body : S -> A -> Np.M S) (a : A) :
  In a l -> (forall s r, body s a r = None) ->
  forall s r, Np.for_ l body s r = None.
Proof.
  induction l as [|b l IH]; intros Hin Hfail s r; [destruct Hin|].
  rewrite for_cons. destruct Hin as [->|Hin].
  - now rewrite Hfail.
  - destruct (body s b r) as [[s' r']|]; [|reflexivity]. now apply IH.
Qed.

Lemma py_for_preserves {A S : Type} (P : S -> Prop) (l : list A)
    (body : S -> A -> option S) :
  (forall s a s', P s -> body s a = Some s' -> P s') ->
  forall s s', P s -> Py.for_ l body s = Some s' -> P s'.
Proof.
  intros Hbody. induction l as [|a l IH]; intros s s' Ps E.
  - injection E as <-. exact Ps.
  - cbn [Py.for_] in E. destruct (body s a) as [s1|] eqn:E1; [|discriminate].
    cbn [Py.bind] in E. apply (IH s1 s'); auto. apply (Hbody s a); auto.
Qed.

Lemma py_for_fails {A S : Type} (P : S -> Prop) (l : list A)
    (body : S -> A -> option S) (a : A) :
  In a l -> (forall s, P s -> body s a = None) ->
  (forall s b s', P s -> body s b = Some s' -> P s') ->
  forall s, P s -> Py.for_ l body s = None.
Proof.
  intros Hin Hfail Hbody. induction l as [|b l IH]; intros s Ps;
    [destruct Hin|].
  cbn [Py.for_]. destruct Hin as [->|Hin].
  - now rewrite Hfail.
  - destruct (body s b) as [s'|] eqn:E; [|reflexivity]. cbn [Py.bind].
    apply IH; auto. apply (Hbody s b); auto.
Qed.

Lemma iadd_keys (d d' : Py.dict) (k n : Z) :
  Py.iadd d k n = Some d' -> Py.keys d' = Py.keys d.
Proof.
  revert d'. induction d as [|[k' v] d IH]; intros d' E; [discriminate|].
  cbn [Py.iadd] in E. destruct (k' =? k).
  - injection E as <-. reflexivity.
  - destruct (Py.iadd d k n) as [d''|]; [|discriminate].
    cbn [Py.bind] in E. injection E as <-.
    cbn [Py.keys map fst]. f_equal. now apply IH.
Qed.

Lemma iadd_absent (d : Py.dict) (k n : Z) :
  ~ In k (Py.keys d) -> Py.iadd d k n = None.
Proof.
  induction d as [|[k' v] d IH]; intros Hk; [reflexivity|].
  cbn [Py.iadd]. cbn [Py.keys map fst In] in Hk.
  destruct (Z.eqb_spec k' k) as [->|Hne]; [tauto|].
  rewrite IH by tauto. reflexivity.
Qed.

(** The neighbour count of a cell raises [KeyError] when one of its
    neighbours holds a value that is not a colour. *)
Lemma get_neighbors_by_color_raises (self : GameOfLife) (x y dx dy v : Z) :
  grid_ok self = true ->
  In dx [-1; 0; 1] -> In dy [-1; 0; 1] -> (dx =? 0) && (dy =? 0) = false ->
  cell (grid self) ((y + dy) mod height self) ((x + dx) mod width self) = v ->
  4 < v ->
  get_neighbors_by_color self x y = None.
Proof.
  intros Hg Hdx Hdy Hd Hc Hv.
  destruct (grid_ok_spec self Hg) as (Hw & Hs & Hwp & Hhp).
  unfold get_neighbors_by_color.
  set (P := fun acc : Py.dict * list Z => Py.keys (fst acc) = [1; 2; 3; 4]).
  assert (Hstep : forall dx' (acc : Py.dict * list Z) dy' acc',
             P acc ->
             (if (dx' =? 0) && (dy' =? 0) then Some acc
              else
                let? nx := Py.mod_ (x + dx') (width self) in
                let? ny := Py.mod_ (y + dy') (height self) in
                let? neighbor_color := Np.getitem (grid self) ny nx in
                if neighbor_color >? 0 then
                  let? color_counts := Py.iadd (fst acc) neighbor_color 1 in
                  Some (color_counts, snd acc ++ [neighbor_color])
                else Some acc) = Some acc' -> P acc').
  { intros dx' acc dy' acc' Pa E. destruct ((dx' =? 0) && (dy' =? 0)).
    - now injection E as <-.
    - destruct (Py.mod_ (x + dx') (width self)); [|discriminate].
      cbn [Py.bind] in E.
      destruct (Py.mod_ (y + dy') (height self)); [|discriminate].
      cbn [Py.bind] in E.
      destruct (Np.getitem (grid self) z0 z) as [c|]; [|discriminate].
      cbn [Py.bind] in E. destruct (c >? 0).
      + destruct (Py.iadd (fst acc) c 1) as [d|] eqn:Ei; [|discriminate].
        cbn [Py.bind] in E. injection E as <-. unfold P. cbn [fst].
        now rewrite (iadd_keys _ _ _ _ Ei).
      + now injection E as <-. }
  rewrite (py_for_fails P _ _ dx); auto; [| |reflexivity].
  - intros acc Pa. apply (py_for_fails P _ _ dy); auto.
    + intros acc' Pa'. rewrite Hd.
      unfold Py.mod_.
      replace (width self =? 0) with false by lia.
      replace (height self =? 0) with false by lia.
      cbn [Py.bind].
      rewrite getitem_cell; auto;
        try (rewrite Hs; cbn [fst snd]; apply Z.mod_pos_bound; lia).
      cbn [Py.bind]. rewrite Hc.
      replace (v >? 0) with true by lia.
      rewrite iadd_absent; [reflexivity|].
      rewrite Pa'. cbn [In]. lia.
    + intros acc1 dy' acc2. apply Hstep.
  - intros acc dx' acc' Pa E.
    refine (py_for_preserves P _ _ _ acc acc' Pa E).
    intros s a s'. apply Hstep.
Qed.

(** X7. A grid that holds a value above 4 makes every later step fail: the
    cell lies inside the refreshed active rectangle, and the neighbour count
    of the cell beside it raises [KeyError], whatever the chaos settings and
    the random draws. *)
Theorem update_raises_on_invalid_cell (self : GameOfLife) (y0 x0 : Z)
    (r : Np.RandomState) :
  grid_ok self = true -> all_cells is_uint8 (grid self) = true ->
  total_cells (grid self) < 18446744073709551616 ->
  1 <= bounds_margin self ->
  0 <= y0 < height self -> 0 <= x0 < width self ->
  4 < cell (grid self) y0 x0 ->
  update self r = None.
Proof.
  intros Hg Hu Ht Hm Hy0 Hx0 Hv.
  destruct (grid_ok_spec self Hg) as (Hw & Hs & Hwp & Hhp).
  assert (Ha : alive (grid self) y0 x0).
  { unfold alive. rewrite Hs. cbn [fst snd]. lia. }
  assert (Hsum : (Np.sum (grid self) =? 0) = false).
  { destruct (Np.sum (grid self) =? 0) eqn:E; [|reflexivity].
    pose proof (proj1 (sum_zero_dead _ Hw Hu Ht) E) as Hd.
    now destruct (Hd y0 x0). }
  destruct (update_active_bounds_alive self Hw Hu Hsum)
    as (mx & Mx & my & My & (Hbox & _) & Hb); [now exists y0, x0|].
  destruct (Hbox y0 x0 Ha) as [Hbx Hby].
  set (xc := if x0 + 1 <? width self then x0 + 1
             else if 1 <=? x0 then x0 - 1 else x0).
  set (dx := if x0 + 1 <? width self then -1 else 1).
  assert (Hxc : Z.max 0 (mx - bounds_margin self) <= xc
                < Z.min (width self) (Mx + bounds_margin self + 1)).
  { unfold xc. destruct (x0 + 1 <? width self) eqn:E1;
      [lia|destruct (1 <=? x0) eqn:E2; lia]. }
  assert (Hdx : In dx [-1; 0; 1] /\ (dx =? 0) && (0 =? 0) = false
                /\ (xc + dx) mod width self = x0).
  { unfold xc, dx. destruct (x0 + 1 <? width self) eqn:E1.
    - split; [cbn; auto|]. split; [reflexivity|].
      rewrite Z.mod_small; lia.
    - split; [cbn; auto|]. split; [reflexivity|].
      destruct (1 <=? x0) eqn:E2.
      + rewrite Z.mod_small; lia.
      + replace (width self) with 1 by lia.
        rewrite Z.mod_1_r. lia. }
  destruct Hdx as (Hin & Hnz & Hmod).
  assert (Hcell : forall g r', update_cell self g y0 xc r' = None).
  { intros g r'. unfold update_cell, Np.bind, Np.lift.
    rewrite (get_neighbors_by_color_raises self xc y0 dx 0
               (cell (grid self) y0 x0)); auto.
    - cbn; auto.
    - rewrite Hmod, Z.add_0_r, Z.mod_small; auto. }
  unfold update. rewrite Hb. unfold Np.bind at 1. cbn [Np.lift].
  set (self1 := with_active_bounds self _).
  cbn [active_bounds self1 with_active_bounds].
  destruct (_ || _) eqn:Hdeg; [exfalso; lia|].
  unfold Np.bind.
  rewrite (for_fails _ _ y0); auto.
  - apply range_In. lia.
  - intros g r1. apply (for_fails _ _ xc).
    + apply range_In. lia.
    + intros g' r2. apply Hcell.
Qed.

Lemma update_raises_on_invalid_cell_witness :
  update
    (loaded (tabulate 3 3 (fun y x => if (y =? 1) && (x =? 1) then 7 else 0)))
    draws_low = None.
Proof.
  apply (update_raises_on_invalid_cell _ 1 1 draws_low);
    try reflexivity; cbn; lia.
Defined.

(** X8. On an engine with a zero width or a zero height every step fails:
    the scan of the window at the centre of the empty grid takes the
    coordinates of a neighbour modulo zero ([ZeroDivisionError]). *)
Theorem update_raises_on_empty_axis (self : GameOfLife)
    (r : Np.RandomState) :
  well_shaped (grid self) = true ->
  Np.shape (grid self) = (height self, width self) ->
  width self = 0 \/ height self = 0 ->
  update self r = None.
Proof.
  intros Hw Hs H0.
  assert (Hsum : Np.sum (grid self) = 0).
  { unfold Np.sum. fold (total_cells (grid self)).
    rewrite dead_total_zero; auto.
    intros y x (Hy & Hx & _). rewrite Hs in Hy, Hx. cbn [fst snd] in Hy, Hx.
    lia. }
  assert (Hcell : forall g y x r', update_cell self g y x r' = None).
  { intros g y x r'. unfold update_cell, get_neighbors_by_color, Py.mod_.
    cbn [Py.for_ Py.bind Z.eqb andb].
    destruct H0 as [-> | ->]; [reflexivity|].
    destruct (width self =? 0); reflexivity. }
  unfold update, update_active_bounds. rewrite Hsum.
  cbn [Z.eqb]. unfold Np.bind at 1. cbn [Np.lift].
  cbn [active_bounds with_active_bounds].
  replace (_ || _) with false by lia.
  unfold Np.bind.
  rewrite (for_fails _ _ (height self / 2 - 1)); auto.
  - apply range_In. lia.
  - intros g r1. apply (for_fails _ _ (width self / 2 - 1)).
    + apply range_In. lia.
    + intros g' r2. apply Hcell.
Qed.

Lemma update_raises_on_empty_axis_witness :
  exists self, init 0 3 500 500 = Some self /\ update self draws_low = None.
Proof.
  eexists. split; [reflexivity|].
  apply (update_raises_on_empty_axis _ draws_low);
    [reflexivity | reflexivity | left; reflexivity].
Defined.

(** ** Neighbour counts and the two rule sets *)

(** X9. The neighbour count of any cell of a valid grid succeeds; it lists
    at most eight neighbours, all of them colours, counts each colour as
    often as it is listed, and its total is both the sum of the four counts
    and the number of listed neighbours.  The eight cells that are read are
    the ones around the coordinates taken modulo the size. *)
Theorem get_neighbors_by_color_counts (self : GameOfLife) (x y : Z) :
  grid_ok self = true -> cells_valid self = true ->
  exists color_counts total_neighbors neighbors,
    get_neighbors_by_color self x y
    = Some (color_counts, total_neighbors, neighbors)
    /\ get_neighbors_by_color self (x mod width self) (y mod height self)
       = Some (color_counts, total_neighbors, neighbors)
    /\ Py.keys color_counts = [1; 2; 3; 4]
    /\ (forall c, Py.get color_counts c 0 = count_color neighbors c)
    /\ forallb is_color neighbors = true
    /\ total_neighbors = Z.of_nat (length neighbors)
    /\ total_neighbors = Py.sum (Py.values color_counts)
    /\ 0 <= total_neighbors <= 8.
Proof.
  intros Hg Hv.
  pose proof (living_neighbors_colors self x y Hg Hv) as Hc.
  do 3 eexists. split; [apply get_neighbors_by_color_spec; auto|].
  split.
  { rewrite get_neighbors_by_color_spec, living_neighbors_mod; auto. }
  split; [reflexivity|].
  split; [intros c; now apply get_counts_of|].
  split; [exact Hc|]. split; [reflexivity|].
  split; [now rewrite counts_of_sum|].
  split; [lia|].
  unfold living_neighbors.
  pose proof (filter_length_le (fun c => c >? 0) (neighbor_cells self x y))
    as Hl.
  assert (H8 : length (neighbor_cells self x y) = 8%nat)
    by (unfold neighbor_cells; now rewrite length_map).
  fold (neighbor_cells self x y) in Hl. lia.
Qed.

Lemma get_neighbors_by_color_counts_witness :
  exists color_counts total_neighbors neighbors,
    get_neighbors_by_color (loaded red_block) 3 3
    = Some (color_counts, total_neighbors, neighbors)
    /\ get_neighbors_by_color (loaded red_block)
         (3 mod width (loaded red_block)) (3 mod height (loaded red_block))
       = Some (color_counts, total_neighbors, neighbors)
    /\ Py.keys color_counts = [1; 2; 3; 4]
    /\ (forall c, Py.get color_counts c 0 = count_color neighbors c)
    /\ forallb is_color neighbors = true
    /\ total_neighbors = Z.of_nat (length neighbors)
    /\ total_neighbors = Py.sum (Py.values color_counts)
    /\ 0 <= total_neighbors <= 8.
Proof.
  apply (get_neighbors_by_color_counts (loaded red_block) 3 3); reflexivity.
Defined.

(** X10. The custom colour rules and the original rules differ only for a
    living cell with exactly one or with four or more living neighbours: for
    a dead cell, and for a living cell with 0, 2 or 3 neighbours, the custom
    rules return what the original rules return, and draw nothing. *)
Theorem custom_rules_agree_with_original (x y current_color : Z)
    (color_counts : Py.dict) (total_neighbors dominant_color : Z)
    (r : Np.RandomState) :
  current_color <= 0 \/ total_neighbors <= 0
  \/ total_neighbors = 2 \/ total_neighbors = 3 ->
  apply_custom_color_rules x y current_color color_counts total_neighbors
    dominant_color r
  = Some (apply_original_conway_rules x y current_color total_neighbors
            dominant_color, r).
Proof.
  intros H. unfold apply_custom_color_rules, apply_original_conway_rules.
  destruct (current_color >? 0) eqn:Ec; [|destruct (_ =? 3); reflexivity].
  destruct H as [H|[H|[->| ->]]]; [lia| |reflexivity|reflexivity].
  replace (total_neighbors >=? 5) with false by lia.
  replace (Py.in_ total_neighbors [2; 3]) with false
    by (unfold Py.in_; cbn [existsb]; lia).
  replace (total_neighbors >=? 4) with false by lia.
  replace (total_neighbors =? 1) with false by lia.
  reflexivity.
Qed.

Lemma custom_rules_agree_with_original_witness :
  apply_custom_color_rules 0 0 Green (counts_of [Red; Blue]) 2 Red draws_low
  = Some (apply_original_conway_rules 0 0 Green 2 Red, draws_low).
Proof.
  apply (custom_rules_agree_with_original 0 0 Green (counts_of [Red; Blue])
           2 Red draws_low).
  right. right. left. reflexivity.
Defined.

(** ** Painting *)

(** Two nested loops that write [v dy dx] at the offset [(dy, dx)] from
    [(oy, ox)] wherever the guard [c] holds. *)
Lemma guarded_row (c : Z -> bool) (v : Z -> Z) (y ox : Z) (xs : list Z)
    (g : Np.ndarray) :
  well_shaped g = true -> 0 <= y < fst (Np.shape g) ->
  (forall dx, In dx xs -> c dx = true -> 0 <= ox + dx < snd (Np.shape g)) ->
  exists g',
    Py.for_ xs
      (fun g dx => if c dx then Np.setitem g y (ox + dx) (v dx) else Some g)
      g = Some g'
    /\ well_shaped g' = true /\ Np.shape g' = Np.shape g
    /\ (forall y' x', 0 <= y' -> 0 <= x' ->
          cell g' y' x' =
          if (y' =? y) && Py.in_ (x' - ox) xs && c (x' - ox)
          then v (x' - ox) else cell g y' x').
Proof.
  revert g. induction xs as [|d xs IH]; intros g Hw Hy Hxs.
  - exists g. cbn [Py.for_ Py.in_ existsb]. repeat split; auto.
    intros. now rewrite andb_false_r.
  - assert (Hstep : exists g1,
               (if c d then Np.setitem g y (ox + d) (v d) else Some g)
               = Some g1
               /\ well_shaped g1 = true /\ Np.shape g1 = Np.shape g
               /\ (forall y' x', 0 <= y' -> 0 <= x' ->
                     cell g1 y' x' =
                     if (y' =? y) && (x' - ox =? d) && c d then v d
                     else cell g y' x')).
    { destruct (c d) eqn:Ec.
      - destruct (setitem_cell g y (ox + d) (v d) Hw Hy)
          as (g1 & E1 & Hs1 & Hw1 & Hc1); [apply Hxs; auto; now left|].
        exists g1. repeat split; auto. intros y' x' Hy' Hx'.
        rewrite Hc1 by assumption. rewrite andb_true_r.
        now replace (x' - ox =? d) with (x' =? ox + d) by lia.
      - exists g. repeat split; auto. intros. now rewrite andb_false_r. }
    destruct Hstep as (g1 & E1 & Hw1 & Hs1 & Hc1).
    destruct (IH g1 Hw1) as (g2 & E2 & Hw2 & Hs2 & Hc2).
    + now rewrite Hs1.
    + intros. rewrite Hs1. apply Hxs; auto. now right.
    + exists g2. cbn [Py.for_]. rewrite E1. cbn [Py.bind].
      split; [assumption|]. split; [assumption|]. split; [congruence|].
      intros y' x' Hy' Hx'. rewrite Hc2, Hc1 by assumption.
      rewrite in_cons.
      destruct (Z.eqb_spec y' y) as [->|]; cbn [andb]; [|reflexivity].
      destruct (Z.eqb_spec (x' - ox) d) as [->|]; cbn [orb andb].
      * destruct (Py.in_ d xs); cbn [andb]; now destruct (c d).
      * reflexivity.
Qed.

Lemma guarded_rows (c : Z -> Z -> bool) (v : Z -> Z -> Z) (oy ox : Z)
    (ys xs : list Z) (g : Np.ndarray) :
  well_shaped g = true ->
  (forall dy dx, In dy ys -> In dx xs -> c dy dx = true ->
     0 <= oy + dy < fst (Np.shape g) /\ 0 <= ox + dx < snd (Np.shape g)) ->
  exists g',
    Py.for_ ys
      (fun g dy =>
         Py.for_ xs
           (fun g dx =>
              if c dy dx then Np.setitem g (oy + dy) (ox + dx) (v dy dx)
              else Some g) g) g = Some g'
    /\ well_shaped g' = true /\ Np.shape g' = Np.shape g
    /\ (forall y' x', 0 <= y' -> 0 <= x' ->
          cell g' y' x' =
          if Py.in_ (y' - oy) ys && Py.in_ (x' - ox) xs
             && c (y' - oy) (x' - ox)
          then v (y' - oy) (x' - ox) else cell g y' x').
Proof.
  revert g. induction ys as [|d ys IH]; intros g Hw Hin.
  - exists g. cbn [Py.for_ Py.in_ existsb andb]. repeat split; auto.
  - assert (Hrow : exists g1,
               Py.for_ xs
                 (fun g dx =>
                    if c d dx then Np.setitem g (oy + d) (ox + dx) (v d dx)
                    else Some g) g = Some g1
               /\ well_shaped g1 = true /\ Np.shape g1 = Np.shape g
               /\ (forall y' x', 0 <= y' -> 0 <= x' ->
                     cell g1 y' x' =
                     if (y' - oy =? d) && Py.in_ (x' - ox) xs
                        && c d (x' - ox)
                     then v d (x' - ox) else cell g y' x')).
    { destruct (existsb (c d) xs) eqn:Ex.
      - apply existsb_exists in Ex as (dx0 & Hdx0 & Hc0).
        destruct (Hin d dx0 (or_introl eq_refl) Hdx0 Hc0) as [Hy _].
        destruct (guarded_row (c d) (v d) (oy + d) ox xs g Hw Hy)
          as (g1 & E1 & Hw1 & Hs1 & Hc1).
        { intros dx Hdx Hc. apply (Hin d dx); auto. now left. }
        exists g1. repeat split; auto. intros y' x' Hy' Hx'.
        rewrite Hc1 by assumption.
        now replace (y' - oy =? d) with (y' =? oy + d) by lia.
      - exists g. split.
        + clear IH Hin. induction xs as [|dx xs IHx]; [reflexivity|].
          cbn [existsb] in Ex. apply orb_false_iff in Ex as [E0 Ex].
          cbn [Py.for_]. rewrite E0. cbn [Py.bind]. now apply IHx.
        + repeat split; auto. intros y' x' Hy' Hx'.
          destruct (Py.in_ (x' - ox) xs) eqn:Ei;
            [|now rewrite andb_false_r].
          apply existsb_exists in Ei as (z & Hz & Ez).
          apply Z.eqb_eq in Ez. subst z.
          assert (Ec : c d (x' - ox) = false).
          { destruct (c d (x' - ox)) eqn:Ec; [|reflexivity].
            assert (Hex : existsb (c d) xs = true)
              by (apply existsb_exists; eauto).
            congruence. }
          rewrite Ec. now rewrite andb_false_r. }
    destruct Hrow as (g1 & E1 & Hw1 & Hs1 & Hc1).
    destruct (IH g1 Hw1) as (g2 & E2 & Hw2 & Hs2 & Hc2).
    + intros. rewrite Hs1. apply Hin; auto. now right.
    + exists g2. cbn [Py.for_]. rewrite E1. cbn [Py.bind].
      split; [assumption|]. split; [assumption|]. split; [congruence|].
      intros y' x' Hy' Hx'. rewrite Hc2, Hc1 by assumption.
      rewrite in_cons.
      destruct (Z.eqb_spec (y' - oy) d) as [->|]; cbn [andb orb];
        [|reflexivity].
      destruct (Py.in_ d ys); cbn [andb]; [|reflexivity].
      now destruct (Py.in_ (x' - ox) xs && _).
Qed.

(** The two loops of [paint_cell] on the grid of the engine [game1]. *)
Lemma brush_loop (self : GameOfLifeVisualizer.visualizer)
    (game1 : GameOfLife) (center_x center_y : Z) :
  well_shaped (grid game1) = true ->
  Np.shape (grid game1) = (height game1, width game1) ->
  exists grid1,
    Py.for_
      (Py.range (- GameOfLifeVisualizer.brush_size self + 1)
         (GameOfLifeVisualizer.brush_size self))
      (fun grid1 dy =>
         Py.for_
           (Py.range (- GameOfLifeVisualizer.brush_size self + 1)
              (GameOfLifeVisualizer.brush_size self))
           (fun grid1 dx =>
              let grid_x := center_x + dx in
              let grid_y := center_y + dy in
              if (dx * dx + dy * dy
                  <? GameOfLifeVisualizer.brush_size self
                     * GameOfLifeVisualizer.brush_size self)
                 && ((0 <=? grid_x) && (grid_x <? width game1))
                 && ((0 <=? grid_y) && (grid_y <? height game1))
              then
                if GameOfLifeVisualizer.paint_mode self then
                  Np.setitem grid1 grid_y grid_x
                    (GameOfLifeVisualizer.current_color self)
                else Np.setitem grid1 grid_y grid_x 0
              else Some grid1)
           grid1)
      (grid game1) = Some grid1
    /\ well_shaped grid1 = true
    /\ Np.shape grid1 = (height game1, width game1)
    /\ (forall y x, 0 <= y < height game1 -> 0 <= x < width game1 ->
          cell grid1 y x =
          if brushed (GameOfLifeVisualizer.brush_size self)
               center_y center_x y x
          then (if GameOfLifeVisualizer.paint_mode self
                then GameOfLifeVisualizer.current_color self else Dead)
          else cell (grid game1) y x).
Proof.
  intros Hw Hs.
  set (b := GameOfLifeVisualizer.brush_size self).
  set (c := fun dy dx : Z =>
              (dx * dx + dy * dy <? b * b)
              && ((0 <=? center_x + dx) && (center_x + dx <? width game1))
              && ((0 <=? center_y + dy) && (center_y + dy <? height game1))).
  set (v := fun _ _ : Z =>
              if GameOfLifeVisualizer.paint_mode self
              then GameOfLifeVisualizer.current_color self else Dead).
  destruct (guarded_rows c v center_y center_x
              (Py.range (- b + 1) b) (Py.range (- b + 1) b) (grid game1) Hw)
    as (grid1 & E & Hw1 & Hs1 & Hc1).
  { intros dy dx _ _ Hc. unfold c in Hc. rewrite Hs. cbn [fst snd]. lia. }
  exists grid1. split.
  - rewrite <- E. unfold c, v, Dead.
    destruct (GameOfLifeVisualizer.paint_mode self); reflexivity.
  - split; [assumption|]. split; [congruence|].
    intros y x Hy Hx. rewrite Hc1 by lia. rewrite !in_range.
    unfold v.
    replace ((- b + 1 <=? y - center_y) && (y - center_y <? b)
             && ((- b + 1 <=? x - center_x) && (x - center_x <? b))
             && c (y - center_y) (x - center_x))
      with (brushed b center_y center_x y x); [reflexivity|].
    unfold brushed, c.
    replace (center_x + (x - center_x)) with x by lia.
    replace (center_y + (y - center_y)) with y by lia.
    replace (0 <=? x) with true by lia.
    replace (x <? width game1) with true by lia.
    replace (0 <=? y) with true by lia.
    replace (y <? height game1) with true by lia.
    replace (- b <? y - center_y) with (- b + 1 <=? y - center_y) by lia.
    replace (- b <? x - center_x) with (- b + 1 <=? x - center_x) by lia.
    now rewrite !andb_true_r, !andb_assoc.
Qed.

(** The engine that [paint_cell] paints on: the expanded one when
    [auto_expand] is set. *)
Lemma brush_engine (self : GameOfLifeVisualizer.visualizer)
    (center_x center_y : Z) :
  grid_ok (GameOfLifeVisualizer.game self) = true ->
  (GameOfLifeVisualizer.auto_expand self = true ->
   size_within_max (GameOfLifeVisualizer.game self) = true) ->
  exists game1,
    (if GameOfLifeVisualizer.auto_expand self then
       let margin := 10 in
       let needed_width :=
         Z.max (center_x + GameOfLifeVisualizer.brush_size self + margin)
           (width (GameOfLifeVisualizer.game self)) in
       let needed_height :=
         Z.max (center_y + GameOfLifeVisualizer.brush_size self + margin)
           (height (GameOfLifeVisualizer.game self)) in
       let? expanded :=
         expand_grid_if_needed (GameOfLifeVisualizer.game self)
           needed_width needed_height in
       Some (fst expanded)
     else Some (GameOfLifeVisualizer.game self)) = Some game1
    /\ grid_ok game1 = true
    /\ (cells_valid (GameOfLifeVisualizer.game self) = true ->
        cells_valid game1 = true)
    /\ size_within_max game1
       = size_within_max (GameOfLifeVisualizer.game self)
         || GameOfLifeVisualizer.auto_expand self
    /\ max_width game1 = max_width (GameOfLifeVisualizer.game self)
    /\ max_height game1 = max_height (GameOfLifeVisualizer.game self)
    /\ width game1
       = (if GameOfLifeVisualizer.auto_expand self then
            Z.min
              (Z.max (width (GameOfLifeVisualizer.game self))
                 (center_x + GameOfLifeVisualizer.brush_size self + 10))
              (max_width (GameOfLifeVisualizer.game self))
          else width (GameOfLifeVisualizer.game self))
    /\ height game1
       = (if GameOfLifeVisualizer.auto_expand self then
            Z.min
              (Z.max (height (GameOfLifeVisualizer.game self))
                 (center_y + GameOfLifeVisualizer.brush_size self + 10))
              (max_height (GameOfLifeVisualizer.game self))
          else height (GameOfLifeVisualizer.game self)).
Proof.
  intros Hg Hm.
  set (g0 := GameOfLifeVisualizer.game self) in *.
  destruct (GameOfLifeVisualizer.auto_expand self) eqn:Ea.
  - specialize (Hm eq_refl). cbv zeta.
    destruct (grid_ok_spec g0 Hg) as (Hw & Hs & Hwp & Hhp).
    pose proof Hm as Hm'. unfold size_within_max in Hm'.
    set (tw := Z.max (center_x + GameOfLifeVisualizer.brush_size self + 10)
                 (width g0)).
    set (th := Z.max (center_y + GameOfLifeVisualizer.brush_size self + 10)
                 (height g0)).
    destruct (expand_grid_cases g0 tw th Hg Hm)
      as (Hnw & Hnh & _ & _ & _ & _ & [[Esz E]|[_ (a & E & Ha & Has & _)]]).
    + rewrite E. cbn [Py.bind fst]. exists g0.
      injection Esz as E1 E2.
      rewrite Hm, orb_true_r. repeat split; auto; unfold tw in *; lia.
    + rewrite E. cbn [Py.bind fst]. eexists. split; [reflexivity|].
      split.
      { unfold grid_ok.
        cbn [grid width height with_active_bounds with_size with_grid].
        rewrite Ha, Has. cbn [fst snd]. rewrite !Z.eqb_refl. cbn [andb].
        lia. }
      split.
      { intros Hv. apply (expand_cells_valid g0 _ tw th true Hv E). }
      unfold size_within_max.
      cbn [width height max_width max_height with_active_bounds with_size
             with_grid].
      rewrite orb_true_r.
      repeat split; auto; unfold tw, th; try lia.
  - exists g0. rewrite orb_false_r. repeat split; auto.
Qed.

(** X11. [paint_cell] never fails on a well-formed engine.  When
    [auto_expand] is set it first expands the grid to hold the brush and a
    margin of ten cells, up to the maxima; on the resulting grid it gives
    the brush colour (Dead when erasing) to exactly the cells at a distance
    below the brush size from the centre, and leaves every other cell as it
    is. *)
Theorem paint_cell_spec (self : GameOfLifeVisualizer.visualizer)
    (center_x center_y : Z) :
  grid_ok (GameOfLifeVisualizer.game self) = true ->
  (GameOfLifeVisualizer.auto_expand self = true ->
   size_within_max (GameOfLifeVisualizer.game self) = true) ->
  exists game1 grid1,
    (if GameOfLifeVisualizer.auto_expand self then
       exists resized,
         expand_grid_if_needed (GameOfLifeVisualizer.game self)
           (Z.max (center_x + GameOfLifeVisualizer.brush_size self + 10)
              (width (GameOfLifeVisualizer.game self)))
           (Z.max (center_y + GameOfLifeVisualizer.brush_size self + 10)
              (height (GameOfLifeVisualizer.game self)))
         = Some (game1, resized)
     else game1 = GameOfLifeVisualizer.game self)
    /\ GameOfLifeVisualizer.paint_cell self center_x center_y
       = Some (GameOfLifeVisualizer.with_game self (with_grid game1 grid1))
    /\ well_shaped grid1 = true
    /\ Np.shape grid1 = (height game1, width game1)
    /\ (forall y x, 0 <= y < height game1 -> 0 <= x < width game1 ->
          cell grid1 y x =
          if brushed (GameOfLifeVisualizer.brush_size self)
               center_y center_x y x
          then (if GameOfLifeVisualizer.paint_mode self
                then GameOfLifeVisualizer.current_color self else Dead)
          else cell (grid game1) y x).
Proof.
  intros Hg Hm.
  destruct (brush_engine self center_x center_y Hg Hm)
    as (game1 & E1 & Hg1 & _).
  destruct (grid_ok_spec game1 Hg1) as (Hw1 & Hs1 & _ & _).
  destruct (brush_loop self game1 center_x center_y Hw1 Hs1)
    as (grid1 & E2 & Hw2 & Hs2 & Hc2).
  exists game1, grid1. split.
  - destruct (GameOfLifeVisualizer.auto_expand self).
    + cbv zeta in E1.
      destruct (expand_grid_if_needed _ _ _) as [[g' resized]|];
        [|discriminate].
      cbn [Py.bind fst] in E1. injection E1 as ->. now exists resized.
    + now injection E1 as <-.
  - split; [|auto].
    unfold GameOfLifeVisualizer.paint_cell. cbv zeta in E1, E2 |- *.
    rewrite E1. cbn [Py.bind]. rewrite E2. reflexivity.
Qed.

Lemma paint_cell_spec_witness :
  exists game1 grid1,
    (exists resized,
       expand_grid_if_needed (loaded create_oscillator_pattern)
         (Z.max (2 + 2 + 10) 5) (Z.max (2 + 2 + 10) 5)
       = Some (game1, resized))
    /\ GameOfLifeVisualizer.paint_cell
         {| GameOfLifeVisualizer.game := loaded create_oscillator_pattern;
            GameOfLifeVisualizer.paint_mode := true;
            GameOfLifeVisualizer.brush_size := 2;
            GameOfLifeVisualizer.current_color := Green;
            GameOfLifeVisualizer.auto_expand := true;
            GameOfLifeVisualizer.chaos_intensity := 0 |} 2 2
       = Some (GameOfLifeVisualizer.with_game
                 {| GameOfLifeVisualizer.game :=
                      loaded create_oscillator_pattern;
                    GameOfLifeVisualizer.paint_mode := true;
                    GameOfLifeVisualizer.brush_size := 2;
                    GameOfLifeVisualizer.current_color := Green;
                    GameOfLifeVisualizer.auto_expand := true;
                    GameOfLifeVisualizer.chaos_intensity := 0 |}
                 (with_grid game1 grid1))
    /\ well_shaped grid1 = true
    /\ Np.shape grid1 = (height game1, width game1)
    /\ (forall y x, 0 <= y < height game1 -> 0 <= x < width game1 ->
          cell grid1 y x =
          if brushed 2 2 2 y x then Green else cell (grid game1) y x).
Proof.
  apply (paint_cell_spec
           {| GameOfLifeVisualizer.game := loaded create_oscillator_pattern;
              GameOfLifeVisualizer.paint_mode := true;
              GameOfLifeVisualizer.brush_size := 2;
              GameOfLifeVisualizer.current_color := Green;
              GameOfLifeVisualizer.auto_expand := true;
              GameOfLifeVisualizer.chaos_intensity := 0 |} 2 2);
    reflexivity.
Defined.

(** X12. Painting or erasing with a brush colour among the five cell states
    keeps the invariants of the engine: the grid still matches the recorded
    size, every cell is a cell state and the size stays within the maxima.
    The settings of the brush are not touched. *)
Theorem paint_cell_keeps_invariants (self : GameOfLifeVisualizer.visualizer)
    (center_x center_y : Z) :
  grid_ok (GameOfLifeVisualizer.game self) = true ->
  cells_valid (GameOfLifeVisualizer.game self) = true ->
  size_within_max (GameOfLifeVisualizer.game self) = true ->
  is_cell_state (GameOfLifeVisualizer.current_color self) = true ->
  exists game2,
    GameOfLifeVisualizer.paint_cell self center_x center_y
    = Some (GameOfLifeVisualizer.with_game self game2)
    /\ grid_ok game2 = true /\ cells_valid game2 = true
    /\ size_within_max game2 = true
    /\ width (GameOfLifeVisualizer.game self) <= width game2
    /\ height (GameOfLifeVisualizer.game self) <= height game2.
Proof.
  intros Hg Hv Hm Hc.
  destruct (brush_engine self center_x center_y Hg (fun _ => Hm))
    as (game1 & E1 & Hg1 & Hv1 & Hm1 & _ & _ & Ew & Eh).
  specialize (Hv1 Hv). rewrite Hm in Hm1. cbn [orb] in Hm1.
  destruct (grid_ok_spec game1 Hg1) as (Hw1 & Hs1 & Hwp & Hhp).
  destruct (brush_loop self game1 center_x center_y Hw1 Hs1)
    as (grid1 & E2 & Hw2 & Hs2 & Hc2).
  exists (with_grid game1 grid1). split.
  { unfold GameOfLifeVisualizer.paint_cell. cbv zeta in E1, E2 |- *.
    rewrite E1. cbn [Py.bind]. rewrite E2. reflexivity. }
  split.
  { unfold grid_ok. cbn [grid width height with_grid].
    rewrite Hw2, Hs2. cbn [fst snd]. rewrite !Z.eqb_refl. cbn [andb]. lia. }
  split.
  { unfold cells_valid. cbn [grid with_grid].
    apply all_cells_intro; auto. rewrite Hs2. cbn [fst snd].
    intros y x Hy Hx. rewrite Hc2 by assumption.
    destruct (brushed _ _ _ _ _).
    - now destruct (GameOfLifeVisualizer.paint_mode self).
    - apply cell_all; auto; rewrite Hs1; cbn [fst snd]; lia. }
  split; [exact Hm1|].
  cbn [width height with_grid]. unfold size_within_max in Hm.
  destruct (GameOfLifeVisualizer.auto_expand self); lia.
Qed.

Lemma paint_cell_keeps_invariants_witness :
  exists game2,
    GameOfLifeVisualizer.paint_cell
      {| GameOfLifeVisualizer.game := loaded create_oscillator_pattern;
         GameOfLifeVisualizer.paint_mode := true;
         GameOfLifeVisualizer.brush_size := 3;
         GameOfLifeVisualizer.current_color := Yellow;
         GameOfLifeVisualizer.auto_expand := false;
         GameOfLifeVisualizer.chaos_intensity := 0 |} 4 0
    = Some (GameOfLifeVisualizer.with_game
              {| GameOfLifeVisualizer.game :=
                   loaded create_oscillator_pattern;
                 GameOfLifeVisualizer.paint_mode := true;
                 GameOfLifeVisualizer.brush_size := 3;
                 GameOfLifeVisualizer.current_color := Yellow;
                 GameOfLifeVisualizer.auto_expand := false;
                 GameOfLifeVisualizer.chaos_intensity := 0 |} game2)
    /\ grid_ok game2 = true /\ cells_valid game2 = true
    /\ size_within_max game2 = true
    /\ 5 <= width game2 /\ 5 <= height game2.
Proof.
  apply (paint_cell_keeps_invariants
           {| GameOfLifeVisualizer.game := loaded create_oscillator_pattern;
              GameOfLifeVisualizer.paint_mode := true;
              GameOfLifeVisualizer.brush_size := 3;
              GameOfLifeVisualizer.current_color := Yellow;
              GameOfLifeVisualizer.auto_expand := false;
              GameOfLifeVisualizer.chaos_intensity := 0 |} 4 0);
    reflexivity.
Defined.

Lemma expand_grid_settled (self : GameOfLife)
    (target_width target_height : Z) :
  Z.min (Z.max (width self) target_width) (max_width self) = width self ->
  Z.min (Z.max (height self) target_height) (max_height self)
  = height self ->
  expand_grid_if_needed self target_width target_height = Some (self, false).
Proof.
  intros Ew Eh. unfold expand_grid_if_needed.
  rewrite Ew, Eh, !Z.eqb_refl. reflexivity.
Qed.

(** Erasing with the brush that has just painted, at the same centre,
    gives the result of erasing there without having painted; the second
    call never expands the grid again. *)
Lemma paint_cell_then_erase (self s1 : GameOfLifeVisualizer.visualizer)
    (center_x center_y : Z) :
  grid_ok (GameOfLifeVisualizer.game self) = true ->
  size_within_max (GameOfLifeVisualizer.game self) = true ->
  GameOfLifeVisualizer.paint_cell self center_x center_y = Some s1 ->
  exists s2,
    GameOfLifeVisualizer.paint_cell
      (GameOfLifeVisualizer.with_paint_mode s1 false) center_x center_y
    = Some s2
    /\ GameOfLifeVisualizer.paint_cell
         (GameOfLifeVisualizer.with_paint_mode self false) center_x center_y
       = Some s2.
Proof.
  intros Hg Hm Ep.
  destruct (brush_engine self center_x center_y Hg (fun _ => Hm))
    as (game1 & E1 & Hg1 & _ & Hm1 & Emw & Emh & Ew & Eh).
  destruct (grid_ok_spec game1 Hg1) as (Hw1 & Hs1 & Hwp & Hhp).
  destruct (brush_loop self game1 center_x center_y Hw1 Hs1)
    as (grid1 & E2 & Hw2 & Hs2 & Hc2).
  assert (Es1 : s1 = GameOfLifeVisualizer.with_game self
                       (with_grid game1 grid1)).
  { unfold GameOfLifeVisualizer.paint_cell in Ep.
    cbv zeta in E1, E2, Ep. rewrite E1 in Ep. cbn [Py.bind] in Ep.
    rewrite E2 in Ep. cbn [Py.bind] in Ep. now injection Ep as <-. }
  set (e1 := GameOfLifeVisualizer.with_paint_mode s1 false).
  set (e0 := GameOfLifeVisualizer.with_paint_mode self false).
  set (gA := with_grid game1 grid1).
  assert (EA : (if GameOfLifeVisualizer.auto_expand e1 then
                  let? expanded :=
                    expand_grid_if_needed (GameOfLifeVisualizer.game e1)
                      (Z.max
                         (center_x + GameOfLifeVisualizer.brush_size e1 + 10)
                         (width (GameOfLifeVisualizer.game e1)))
                      (Z.max
                         (center_y + GameOfLifeVisualizer.brush_size e1 + 10)
                         (height (GameOfLifeVisualizer.game e1))) in
                  Some (fst expanded)
                else Some (GameOfLifeVisualizer.game e1)) = Some gA).
  { unfold e1. rewrite Es1.
    cbn [GameOfLifeVisualizer.auto_expand GameOfLifeVisualizer.game
           GameOfLifeVisualizer.brush_size
           GameOfLifeVisualizer.with_paint_mode
           GameOfLifeVisualizer.with_game].
    fold gA.
    destruct (GameOfLifeVisualizer.auto_expand self); [|reflexivity].
    rewrite expand_grid_settled; [reflexivity| |];
      unfold gA; cbn [width height max_width max_height with_grid];
      unfold size_within_max in Hm; lia. }
  destruct (brush_loop e1 gA center_x center_y)
    as (grid2 & E3 & Hw3 & Hs3 & Hc3); [exact Hw2|exact Hs2|].
  destruct (brush_loop e0 game1 center_x center_y Hw1 Hs1)
    as (grid3 & E4 & Hw4 & Hs4 & Hc4).
  assert (E23 : grid2 = grid3).
  { apply ndarray_ext; auto; [rewrite Hs3, Hs4; reflexivity|].
    rewrite Hs3. cbn [fst snd]. intros y x Hy Hx.
    rewrite Hc3, Hc4 by assumption.
    unfold e1, e0. rewrite Es1.
    cbn [GameOfLifeVisualizer.brush_size GameOfLifeVisualizer.paint_mode
           GameOfLifeVisualizer.with_paint_mode
           GameOfLifeVisualizer.with_game].
    destruct (brushed _ _ _ _ _) eqn:Eb; [reflexivity|].
    unfold gA. cbn [grid with_grid]. rewrite Hc2 by assumption.
    now rewrite Eb. }
  exists (GameOfLifeVisualizer.with_game e1 (with_grid gA grid2)).
  split.
  - unfold GameOfLifeVisualizer.paint_cell. cbv zeta in E3 |- *.
    rewrite EA. cbn [Py.bind]. rewrite E3. reflexivity.
  - unfold GameOfLifeVisualizer.paint_cell. cbv zeta in E1, E4 |- *.
    change (GameOfLifeVisualizer.auto_expand e0)
      with (GameOfLifeVisualizer.auto_expand self).
    change (GameOfLifeVisualizer.game e0)
      with (GameOfLifeVisualizer.game self).
    change (GameOfLifeVisualizer.brush_size e0)
      with (GameOfLifeVisualizer.brush_size self) in *.
    rewrite E1. cbn [Py.bind]. rewrite E4. cbn [Py.bind].
    rewrite E23. unfold e1, e0, gA. rewrite Es1. reflexivity.
Qed.


(** ** The pattern loaders *)

Lemma astype_uint8_cell (a : Np.ndarray) (y x : Z) :
  cell (Np.astype_uint8 a) y x = cell a y x mod 256.
Proof.
  unfold cell, Np.astype_uint8. cbn [Np.items].
  change (@nil Z) with (map (fun v => v mod 256) []) at 1.
  rewrite map_nth.
  change 0 with ((fun v => v mod 256) 0) at 1.
  now rewrite map_nth.
Qed.

Lemma astype_uint8_shape (a : Np.ndarray) :
  well_shaped a = true ->
  well_shaped (Np.astype_uint8 a) = true
  /\ Np.shape (Np.astype_uint8 a) = Np.shape a.
Proof.
  intros Hw. split; [|reflexivity].
  destruct (well_shaped_spec a Hw) as (Hh & Hw' & Hl & Hr).
  apply well_shaped_intro; cbn [Np.astype_uint8 Np.shape Np.items]; auto.
  - now rewrite length_map.
  - intros row Hin. apply in_map_iff in Hin as (row' & <- & Hin').
    rewrite length_map. now apply Hr.
Qed.

Lemma walker_pattern_bits (n m : nat) :
  0 <= nth n (nth m GameOfLifeVisualizer.walker_pattern []) 0 <= 1.
Proof.
  unfold GameOfLifeVisualizer.walker_pattern.
  do 6 (destruct m as [|m]; cbn [nth];
        [do 6 (destruct n as [|n]; cbn [nth]; [lia|]); lia|]).
  destruct n; cbn [nth]; lia.
Qed.

(** X14. [load_walker_attempt] never fails, whatever the size of the grid:
    the figure is clipped at the right and lower edges.  It keeps the size,
    empties the grid and puts the 5 by 5 figure with its upper left corner
    in column 10 of the middle row; every cell is Dead or Red. *)
Theorem load_walker_attempt_spec (self : GameOfLifeVisualizer.visualizer) :
  0 <= width (GameOfLifeVisualizer.game self) ->
  0 <= height (GameOfLifeVisualizer.game self) ->
  exists game1,
    GameOfLifeVisualizer.load_walker_attempt self
    = Some (GameOfLifeVisualizer.with_game self game1)
    /\ width game1 = width (GameOfLifeVisualizer.game self)
    /\ height game1 = height (GameOfLifeVisualizer.game self)
    /\ well_shaped (grid game1) = true
    /\ Np.shape (grid game1) = (height game1, width game1)
    /\ cells_valid game1 = true
    /\ (forall y x, 0 <= y < height game1 -> 0 <= x < width game1 ->
          cell (grid game1) y x =
          if (height game1 / 2 <=? y) && (y <? height game1 / 2 + 5)
             && (10 <=? x) && (x <? 15)
          then nth (Z.to_nat (x - 10))
                 (nth (Z.to_nat (y - height game1 / 2))
                    GameOfLifeVisualizer.walker_pattern []) 0
          else Dead).
Proof.
  intros Hw0 Hh0.
  set (g0 := GameOfLifeVisualizer.game self) in *.
  destruct (zeros_spec (height g0) (width g0) Hh0 Hw0)
    as (z & Ez & Hzs & Hzw & Hz0).
  set (oy := height g0 / 2).
  assert (Hoy : 0 <= oy).
  { unfold oy. pose proof (Z.div_mod (height g0) 2).
    pose proof (Z.mod_pos_bound (height g0) 2). lia. }
  set (c := fun dy dx : Z => (oy + dy <? height g0) && (10 + dx <? width g0)).
  set (v := fun dy dx : Z =>
              nth (Z.to_nat dx)
                (nth (Z.to_nat dy) GameOfLifeVisualizer.walker_pattern []) 0).
  destruct (guarded_rows c v oy 10 (Py.range 0 5) (Py.range 0 5) z Hzw)
    as (g1 & E1 & Hw1 & Hs1 & Hc1).
  { intros dy dx Hdy Hdx Hc. apply range_In in Hdy, Hdx.
    unfold c in Hc. rewrite Hzs. cbn [fst snd]. lia. }
  destruct (set_grid_stores g0 g1) as (game1 & Eg & Hgrid & Hwd & Hht & _).
  rewrite Hs1, Hzs in Hwd, Hht. cbn [fst snd] in Hwd, Hht.
  destruct (astype_uint8_shape g1 Hw1) as [Hwa Hsa].
  assert (Hcell : forall y x, 0 <= y < height g0 -> 0 <= x < width g0 ->
             cell (grid game1) y x =
             if (oy <=? y) && (y <? oy + 5) && (10 <=? x) && (x <? 15)
             then v (y - oy) (x - 10) else Dead).
  { intros y x Hy Hx. rewrite Hgrid, astype_uint8_cell, Hc1 by lia.
    rewrite !in_range. unfold c.
    replace (oy + (y - oy) <? height g0) with true by lia.
    replace (10 + (x - 10) <? width g0) with true by lia.
    rewrite andb_true_r.
    replace ((0 <=? y - oy) && (y - oy <? 5)
             && ((0 <=? x - 10) && (x - 10 <? 5)))
      with ((oy <=? y) && (y <? oy + 5) && (10 <=? x) && (x <? 15)) by lia.
    destruct ((oy <=? y) && (y <? oy + 5) && (10 <=? x) && (x <? 15)).
    - unfold v. apply Z.mod_small.
      pose proof (walker_pattern_bits (Z.to_nat (x - 10)) (Z.to_nat (y - oy))).
      lia.
    - destruct (cell_in_row z y x Hzw) as (row & _ & Hrow & _ & Hv);
        try (rewrite Hzs; cbn [fst snd]; lia).
      now rewrite (Hz0 row _ Hrow Hv). }
  exists game1. split.
  { unfold GameOfLifeVisualizer.load_walker_attempt. fold g0.
    rewrite Ez. cbn [Py.bind]. cbv zeta. fold oy.
    change (Py.for_
              (GameOfLifeVisualizer.enumerate
                 GameOfLifeVisualizer.walker_pattern) _ z)
      with (Py.for_ (Py.range 0 5)
              (fun g dy =>
                 Py.for_ (Py.range 0 5)
                   (fun g dx =>
                      if c dy dx
                      then Np.setitem g (oy + dy) (10 + dx) (v dy dx)
                      else Some g) g) z).
    rewrite E1. cbn [Py.bind]. rewrite Eg. reflexivity. }
  rewrite Hwd, Hht. split; [reflexivity|]. split; [reflexivity|].
  rewrite Hgrid at 1 2. split; [assumption|].
  split; [now rewrite Hsa, Hs1, Hzs|].
  split.
  - unfold cells_valid. apply all_cells_intro; [now rewrite Hgrid|].
    rewrite Hgrid, Hsa, Hs1, Hzs. cbn [fst snd]. intros y x Hy Hx.
    rewrite <- Hgrid, Hcell by assumption.
    destruct ((oy <=? y) && (y <? oy + 5) && (10 <=? x) && (x <? 15));
      [|reflexivity].
    unfold v, is_cell_state.
    pose proof (walker_pattern_bits (Z.to_nat (x - 10)) (Z.to_nat (y - oy))).
    lia.
  - intros y x Hy Hx. now rewrite Hcell.
Qed.

Lemma load_walker_attempt_spec_witness :
  exists game1,
    GameOfLifeVisualizer.load_walker_attempt
      {| GameOfLifeVisualizer.game :=
           loaded (tabulate 12 20 (block4 3 3 Blue));
         GameOfLifeVisualizer.paint_mode := true;
         GameOfLifeVisualizer.brush_size := 1;
         GameOfLifeVisualizer.current_color := Red;
         GameOfLifeVisualizer.auto_expand := true;
         GameOfLifeVisualizer.chaos_intensity := 0 |}
    = Some (GameOfLifeVisualizer.with_game
              {| GameOfLifeVisualizer.game :=
                   loaded (tabulate 12 20 (block4 3 3 Blue));
                 GameOfLifeVisualizer.paint_mode := true;
                 GameOfLifeVisualizer.brush_size := 1;
                 GameOfLifeVisualizer.current_color := Red;
                 GameOfLifeVisualizer.auto_expand := true;
                 GameOfLifeVisualizer.chaos_intensity := 0 |} game1)
    /\ width game1 = 20
    /\ height game1 = 12
    /\ well_shaped (grid game1) = true
    /\ Np.shape (grid game1) = (height game1, width game1)
    /\ cells_valid game1 = true
    /\ (forall y x, 0 <= y < height game1 -> 0 <= x < width game1 ->
          cell (grid game1) y x =
          if (height game1 / 2 <=? y) && (y <? height game1 / 2 + 5)
             && (10 <=? x) && (x <? 15)
          then nth (Z.to_nat (x - 10))
                 (nth (Z.to_nat (y - height game1 / 2))
                    GameOfLifeVisualizer.walker_pattern []) 0
          else Dead).
Proof.
  apply (load_walker_attempt_spec
           {| GameOfLifeVisualizer.game :=
                loaded (tabulate 12 20 (block4 3 3 Blue));
              GameOfLifeVisualizer.paint_mode := true;
              GameOfLifeVisualizer.brush_size := 1;
              GameOfLifeVisualizer.current_color := Red;
              GameOfLifeVisualizer.auto_expand := true;
              GameOfLifeVisualizer.chaos_intensity := 0 |}); cbn; lia.
Defined.

(** A loop whose body keeps an invariant and makes between [lo] and [hi]
    draws makes between [lo] and [hi] draws per element. *)
Lemma for_draws {A S : Type} (P : S -> Prop) (lo hi : nat) (l : list A)
    (body : S -> A -> Np.M S) :
  (forall s a r, In a l -> P s ->
     exists s' r', body s a r = Some (s', r') /\ P s'
                   /\ Np.tape r' = Np.tape r
                   /\ (Np.pos r + lo <= Np.pos r' <= Np.pos r + hi)%nat) ->
  forall s r, P s ->
    exists s' r', Np.for_ l body s r = Some (s', r') /\ P s'
                  /\ Np.tape r' = Np.tape r
                  /\ (Np.pos r + lo * length l <= Np.pos r'
                      <= Np.pos r + hi * length l)%nat.
Proof.
  induction l as [|a l IH]; intros Hbody s r Ps.
  - exists s, r. cbn [Np.for_ length]. unfold Np.ret.
    repeat split; auto; lia.
  - destruct (Hbody s a r (or_introl eq_refl) Ps)
      as (s1 & r1 & E1 & P1 & T1 & B1).
    destruct (IH (fun s a r Hin => Hbody s a r (or_intror Hin)) s1 r1 P1)
      as (s2 & r2 & E2 & P2 & T2 & B2).
    exists s2, r2. rewrite for_cons, E1. split; [exact E2|].
    split; [exact P2|]. split; [congruence|].
    cbn [length]. rewrite !Nat.mul_succ_r. lia.
Qed.

(** X15. [load_random] succeeds for every state of the random generator.
    It keeps the size of the grid, every cell it leaves is one of the five
    cell states, and it makes one draw for every cell and a second one for
    every cell that it brings to life: between [height * width] and twice
    that many. *)
Theorem load_random_valid (self : GameOfLifeVisualizer.visualizer)
    (r : Np.RandomState) :
  0 <= width (GameOfLifeVisualizer.game self) ->
  0 <= height (GameOfLifeVisualizer.game self) ->
  exists game1 r',
    GameOfLifeVisualizer.load_random self r
    = Some (GameOfLifeVisualizer.with_game self game1, r')
    /\ width game1 = width (GameOfLifeVisualizer.game self)
    /\ height game1 = height (GameOfLifeVisualizer.game self)
    /\ well_shaped (grid game1) = true
    /\ Np.shape (grid game1) = (height game1, width game1)
    /\ cells_valid game1 = true
    /\ Np.tape r' = Np.tape r
    /\ (Np.pos r
        + Z.to_nat (height (GameOfLifeVisualizer.game self))
          * Z.to_nat (width (GameOfLifeVisualizer.game self))
        <= Np.pos r'
        <= Np.pos r
           + 2 * (Z.to_nat (height (GameOfLifeVisualizer.game self))
                  * Z.to_nat (width (GameOfLifeVisualizer.game self))))%nat.
Proof.
  intros Hw0 Hh0.
  set (g0 := GameOfLifeVisualizer.game self) in *.
  destruct (zeros_spec (height g0) (width g0) Hh0 Hw0)
    as (z & Ez & Hzs & Hzw & Hz0).
  set (P := fun g : Np.ndarray =>
              well_shaped g = true /\ Np.shape g = (height g0, width g0)
              /\ all_cells is_cell_state g = true).
  assert (Pz : P z).
  { unfold P. repeat split; auto. apply (zeros_cells _ _ _ _ eq_refl Ez). }
  destruct (for_draws P (1 * length (Py.range 0 (width g0)))
              (2 * length (Py.range 0 (width g0)))
              (Py.range 0 (height g0))
              (fun random_grid y =>
                 Np.for_ (Py.range 0 (width g0))
                   (fun random_grid x =>
                      u <- Np.random ;;
                      if Float.ltb u Float.lit_0_3 then
                        c <- Np.randint 1 5 ;;
                        Np.lift (Np.setitem random_grid y x c)
                      else Np.ret random_grid)
                   random_grid)) with (s := z) (r := r)
    as (g1 & r1 & E1 & (Hw1 & Hs1 & Hv1) & T1 & B1); [|exact Pz|].
  { intros g y r2 Hy Pg. apply range_In in Hy.
    apply (for_draws P 1 2); [|exact Pg].
    intros g' x r3 Hx (Hw' & Hs' & Hv'). apply range_In in Hx.
    unfold Np.bind, Np.random.
    destruct (Float.ltb _ Float.lit_0_3).
    - destruct (randint_1_5 (Np.advance r3)) as (c & Ec & Hc).
      rewrite Ec.
      destruct (setitem_defined g' y x c Hw')
        as (g'' & E' & Hs'' & Hw'' & Hp);
        try (rewrite Hs'; cbn [fst snd]; lia).
      unfold Np.lift. rewrite E'. exists g'', (Np.advance (Np.advance r3)).
      split; [reflexivity|]. split.
      + unfold P. repeat split; auto; [congruence|].
        apply Hp; auto. unfold is_color in Hc. unfold is_cell_state. lia.
      + cbn [Np.tape Np.pos Np.advance]. split; [reflexivity|lia].
    - exists g', (Np.advance r3). unfold Np.ret.
      split; [reflexivity|]. split; [unfold P; auto|].
      cbn [Np.tape Np.pos Np.advance]. split; [reflexivity|lia]. }
  destruct (set_grid_stores g0 g1) as (game1 & Eg & Hgrid & Hwd & Hht & _).
  rewrite Hs1 in Hwd, Hht. cbn [fst snd] in Hwd, Hht.
  destruct (astype_uint8_shape g1 Hw1) as [Hwa Hsa].
  exists game1, r1. split.
  { unfold GameOfLifeVisualizer.load_random. fold g0.
    unfold Np.bind at 1. rewrite Ez. cbn [Np.lift].
    unfold Np.bind at 1. rewrite E1.
    unfold Np.bind, Np.lift. rewrite Eg. reflexivity. }
  split; [exact Hwd|]. split; [exact Hht|].
  rewrite Hgrid, Hwd, Hht. split; [assumption|].
  split; [now rewrite Hsa|].
  split.
  { unfold cells_valid. rewrite Hgrid, astype_uint8_cells.
    apply all_cells_spec. intros row v Hrow Hv.
    pose proof (proj1 (all_cells_spec _ _) Hv1 row v Hrow Hv) as Hc.
    unfold is_cell_state in *. rewrite Z.mod_small; lia. }
  split; [exact T1|].
  rewrite !range_length in B1.
  replace (height g0 - 0) with (height g0) in B1 by lia.
  replace (width g0 - 0) with (width g0) in B1 by lia.
  lia.
Qed.

Lemma load_random_valid_witness :
  exists game1 r',
    GameOfLifeVisualizer.load_random
      {| GameOfLifeVisualizer.game := loaded red_block;
         GameOfLifeVisualizer.paint_mode := true;
         GameOfLifeVisualizer.brush_size := 1;
         GameOfLifeVisualizer.current_color := Red;
         GameOfLifeVisualizer.auto_expand := true;
         GameOfLifeVisualizer.chaos_intensity := 0 |} draws_low
    = Some (GameOfLifeVisualizer.with_game
              {| GameOfLifeVisualizer.game := loaded red_block;
                 GameOfLifeVisualizer.paint_mode := true;
                 GameOfLifeVisualizer.brush_size := 1;
                 GameOfLifeVisualizer.current_color := Red;
                 GameOfLifeVisualizer.auto_expand := true;
                 GameOfLifeVisualizer.chaos_intensity := 0 |} game1, r')
    /\ width game1 = 7
    /\ height game1 = 7
    /\ well_shaped (grid game1) = true
    /\ Np.shape (grid game1) = (height game1, width game1)
    /\ cells_valid game1 = true
    /\ Np.tape r' = Np.tape draws_low
    /\ (Np.pos draws_low + Z.to_nat 7 * Z.to_nat 7 <= Np.pos r'
        <= Np.pos draws_low + 2 * (Z.to_nat 7 * Z.to_nat 7))%nat.
Proof.
  apply (load_random_valid
           {| GameOfLifeVisualizer.game := loaded red_block;
              GameOfLifeVisualizer.paint_mode := true;
              GameOfLifeVisualizer.brush_size := 1;
              GameOfLifeVisualizer.current_color := Red;
              GameOfLifeVisualizer.auto_expand := true;
              GameOfLifeVisualizer.chaos_intensity := 0 |} draws_low);
    cbn; lia.
Defined.

(** ** The step of [scrips3.py] *)

Lemma py_for_ext_in {A S : Type} (l : list A)
    (body1 body2 : S -> A -> option S) :
  (forall s a, In a l -> body1 s a = body2 s a) ->
  forall s, Py.for_ l body1 s = Py.for_ l body2 s.
Proof.
  induction l as [|a l IH]; intros H s; [reflexivity|].
  cbn [Py.for_]. rewrite H by now left.
  destruct (body2 s a); [|reflexivity]. cbn [Py.bind].
  apply IH. intros s' a' Hin. apply H. now right.
Qed.

Lemma getitem_counts_of (nbrs : list Z) (c : Z) :
  is_color c = true ->
  Py.getitem (counts_of nbrs) c = Some (count_color nbrs c).
Proof.
  intros Hc.
  destruct (is_color_cases c Hc) as [ -> | [ -> | [ -> | -> ] ] ];
    reflexivity.
Qed.

(** The cell rule of [scrips3.py]: the custom colour rules with the
    overcrowding rule never firing; a Dead result is not written. *)
Lemma scrips3_update_cell (self : GameOfLife) (new_grid : Np.ndarray)
    (y x : Z) :
  grid_ok self = true -> cells_valid self = true ->
  0 <= y < height self -> 0 <= x < width self ->
  Scrips3.update_cell self new_grid y x
  = let v := spec_custom (cell (grid self) y x) (living_neighbors self x y) 1
    in if negb (v =? 0) then Np.setitem new_grid y x v else Some new_grid.
Proof.
  intros Hg Hv Hy Hx.
  destruct (grid_ok_spec self Hg) as (Hw & Hs & Hwp & Hhp).
  pose proof (living_neighbors_colors self x y Hg Hv) as Hn.
  set (nbrs := living_neighbors self x y) in *.
  assert (Hcur : is_cell_state (cell (grid self) y x) = true)
    by (apply cell_all; auto; rewrite Hs; cbn [fst snd]; lia).
  set (cur := cell (grid self) y x) in *.
  pose proof Hcur as Hrange. unfold is_cell_state in Hrange.
  pose proof (spec_dominant_color nbrs) as Hdom. unfold is_color in Hdom.
  unfold Scrips3.update_cell.
  rewrite get_neighbors_by_color_spec by assumption. cbn [Py.bind].
  fold nbrs.
  rewrite getitem_cell by (auto; rewrite Hs; cbn [fst snd]; lia).
  cbn [Py.bind]. fold cur.
  change (Scrips3.get_dominant_color (counts_of nbrs))
    with (get_dominant_color (CountsDict (counts_of nbrs))).
  rewrite get_dominant_color_counts_of. cbn [Py.bind].
  change (Py.values (counts_of nbrs))
    with [count_color nbrs Red; count_color nbrs Blue;
          count_color nbrs Green; count_color nbrs Yellow].
  rewrite max_of_four. cbn [Py.bind].
  cbv zeta. unfold spec_custom, Dead.
  change (Float.ltb 1 Float.lit_0_6) with false. rewrite andb_false_r.
  set (total := Z.of_nat (length nbrs)).
  set (m := Z.max _ _).
  unfold Py.in_. cbn [existsb].
  replace (spec_dominant nbrs =? 0) with false by lia.
  destruct (Z.gtb_spec cur 0) as [Hc|Hc].
  - replace (cur =? 0) with false by lia. cbn [negb].
    rewrite getitem_counts_of by (unfold is_color; lia).
    cbn [Py.bind].
    destruct (Z.eqb_spec total 2);
      [cbn [orb]; now replace (cur =? 0) with false by lia|].
    destruct (Z.eqb_spec total 3);
      [cbn [orb]; now replace (cur =? 0) with false by lia|].
    cbn [orb].
    replace (total >=? 4) with (4 <=? total) by lia.
    replace (m >=? 3) with (3 <=? m) by lia.
    destruct (4 <=? total).
    + destruct (3 <=? m); [|reflexivity].
      now replace (spec_dominant nbrs =? 0) with false by lia.
    + destruct (total =? 1); [|reflexivity].
      destruct (count_color nbrs cur =? 1); [|reflexivity].
      now replace (cur =? 0) with false by lia.
  - replace (cur =? 0) with true by lia. cbn [negb].
    destruct (total =? 3); [|reflexivity].
    now replace (spec_dominant nbrs =? 0) with false by lia.
Qed.

(** The grid that the step of [scrips3.py] computes. *)
Lemma scrips3_update_cells (self : GameOfLife) :
  grid_ok self = true -> cells_valid self = true ->
  exists new_grid,
    Scrips3.update self = Some (with_grid self new_grid)
    /\ well_shaped new_grid = true
    /\ Np.shape new_grid = (height self, width self)
    /\ (forall y x, 0 <= y < height self -> 0 <= x < width self ->
          cell new_grid y x
          = spec_custom (cell (grid self) y x) (living_neighbors self x y) 1).
Proof.
  intros Hg Hv.
  destruct (grid_ok_spec self Hg) as (Hw & Hs & Hwp & Hhp).
  destruct (zeros_spec (height self) (width self))
    as (z & Ez & Hzs & Hzw & Hz0); try lia.
  set (f := fun y x =>
              spec_custom (cell (grid self) y x) (living_neighbors self x y)
                1).
  destruct (guarded_rows (fun y x => negb (f y x =? 0)) f 0 0
              (Py.range 0 (height self)) (Py.range 0 (width self)) z Hzw)
    as (g1 & E1 & Hw1 & Hs1 & Hc1).
  { intros dy dx Hdy Hdx _. apply range_In in Hdy, Hdx.
    rewrite Hzs. cbn [fst snd]. lia. }
  exists g1. split.
  - unfold Scrips3.update, Scrips3.zeros_like. rewrite Hs. cbn [fst snd].
    rewrite Ez. cbn [Py.bind].
    rewrite (py_for_ext_in _ _
               (fun g dy =>
                  Py.for_ (Py.range 0 (width self))
                    (fun g dx =>
                       if negb (f dy dx =? 0)
                       then Np.setitem g (0 + dy) (0 + dx) (f dy dx)
                       else Some g) g)).
    + rewrite E1. reflexivity.
    + intros g y Hy. apply range_In in Hy. apply py_for_ext_in.
      intros g' x Hx. apply range_In in Hx.
      now rewrite scrips3_update_cell by (auto; lia).
  - split; [assumption|]. split; [congruence|].
    intros y x Hy Hx. rewrite Hc1 by lia. rewrite !Z.sub_0_r, !in_range.
    replace ((0 <=? y) && (y <? height self)) with true by lia.
    replace ((0 <=? x) && (x <? width self)) with true by lia.
    cbn [andb]. fold (f y x).
    destruct (Z.eqb_spec (f y x) 0) as [E0|]; [|reflexivity].
    cbn [negb]. rewrite E0.
    destruct (cell_in_row z y x Hzw) as (row & _ & Hrow & _ & Hval);
      try (rewrite Hzs; cbn [fst snd]; lia).
    apply (Hz0 row _ Hrow Hval).
Qed.

(** X16. The step of [scrips3.py] never fails on a valid grid.  It keeps
    the size and gives every cell of the whole grid the result of the custom
    colour rules of [wow.py] in which the overcrowding rule never fires; the
    result is again a valid grid, and no random number is involved. *)
Theorem scrips3_update_spec (self : GameOfLife) :
  grid_ok self = true -> cells_valid self = true ->
  exists self',
    Scrips3.update self = Some self'
    /\ self' = with_grid self (grid self')
    /\ grid_ok self' = true /\ cells_valid self' = true
    /\ (forall y x u, 0 <= y < height self -> 0 <= x < width self ->
          Float.ltb u Float.lit_0_6 = false ->
          cell (grid self') y x
          = spec_custom (cell (grid self) y x) (living_neighbors self x y) u).
Proof.
  intros Hg Hv.
  destruct (grid_ok_spec self Hg) as (Hw & Hs & Hwp & Hhp).
  destruct (scrips3_update_cells self Hg Hv) as (g & E & Hwg & Hsg & Hc).
  exists (with_grid self g). split; [exact E|]. split; [reflexivity|].
  split.
  { unfold grid_ok. cbn [grid width height with_grid].
    rewrite Hwg, Hsg. cbn [fst snd]. rewrite !Z.eqb_refl. cbn [andb]. lia. }
  split.
  { unfold cells_valid. cbn [grid with_grid].
    apply all_cells_intro; auto. rewrite Hsg. cbn [fst snd].
    intros y x Hy Hx. rewrite Hc by assumption.
    apply spec_custom_valid.
    apply cell_all; auto; rewrite Hs; cbn [fst snd]; lia. }
  intros y x u Hy Hx Hu. cbn [grid with_grid]. rewrite Hc by assumption.
  unfold spec_custom. rewrite Hu.
  change (Float.ltb 1 Float.lit_0_6) with false. reflexivity.
Qed.

Lemma scrips3_update_spec_witness :
  exists self',
    Scrips3.update (loaded red_block) = Some self'
    /\ self' = with_grid (loaded red_block) (grid self')
    /\ grid_ok self' = true /\ cells_valid self' = true
    /\ (forall y x u, 0 <= y < 7 -> 0 <= x < 7 ->
          Float.ltb u Float.lit_0_6 = false ->
          cell (grid self') y x
          = spec_custom (cell red_block y x)
              (living_neighbors (loaded red_block) x y) u).
Proof.
  apply (scrips3_update_spec (loaded red_block)); reflexivity.
Defined.

Lemma spec_custom_calm (cur : Z) (nbrs : list Z) (u u' : Q) :
  negb (cur =? Dead) && (5 <=? Z.of_nat (length nbrs)) = false ->
  spec_custom cur nbrs u = spec_custom cur nbrs u'.
Proof.
  intros H. unfold spec_custom.
  destruct (negb (cur =? Dead)); [|reflexivity].
  cbn [andb] in H. rewrite H. reflexivity.
Qed.

(** Without chaos, on a grid without overcrowded cells, the step gives
    every cell of the active rectangle the result of the custom colour
    rules, for every state of the generator. *)
Lemma update_calm_cells (self : GameOfLife) :
  grid_ok self = true -> cells_valid self = true ->
  chaos_mode self = false -> calm self = true ->
  total_cells (grid self) < 18446744073709551616 ->
  exists b new_grid,
    update_active_bounds self = Some (with_active_bounds self b)
    /\ (forall r,
          update self r
          = Some (with_grid (with_active_bounds self b) new_grid, r))
    /\ well_shaped new_grid = true
    /\ Np.shape new_grid = (height self, width self)
    /\ (forall y x, 0 <= y < height self -> 0 <= x < width self ->
          cell new_grid y x =
          if in_bounds b y x
          then spec_custom (cell (grid self) y x) (living_neighbors self x y)
                 0
          else cell (grid self) y x).
Proof.
  intros Hg Hv Hch Hcalm Ht.
  destruct (grid_ok_spec self Hg) as (Hw & Hs & Hwp & Hhp).
  pose proof (is_cell_state_uint8 _ Hv) as Hu.
  destruct (Np.sum (grid self) =? 0) eqn:E.
  - pose proof (proj1 (sum_zero_dead _ Hw Hu Ht) E) as Hdead.
    assert (Hd : forall y x, 0 <= y < height self -> 0 <= x < width self ->
               cell (grid self) y x = Dead).
    { intros y x Hy Hx.
      destruct (Z.eq_dec (cell (grid self) y x) 0) as [E0|N0]; [exact E0|].
      exfalso. apply (Hdead y x). unfold alive. rewrite Hs. cbn [fst snd].
      auto. }
    destruct (update_active_bounds_total self) as (b & Hb).
    exists b, (grid self). split; [exact Hb|]. split.
    { intros r. rewrite (update_unchanged self b Hg Hv Hch Hb).
      - reflexivity.
      - intros y x Hy Hx _. unfold overcrowded, addressed.
        rewrite (dead_neighbors self x y Hg Hd), !Hd;
          try (apply Z.mod_pos_bound; lia); auto. }
    split; [assumption|]. split; [assumption|].
    intros y x Hy Hx. rewrite (dead_neighbors self x y Hg Hd), Hd by lia.
    now destruct (in_bounds b y x).
  - assert (Hex : exists y x, alive (grid self) y x).
    { destruct (where_cells (grid self)) as [|[y x] cs] eqn:Hc.
      - exfalso. apply Z.eqb_neq in E. apply E. unfold Np.sum.
        fold (total_cells (grid self)). rewrite dead_total_zero; auto.
        intros y x Ha.
        apply (where_cells_alive _ _ _ Hw Hu) in Ha. now rewrite Hc in Ha.
      - exists y, x. apply (where_cells_alive _ _ _ Hw Hu).
        rewrite Hc. now left. }
    destruct (update_active_bounds_alive self Hw Hu E Hex)
      as (mx & Mx & my & My & _ & Hb).
    set (min_x := Z.max 0 (mx - bounds_margin self)) in *.
    set (max_x := Z.min (width self) (Mx + bounds_margin self + 1)) in *.
    set (min_y := Z.max 0 (my - bounds_margin self)) in *.
    set (max_y := Z.min (height self) (My + bounds_margin self + 1)) in *.
    assert (Hx0 : 0 <= min_x) by (unfold min_x; lia).
    assert (Hx1 : max_x <= width self) by (unfold max_x; lia).
    assert (Hy0 : 0 <= min_y) by (unfold min_y; lia).
    assert (Hy1 : max_y <= height self) by (unfold max_y; lia).
    set (self1 := with_active_bounds self (min_x, max_x, min_y, max_y)) in *.
    set (f := fun y x =>
                spec_custom (cell (grid self) y x)
                  (living_neighbors self x y) 0).
    assert (Hcell : forall y x r, min_y <= y < max_y -> min_x <= x < max_x ->
               spec_cell self1 y x r = Some (f y x, skip 0 r)).
    { intros y x r Hy Hx.
      rewrite (spec_cell_calm self1 y x r Hch).
      - unfold addressed. cbn [grid height width self1 with_active_bounds].
        rewrite !Z.mod_small by lia. reflexivity.
      - apply (calm_spec self y x Hg Hcalm). }
    exists (min_x, max_x, min_y, max_y).
    destruct ((max_x - min_x <=? 0) || (max_y - min_y <=? 0)) eqn:Hdeg.
    + exists (grid self). split; [exact Hb|]. split.
      { intros r. rewrite (update_spec_step self r Hg Hv). unfold spec_step.
        rewrite Hb. unfold Np.bind at 1. cbn [Np.lift].
        change (active_bounds self1) with (min_x, max_x, min_y, max_y).
        cbv beta iota. rewrite Hdeg. reflexivity. }
      split; [assumption|]. split; [assumption|].
      intros y x Hy Hx. unfold in_bounds.
      replace ((min_x <=? x) && (x <? max_x) && (min_y <=? y) && (y <? max_y))
        with false by lia.
      reflexivity.
    + destruct (paint_cell f (Py.range min_y max_y) (Py.range min_x max_x)
                  (grid self) Hw) as (g' & Ep & Hw' & Hs' & Hc').
      { intros y Hy. apply range_In in Hy. rewrite Hs. cbn [fst snd]. lia. }
      { intros x Hx. apply range_In in Hx. rewrite Hs. cbn [fst snd]. lia. }
      exists g'. split; [exact Hb|]. split.
      { intros r. rewrite (update_spec_step self r Hg Hv). unfold spec_step.
        rewrite Hb. unfold Np.bind at 1. cbn [Np.lift].
        change (active_bounds self1) with (min_x, max_x, min_y, max_y).
        cbv beta iota. rewrite Hdeg. unfold Np.bind at 1.
        rewrite (scan_paint self1 f 0 min_x max_x min_y max_y Hcell).
        change (grid self1) with (grid self). rewrite Ep.
        cbn [Nat.mul]. now rewrite skip_0. }
      split; [assumption|]. split; [congruence|].
      intros y x Hy Hx. rewrite Hc' by lia. rewrite !in_range.
      unfold in_bounds.
      replace ((min_y <=? y) && (y <? max_y) && ((min_x <=? x) && (x <? max_x)))
        with ((min_x <=? x) && (x <? max_x) && (min_y <=? y) && (y <? max_y))
        by lia.
      reflexivity.
Qed.

(** X17. The two engines agree where [wow.py] looks: without chaos, on a
    grid on which no cell is overcrowded, the step of [wow.py] gives every
    cell of its active rectangle the state that the step of [scrips3.py]
    gives it, leaves the cells outside the rectangle as they are, and draws
    no random number. *)
Theorem update_agrees_with_scrips3 (self : GameOfLife) :
  grid_ok self = true -> cells_valid self = true ->
  chaos_mode self = false -> calm self = true ->
  total_cells (grid self) < 18446744073709551616 ->
  exists b self_wow self_scrips3,
    update_active_bounds self = Some (with_active_bounds self b)
    /\ (forall r, update self r = Some (self_wow, r))
    /\ Scrips3.update self = Some self_scrips3
    /\ (forall y x, 0 <= y < height self -> 0 <= x < width self ->
          cell (grid self_wow) y x =
          if in_bounds b y x then cell (grid self_scrips3) y x
          else cell (grid self) y x).
Proof.
  intros Hg Hv Hch Hcalm Ht.
  destruct (update_calm_cells self Hg Hv Hch Hcalm Ht)
    as (b & g & Hb & Hup & _ & _ & Hc).
  destruct (scrips3_update_cells self Hg Hv) as (g3 & E3 & _ & _ & Hc3).
  exists b, (with_grid (with_active_bounds self b) g), (with_grid self g3).
  split; [exact Hb|]. split; [exact Hup|]. split; [exact E3|].
  intros y x Hy Hx. cbn [grid with_grid].
  rewrite Hc, Hc3 by assumption.
  destruct (in_bounds b y x); [|reflexivity].
  apply spec_custom_calm.
  pose proof (calm_spec self y x Hg Hcalm) as Hover.
  unfold overcrowded, addressed in Hover.
  destruct (grid_ok_spec self Hg) as (_ & _ & Hwp & Hhp).
  now rewrite !Z.mod_small in Hover by lia.
Qed.

Lemma update_agrees_with_scrips3_witness :
  exists b self_wow self_scrips3,
    update_active_bounds (loaded create_oscillator_pattern)
    = Some (with_active_bounds (loaded create_oscillator_pattern) b)
    /\ (forall r,
          update (loaded create_oscillator_pattern) r = Some (self_wow, r))
    /\ Scrips3.update (loaded create_oscillator_pattern) = Some self_scrips3
    /\ (forall y x, 0 <= y < 5 -> 0 <= x < 5 ->
          cell (grid self_wow) y x =
          if in_bounds b y x then cell (grid self_scrips3) y x
          else cell create_oscillator_pattern y x).
Proof.
  apply (update_agrees_with_scrips3 (loaded create_oscillator_pattern));
    reflexivity.
Defined.

(** ** Grids cut at a threshold *)

(** The two loops shared by the fractal generators: a cell becomes 1 when
    the iteration count of its pixel is below the threshold. *)
Lemma threshold_grid (iter : Z -> Z -> option Z) (width height threshold : Z) :
  0 <= width -> 0 <= height ->
  (forall y x, 0 <= y < height -> 0 <= x < width ->
     exists n, iter y x = Some n) ->
  exists grid,
    (let? grid := Np.zeros height width in
     Py.for_ (Py.range 0 height)
       (fun grid y =>
          Py.for_ (Py.range 0 width)
            (fun grid x =>
               let? iterations := iter y x in
               if iterations <? threshold then Np.setitem grid y x 1
               else Some grid)
            grid)
       grid) = Some grid
    /\ Np.shape grid = (height, width)
    /\ well_shaped grid = true
    /\ (forall y x n, 0 <= y < height -> 0 <= x < width ->
          iter y x = Some n ->
          cell grid y x = if n <? threshold then 1 else 0).
Proof.
  intros Hw Hh Hdef.
  destruct (zeros_spec height width Hh Hw) as (z & -> & Hzs & Hzw & Hz0).
  cbn [Py.bind].
  set (alive_at := fun y x =>
         let? iterations := iter y x in Some (iterations <? threshold)).
  rewrite (py_for_ext (Py.range 0 height) _
             (fun g y =>
                Py.for_ (Py.range 0 width)
                  (fun g x =>
                     let? b := alive_at y x in
                     if b then Np.setitem g y x 1 else Some g) g)).
  2:{ intros g y. apply py_for_ext. intros g' x.
      unfold alive_at. now destruct (iter y x). }
  destruct (mandelbrot_rows alive_at (Py.range 0 height) (Py.range 0 width) z
              Hzw) as (g & Eg & Hgw & Hgs & Hgc).
  { intros y Hy. apply range_In in Hy. rewrite Hzs. cbn. lia. }
  { intros x Hx. apply range_In in Hx. rewrite Hzs. cbn. lia. }
  { intros y x Hy Hx. apply range_In in Hy, Hx.
    destruct (Hdef y x) as (n & En); try lia.
    unfold alive_at. rewrite En. eexists. reflexivity. }
  exists g. split; [exact Eg|]. split; [congruence|]. split; [assumption|].
  intros y x n Hy Hx En.
  rewrite Hgc by lia. rewrite !in_range.
  replace ((0 <=? y) && (y <? height)) with true by lia.
  replace ((0 <=? x) && (x <? width)) with true by lia. cbn [andb].
  unfold alive_at. rewrite En. cbn [Py.bind].
  destruct (n <? threshold); [reflexivity|].
  destruct (cell_in_row z y x Hzw) as (row & _ & Hrow & _ & Hv);
    try (rewrite Hzs; cbn [fst snd]; lia).
  apply (Hz0 row _ Hrow Hv).
Qed.

Section JuliaProperties.

Import MandelbrotGenerator.
Import JuliaGenerator.

Context {arith : Arith} {arith_le : ArithLe arith}.

Lemma julia_loop_spec (c z : complex) (max_iter : Z) (fuel : nat) :
  forall k, 0 <= k -> (Z.to_nat (max_iter - k) <= fuel)%nat ->
  (forall m, k <= m <= Z.max k max_iter ->
     negb (match abs_le (julia_orbit c z (Z.to_nat m)) 2 with
           | Some _ => false
           | None => true
           end) = true) ->
  exists n,
    julia_loop fuel c (julia_orbit c z (Z.to_nat k)) k max_iter = Some n
    /\ (forall m, k <= m < n ->
          abs_le (julia_orbit c z (Z.to_nat m)) 2 = Some true)
    /\ ((k <= n < max_iter
         /\ abs_le (julia_orbit c z (Z.to_nat n)) 2 = Some false)
        \/ n = Z.max k max_iter).
Proof.
  induction fuel as [|fuel IH]; intros k Hk Hf Hdef.
  - cbn [julia_loop].
    pose proof (Hdef k ltac:(lia)) as Hk'.
    destruct (abs_le (julia_orbit c z (Z.to_nat k)) 2) as [b|] eqn:E;
      [|discriminate]. cbn [Py.bind].
    replace (k <? max_iter) with false by lia. rewrite andb_false_r.
    exists k. split; [reflexivity|]. split; [intros; lia|right; lia].
  - cbn [julia_loop].
    pose proof (Hdef k ltac:(lia)) as Hk'.
    destruct (abs_le (julia_orbit c z (Z.to_nat k)) 2) as [[|]|] eqn:E;
      [| |discriminate]; cbn [Py.bind andb].
    + destruct (Z.ltb_spec k max_iter) as [Hlt|Hge].
      * destruct (IH (k + 1)) as (n & En & Hbefore & Hn); try lia.
        { intros m Hm. apply Hdef. lia. }
        replace (Z.to_nat (k + 1)) with (S (Z.to_nat k)) in En by lia.
        cbn [julia_orbit] in En. exists n. split; [exact En|]. split.
        -- intros m Hm. destruct (Z.eq_dec m k) as [->|]; [assumption|].
           apply Hbefore. lia.
        -- destruct Hn as [[Hn1 Hn2]|Hn]; [left; split; [lia|assumption]|].
           right. lia.
      * exists k. split; [reflexivity|]. split; [intros; lia|right; lia].
    + exists k. split; [reflexivity|]. split; [intros; lia|].
      destruct (Z.ltb_spec k max_iter); [left; split; [lia|assumption]|].
      right. lia.
Qed.

Lemma julia_iteration_spec (c z : complex) (max_iter : Z) :
  0 <= max_iter -> julia_abs_defined c z max_iter ->
  exists n, julia_iteration c z max_iter = Some n
            /\ julia_escapes_at c z max_iter n.
Proof.
  intros Hm Hdef. unfold julia_iteration.
  destruct (julia_loop_spec c z max_iter (Z.to_nat max_iter) 0)
    as (n & En & Hbefore & Hn); try lia.
  { intros m Hm'. apply Hdef. lia. }
  exists n. split; [exact En|]. split; [exact Hbefore|].
  destruct Hn as [Hn|Hn]; [now left|right; lia].
Qed.

(** X18. [generate_julia_set] returns a grid of the requested shape in
    which a cell is 1 exactly when the orbit of its pixel under
    [z -> z^2 + c] leaves the disc of radius 2 in fewer than [threshold]
    steps, counting at most [max_iter] steps, and 0 otherwise; the [while]
    loop ends after at most [max_iter] rounds.  [abs] has to be defined on
    the points [z_0 .. z_max_iter] of each orbit. *)
Theorem julia_grid_spec (width height : Z) (c_real c_imag : float)
    (x_min x_max y_min y_max : float) (max_iter threshold : Z) :
  0 <= width -> 0 <= height -> 0 <= max_iter ->
  (forall y x, 0 <= y < height -> 0 <= x < width ->
     julia_abs_defined (make_complex c_real c_imag)
       (make_complex
          (add x_min (mul (truediv x width) (sub x_max x_min)))
          (add y_min (mul (truediv y height) (sub y_max y_min))))
       max_iter) ->
  exists grid,
    generate_julia_set width height c_real c_imag x_min x_max y_min y_max
      max_iter threshold = Some grid
    /\ Np.shape grid = (height, width)
    /\ well_shaped grid = true
    /\ (forall y x, 0 <= y < height -> 0 <= x < width ->
          let c := make_complex c_real c_imag in
          let z :=
            make_complex
              (add x_min (mul (truediv x width) (sub x_max x_min)))
              (add y_min (mul (truediv y height) (sub y_max y_min))) in
          exists n,
            julia_escapes_at c z max_iter n
            /\ 0 <= n <= max_iter
            /\ cell grid y x = if n <? threshold then 1 else 0).
Proof.
  intros Hw Hh Hm Hdef.
  set (c := make_complex c_real c_imag).
  set (point := pixel_point width height x_min x_max y_min y_max).
  assert (Hpoint : forall y x, 0 <= y < height -> 0 <= x < width ->
            exists n, julia_iteration c (point y x) max_iter = Some n
                      /\ julia_escapes_at c (point y x) max_iter n).
  { intros y x Hy Hx. apply julia_iteration_spec; auto.
    now apply Hdef. }
  destruct (threshold_grid
              (fun y x => julia_iteration c (point y x) max_iter)
              width height threshold Hw Hh)
    as (g & Eg & Hgs & Hgw & Hgc).
  { intros y x Hy Hx. destruct (Hpoint y x Hy Hx) as (n & En & _). eauto. }
  exists g. split; [exact Eg|]. split; [assumption|]. split; [assumption|].
  intros y x Hy Hx. cbv zeta.
  destruct (Hpoint y x Hy Hx) as (n & En & Hn).
  exists n. split; [exact Hn|]. split.
  - destruct Hn as (_ & [[Hn _]|Hn]); lia.
  - now apply Hgc.
Qed.

End JuliaProperties.

Lemma julia_grid_spec_witness :
  exists grid,
    JuliaGenerator.generate_julia_set
      (arith := MandelbrotGenerator.exact)
      (arith_le := JuliaGenerator.exact_le) 6 4
      (-7 # 10)%Q (1 # 4)%Q (-2 # 1)%Q (2 # 1)%Q (-2 # 1)%Q (2 # 1)%Q 3 2
    = Some grid
    /\ Np.shape grid = (4, 6)
    /\ well_shaped grid = true
    /\ (forall y x, 0 <= y < 4 -> 0 <= x < 6 ->
          let c := ((-7 # 10)%Q, (1 # 4)%Q) in
          let z :=
            ((-2 # 1) + (inject_Z x / inject_Z 6) * ((2 # 1) - (-2 # 1)),
             (-2 # 1) + (inject_Z y / inject_Z 4) * ((2 # 1) - (-2 # 1)))%Q
          in
          exists n,
            JuliaGenerator.julia_escapes_at
              (arith := MandelbrotGenerator.exact)
              (arith_le := JuliaGenerator.exact_le) c z 3 n
            /\ 0 <= n <= 3
            /\ cell grid y x = if n <? 2 then 1 else 0).
Proof.
  apply (julia_grid_spec (arith := MandelbrotGenerator.exact)
           (arith_le := JuliaGenerator.exact_le) 6 4
           (-7 # 10)%Q (1 # 4)%Q (-2 # 1)%Q (2 # 1)%Q (-2 # 1)%Q (2 # 1)%Q
           3 2); try lia.
  intros y x Hy Hx m Hm. reflexivity.
Defined.

Section FractalProperties.

Import MandelbrotGenerator.
Import JuliaGenerator.

Context {arith : Arith} {arith_le : ArithLe arith}.

Lemma julia_orbit_zero (c : complex) (n : nat) :
  julia_orbit c (of_int 0) n = orbit c n.
Proof.
  induction n as [|n IH]; [reflexivity|].
  cbn [julia_orbit orbit]. now rewrite IH.
Qed.

(** X19. The Mandelbrot iteration of [c] is the Julia loop for the
    parameter [c] started at [z = 0]: the two functions return the same
    count whenever [abs(z) <= 2] is the negation of [abs(z) > 2] and [abs]
    is defined on the points [z_0 .. z_max_iter] of the orbit. *)
Theorem mandelbrot_is_julia_from_zero (c : complex) (max_iter : Z) :
  (forall z n, abs_le z n = option_map negb (abs_gt z n)) ->
  0 <= max_iter ->
  julia_abs_defined c (of_int 0) max_iter ->
  exists n,
    mandelbrot_iteration c max_iter = Some n
    /\ julia_iteration c (of_int 0) max_iter = Some n.
Proof.
  intros Hlaw Hm Hdef.
  assert (Hgt : abs_defined c max_iter).
  { intros m Hm' _. specialize (Hdef m ltac:(lia)).
    rewrite julia_orbit_zero, Hlaw in Hdef.
    now destruct (abs_gt (orbit c (Z.to_nat m)) 2). }
  destruct (mandelbrot_iteration_spec c max_iter Hgt) as (n & En & Hn).
  destruct (julia_iteration_spec c (of_int 0) max_iter Hm Hdef)
    as (n' & En' & Hb' & Hn').
  exists n. split; [exact En|]. rewrite En'. f_equal.
  apply (escapes_at_unique c max_iter); [|exact Hn].
  split.
  - intros m Hm'. specialize (Hb' m Hm').
    rewrite julia_orbit_zero, Hlaw in Hb'.
    destruct (abs_gt (orbit c (Z.to_nat m)) 2) as [[|]|];
      cbn in Hb'; congruence.
  - destruct Hn' as [[Hr He]|Hr]; [left|now right].
    split; [exact Hr|].
    rewrite julia_orbit_zero, Hlaw in He.
    destruct (abs_gt (orbit c (Z.to_nat n')) 2) as [[|]|];
      cbn in He; congruence.
Qed.

(** X20. The Mandelbrot grid grows with the threshold: a cell that is 1 for
    a threshold is 1 for every larger one.  For a threshold of zero or less
    the grid is empty, and for a threshold above [max_iter] every cell
    is 1. *)
Theorem mandelbrot_threshold_monotone (width height : Z)
    (x_min x_max y_min y_max : float) (max_iter threshold threshold' : Z) :
  0 <= width -> 0 <= height -> 0 <= max_iter ->
  threshold <= threshold' ->
  (forall y x, 0 <= y < height -> 0 <= x < width ->
     abs_defined
       (make_complex
          (add x_min (mul (truediv x width) (sub x_max x_min)))
          (add y_min (mul (truediv y height) (sub y_max y_min))))
       max_iter) ->
  exists grid grid',
    generate_mandelbrot_grid width height x_min x_max y_min y_max
      max_iter threshold = Some grid
    /\ generate_mandelbrot_grid width height x_min x_max y_min y_max
         max_iter threshold' = Some grid'
    /\ (forall y x, 0 <= y < height -> 0 <= x < width ->
          0 <= cell grid y x <= cell grid' y x
          /\ cell grid' y x <= 1
          /\ (threshold <= 0 -> cell grid y x = 0)
          /\ (max_iter < threshold' -> cell grid' y x = 1)).
Proof.
  intros Hw Hh Hm Ht Hdef.
  set (point := pixel_point width height x_min x_max y_min y_max).
  assert (Hpoint : forall y x, 0 <= y < height -> 0 <= x < width ->
            exists n, mandelbrot_iteration (point y x) max_iter = Some n
                      /\ 0 <= n <= max_iter).
  { intros y x Hy Hx.
    destruct (mandelbrot_iteration_spec (point y x) max_iter)
      as (n & En & _ & Hn); [now apply Hdef|].
    exists n. split; [exact En|]. destruct Hn as [[Hn _]|Hn]; lia. }
  destruct (threshold_grid
              (fun y x => mandelbrot_iteration (point y x) max_iter)
              width height threshold Hw Hh)
    as (g & Eg & _ & _ & Hgc).
  { intros y x Hy Hx. destruct (Hpoint y x Hy Hx) as (n & En & _). eauto. }
  destruct (threshold_grid
              (fun y x => mandelbrot_iteration (point y x) max_iter)
              width height threshold' Hw Hh)
    as (g' & Eg' & _ & _ & Hgc').
  { intros y x Hy Hx. destruct (Hpoint y x Hy Hx) as (n & En & _). eauto. }
  exists g, g'. split; [exact Eg|]. split; [exact Eg'|].
  intros y x Hy Hx. destruct (Hpoint y x Hy Hx) as (n & En & Hn).
  rewrite (Hgc y x n Hy Hx En), (Hgc' y x n Hy Hx En).
  destruct (Z.ltb_spec n threshold); destruct (Z.ltb_spec n threshold');
    lia.
Qed.

End FractalProperties.

Lemma mandelbrot_is_julia_from_zero_witness :
  exists n,
    MandelbrotGenerator.mandelbrot_iteration
      (arith := MandelbrotGenerator.exact) ((1 # 4)%Q, (1 # 2)%Q) 4 = Some n
    /\ JuliaGenerator.julia_iteration
         (arith := MandelbrotGenerator.exact)
         (arith_le := JuliaGenerator.exact_le)
         ((1 # 4)%Q, (1 # 2)%Q) (inject_Z 0, 0%Q) 4 = Some n.
Proof.
  apply (mandelbrot_is_julia_from_zero
           (arith := MandelbrotGenerator.exact)
           (arith_le := JuliaGenerator.exact_le)
           ((1 # 4)%Q, (1 # 2)%Q) 4); [reflexivity | lia |].
  intros m Hm. reflexivity.
Defined.

Lemma mandelbrot_threshold_monotone_witness :
  exists grid grid',
    MandelbrotGenerator.generate_mandelbrot_grid
      (arith := MandelbrotGenerator.exact) 8 6
      (-5 # 2)%Q (1 # 1)%Q (-3 # 2)%Q (3 # 2)%Q 5 2 = Some grid
    /\ MandelbrotGenerator.generate_mandelbrot_grid
         (arith := MandelbrotGenerator.exact) 8 6
         (-5 # 2)%Q (1 # 1)%Q (-3 # 2)%Q (3 # 2)%Q 5 4 = Some grid'
    /\ (forall y x, 0 <= y < 6 -> 0 <= x < 8 ->
          0 <= cell grid y x <= cell grid' y x
          /\ cell grid' y x <= 1
          /\ (2 <= 0 -> cell grid y x = 0)
          /\ (5 < 4 -> cell grid' y x = 1)).
Proof.
  apply (mandelbrot_threshold_monotone (arith := MandelbrotGenerator.exact)
           8 6 (-5 # 2)%Q (1 # 1)%Q (-3 # 2)%Q (3 # 2)%Q 5 2 4); try lia.
  intros y x Hy Hx m Hm _. reflexivity.
Defined.

(** ** The pointer and the keys *)

(** X13. A left click followed by a right click at the same point leaves
    the state of the right click alone: the erasing stroke removes what the
    painting stroke has put down, and the second click never expands the
    grid again. *)
Theorem left_click_then_right_click
    (self s1 : GameOfLifeVisualizer.visualizer) (center_x center_y : Z) :
  grid_ok (GameOfLifeVisualizer.game self) = true ->
  size_within_max (GameOfLifeVisualizer.game self) = true ->
  GameOfLifeVisualizer.on_mouse_press self 1 center_x center_y = Some s1 ->
  exists s2,
    GameOfLifeVisualizer.on_mouse_press s1 3 center_x center_y = Some s2
    /\ GameOfLifeVisualizer.on_mouse_press self 3 center_x center_y
       = Some s2
    /\ GameOfLifeVisualizer.paint_mode s2 = false.
Proof.
  intros Hg Hm E.
  unfold GameOfLifeVisualizer.on_mouse_press in *. cbn [Z.eqb] in *.
  destruct (paint_cell_then_erase
              (GameOfLifeVisualizer.with_paint_mode self true) s1
              center_x center_y Hg Hm E) as (s2 & E1 & E2).
  exists s2. split; [exact E1|]. split; [exact E2|].
  unfold GameOfLifeVisualizer.paint_cell in E1.
  destruct (if GameOfLifeVisualizer.auto_expand _ then _ else _);
    [|discriminate]. cbn [Py.bind] in E1.
  destruct (Py.for_ _ _ _); [|discriminate]. cbn [Py.bind] in E1.
  now injection E1 as <-.
Qed.

Lemma left_click_then_right_click_witness :
  exists s1,
    GameOfLifeVisualizer.on_mouse_press
      {| GameOfLifeVisualizer.game := loaded create_oscillator_pattern;
         GameOfLifeVisualizer.paint_mode := false;
         GameOfLifeVisualizer.brush_size := 2;
         GameOfLifeVisualizer.current_color := Blue;
         GameOfLifeVisualizer.auto_expand := true;
         GameOfLifeVisualizer.chaos_intensity := 0 |} 1 1 3 = Some s1
    /\ exists s2,
         GameOfLifeVisualizer.on_mouse_press s1 3 1 3 = Some s2
         /\ GameOfLifeVisualizer.on_mouse_press
              {| GameOfLifeVisualizer.game :=
                   loaded create_oscillator_pattern;
                 GameOfLifeVisualizer.paint_mode := false;
                 GameOfLifeVisualizer.brush_size := 2;
                 GameOfLifeVisualizer.current_color := Blue;
                 GameOfLifeVisualizer.auto_expand := true;
                 GameOfLifeVisualizer.chaos_intensity := 0 |} 3 1 3
            = Some s2
         /\ GameOfLifeVisualizer.paint_mode s2 = false.
Proof.
  eexists. split; [vm_compute; reflexivity|].
  apply (left_click_then_right_click
           {| GameOfLifeVisualizer.game := loaded create_oscillator_pattern;
              GameOfLifeVisualizer.paint_mode := false;
              GameOfLifeVisualizer.brush_size := 2;
              GameOfLifeVisualizer.current_color := Blue;
              GameOfLifeVisualizer.auto_expand := true;
              GameOfLifeVisualizer.chaos_intensity := 0 |} _ 1 3);
    [reflexivity | reflexivity | vm_compute; reflexivity].
Defined.

(** X21. The chaos keys keep the engine on one of the four chaos levels:
    from an intensity between 0 and 3, each of the keys ['c'], ['b'] and
    ['n'] succeeds, leaves an intensity between 0 and 3 and gives the engine
    the three settings of that level, so that chaos is enabled exactly when
    the intensity is not zero.  ['b'] moves to the next level and wraps
    from high to off, ['c'] switches between off and the level that was
    set (low when none was), ['n'] switches between off and medium.  No key
    touches the grid, its size or the bounds. *)
Theorem chaos_keys_select_level (self : GameOfLifeVisualizer.visualizer)
    (k : GameOfLifeVisualizer.key) :
  0 <= GameOfLifeVisualizer.chaos_intensity self < 4 ->
  k = GameOfLifeVisualizer.KeyC \/ k = GameOfLifeVisualizer.KeyB
  \/ k = GameOfLifeVisualizer.KeyN ->
  exists self' enabled chaos_prob random_prob,
    GameOfLifeVisualizer.on_key_press self k = Some self'
    /\ GameOfLifeVisualizer.chaos_intensity self'
       = match k with
         | GameOfLifeVisualizer.KeyB =>
             (GameOfLifeVisualizer.chaos_intensity self + 1) mod 4
         | GameOfLifeVisualizer.KeyN =>
             if chaos_mode (GameOfLifeVisualizer.game self) then 0 else 2
         | _ =>
             if chaos_mode (GameOfLifeVisualizer.game self) then 0
             else if GameOfLifeVisualizer.chaos_intensity self =? 0 then 1
                  else GameOfLifeVisualizer.chaos_intensity self
         end
    /\ 0 <= GameOfLifeVisualizer.chaos_intensity self' < 4
    /\ nth_error GameOfLifeVisualizer.chaos_levels
         (Z.to_nat (GameOfLifeVisualizer.chaos_intensity self'))
       = Some (enabled, chaos_prob, random_prob)
    /\ enabled = negb (GameOfLifeVisualizer.chaos_intensity self' =? 0)
    /\ self'
       = GameOfLifeVisualizer.with_game
           (GameOfLifeVisualizer.with_chaos_intensity self
              (GameOfLifeVisualizer.chaos_intensity self'))
           (set_chaos_mode (GameOfLifeVisualizer.game self) enabled
              chaos_prob random_prob).
Proof.
  intros Hi Hk.
  assert (Ei : GameOfLifeVisualizer.chaos_intensity self = 0
               \/ GameOfLifeVisualizer.chaos_intensity self = 1
               \/ GameOfLifeVisualizer.chaos_intensity self = 2
               \/ GameOfLifeVisualizer.chaos_intensity self = 3) by lia.
  destruct self as [g pm bs cc ae ci].
  cbn [GameOfLifeVisualizer.chaos_intensity GameOfLifeVisualizer.game] in *.
  destruct Hk as [ -> | [ -> | -> ] ];
    destruct Ei as [ -> | [ -> | [ -> | -> ] ] ];
    unfold GameOfLifeVisualizer.on_key_press;
    cbn [GameOfLifeVisualizer.chaos_intensity GameOfLifeVisualizer.game
           GameOfLifeVisualizer.with_game
           GameOfLifeVisualizer.with_chaos_intensity
           GameOfLifeVisualizer.with_chaos_mode chaos_mode set_chaos_mode];
    try (destruct (chaos_mode g));
    do 4 eexists; (split; [reflexivity|]);
    (split; [reflexivity|]); (split; [cbn; lia|]);
    (split; [reflexivity|]); split; reflexivity.
Qed.

Lemma chaos_keys_select_level_witness :
  exists self' enabled chaos_prob random_prob,
    GameOfLifeVisualizer.on_key_press
      {| GameOfLifeVisualizer.game := loaded create_oscillator_pattern;
         GameOfLifeVisualizer.paint_mode := true;
         GameOfLifeVisualizer.brush_size := 1;
         GameOfLifeVisualizer.current_color := Red;
         GameOfLifeVisualizer.auto_expand := true;
         GameOfLifeVisualizer.chaos_intensity := 3 |}
      GameOfLifeVisualizer.KeyB = Some self'
    /\ GameOfLifeVisualizer.chaos_intensity self' = (3 + 1) mod 4
    /\ 0 <= GameOfLifeVisualizer.chaos_intensity self' < 4
    /\ nth_error GameOfLifeVisualizer.chaos_levels
         (Z.to_nat (GameOfLifeVisualizer.chaos_intensity self'))
       = Some (enabled, chaos_prob, random_prob)
    /\ enabled = negb (GameOfLifeVisualizer.chaos_intensity self' =? 0)
    /\ self'
       = GameOfLifeVisualizer.with_game
           (GameOfLifeVisualizer.with_chaos_intensity
              {| GameOfLifeVisualizer.game :=
                   loaded create_oscillator_pattern;
                 GameOfLifeVisualizer.paint_mode := true;
                 GameOfLifeVisualizer.brush_size := 1;
                 GameOfLifeVisualizer.current_color := Red;
                 GameOfLifeVisualizer.auto_expand := true;
                 GameOfLifeVisualizer.chaos_intensity := 3 |}
              (GameOfLifeVisualizer.chaos_intensity self'))
           (set_chaos_mode (loaded create_oscillator_pattern) enabled
              chaos_prob random_prob).
Proof.
  apply (chaos_keys_select_level
           {| GameOfLifeVisualizer.game := loaded create_oscillator_pattern;
              GameOfLifeVisualizer.paint_mode := true;
              GameOfLifeVisualizer.brush_size := 1;
              GameOfLifeVisualizer.current_color := Red;
              GameOfLifeVisualizer.auto_expand := true;
              GameOfLifeVisualizer.chaos_intensity := 3 |}
           GameOfLifeVisualizer.KeyB); [cbn; lia|].
  right. left. reflexivity.
Defined.

(** X22. Four presses of ['b'] go once around the chaos levels: they
    succeed from every intensity between 0 and 3 and come back to it; when
    the engine was on the level of that intensity, they restore the whole
    state. *)
Theorem chaos_intensity_cycle (self : GameOfLifeVisualizer.visualizer) :
  0 <= GameOfLifeVisualizer.chaos_intensity self < 4 ->
  exists s1 s2 s3 s4,
    GameOfLifeVisualizer.on_key_press self GameOfLifeVisualizer.KeyB
    = Some s1
    /\ GameOfLifeVisualizer.on_key_press s1 GameOfLifeVisualizer.KeyB
       = Some s2
    /\ GameOfLifeVisualizer.on_key_press s2 GameOfLifeVisualizer.KeyB
       = Some s3
    /\ GameOfLifeVisualizer.on_key_press s3 GameOfLifeVisualizer.KeyB
       = Some s4
    /\ GameOfLifeVisualizer.chaos_intensity s4
       = GameOfLifeVisualizer.chaos_intensity self
    /\ (GameOfLifeVisualizer.list_getitem GameOfLifeVisualizer.chaos_levels
          (GameOfLifeVisualizer.chaos_intensity self)
        = Some (chaos_mode (GameOfLifeVisualizer.game self),
                chaos_probability (GameOfLifeVisualizer.game self),
                rule_randomness (GameOfLifeVisualizer.game self)) ->
        s4 = self).
Proof.
  intros Hi.
  assert (Ei : GameOfLifeVisualizer.chaos_intensity self = 0
               \/ GameOfLifeVisualizer.chaos_intensity self = 1
               \/ GameOfLifeVisualizer.chaos_intensity self = 2
               \/ GameOfLifeVisualizer.chaos_intensity self = 3) by lia.
  destruct self as [g pm bs cc ae ci].
  destruct g as [mw mh w h gr ab bm cm cp rr].
  cbn [GameOfLifeVisualizer.chaos_intensity GameOfLifeVisualizer.game
         chaos_mode chaos_probability rule_randomness] in *.
  destruct Ei as [ -> | [ -> | [ -> | -> ] ] ];
    do 4 eexists;
    (split; [reflexivity|]); (split; [reflexivity|]);
    (split; [reflexivity|]); (split; [reflexivity|]);
    (split; [reflexivity|]);
    intros E; injection E as <- <- <-; reflexivity.
Qed.

Lemma chaos_intensity_cycle_witness :
  exists s1 s2 s3 s4,
    GameOfLifeVisualizer.on_key_press
      {| GameOfLifeVisualizer.game :=
           set_chaos_mode (loaded create_oscillator_pattern) true
             GameOfLifeVisualizer.lit_0_5 Float.lit_0_1;
         GameOfLifeVisualizer.paint_mode := true;
         GameOfLifeVisualizer.brush_size := 1;
         GameOfLifeVisualizer.current_color := Red;
         GameOfLifeVisualizer.auto_expand := true;
         GameOfLifeVisualizer.chaos_intensity := 2 |}
      GameOfLifeVisualizer.KeyB = Some s1
    /\ GameOfLifeVisualizer.on_key_press s1 GameOfLifeVisualizer.KeyB
       = Some s2
    /\ GameOfLifeVisualizer.on_key_press s2 GameOfLifeVisualizer.KeyB
       = Some s3
    /\ GameOfLifeVisualizer.on_key_press s3 GameOfLifeVisualizer.KeyB
       = Some s4
    /\ GameOfLifeVisualizer.chaos_intensity s1 = 3
    /\ GameOfLifeVisualizer.chaos_intensity s2 = 0
    /\ GameOfLifeVisualizer.chaos_intensity s3 = 1
    /\ GameOfLifeVisualizer.chaos_intensity s4 = 2
    /\ GameOfLifeVisualizer.list_getitem GameOfLifeVisualizer.chaos_levels 2
       = Some (true, GameOfLifeVisualizer.lit_0_5, Float.lit_0_1)
    /\ s4 = {| GameOfLifeVisualizer.game :=
                 set_chaos_mode (loaded create_oscillator_pattern) true
                   GameOfLifeVisualizer.lit_0_5 Float.lit_0_1;
               GameOfLifeVisualizer.paint_mode := true;
               GameOfLifeVisualizer.brush_size := 1;
               GameOfLifeVisualizer.current_color := Red;
               GameOfLifeVisualizer.auto_expand := true;
               GameOfLifeVisualizer.chaos_intensity := 2 |}.
Proof.
  destruct (chaos_intensity_cycle
              {| GameOfLifeVisualizer.game :=
                   set_chaos_mode (loaded create_oscillator_pattern) true
                     GameOfLifeVisualizer.lit_0_5 Float.lit_0_1;
                 GameOfLifeVisualizer.paint_mode := true;
                 GameOfLifeVisualizer.brush_size := 1;
                 GameOfLifeVisualizer.current_color := Red;
                 GameOfLifeVisualizer.auto_expand := true;
                 GameOfLifeVisualizer.chaos_intensity := 2 |})
    as (s1 & s2 & s3 & s4 & E1 & E2 & E3 & E4 & Ei & Hrestore);
    [cbn; lia|].
  exists s1, s2, s3, s4.
  split; [exact E1|]. split; [exact E2|]. split; [exact E3|].
  split; [exact E4|].
  vm_compute in E1. injection E1 as <-.
  vm_compute in E2. injection E2 as <-.
  vm_compute in E3. injection E3 as <-.
  split; [reflexivity|]. split; [reflexivity|]. split; [reflexivity|].
  split; [exact Ei|]. split; [reflexivity|].
  apply Hrestore. reflexivity.
Defined.
